(** * luluco-typecast: batch text-to-speech asset generators

    A shallow embedding of the four command-line scripts
    ([generate_colors.py], [generate_voice_assets_sample.py],
    [generate_voice_assets.py], [typecast_batch_tts.py]) and of [config.py],
    followed by the properties of the sampler, of the per-item runner, of the
    write-then-rename helper and of the file-name derivation.

    Conventions.
    - A Python [str] is a [string]; its characters are the code points
      0..255.  [str.strip], [str.lower] and UTF-8 encoding are written out on
      that range.
    - A [pathlib.Path] is an absolute POSIX path as pathlib keeps it: its
      anchor (one slash, or two when the text began with exactly two) and its
      parts.  [p / name] is [Fs.joinpath]: an absolute [name] replaces [p],
      empty and [.] components are dropped, [..] components are kept.
    - [bytes] is a list of byte values ([Z], 0..255).
    - The file system has regular files, each under the list of names that
      leads to it from the root, and directories.  A path is looked up the
      way the operating system walks it: every name on the way must be a
      directory, and [..] steps to the parent.  There are no symbolic links,
      no permissions and no limits on names or space; both anchors lead to
      the same root.
    - A run threads a [World]: the files and directories, every state of
      the files that could be observed while they were written, the requests
      handed to the service, the two output streams, the pauses, the
      environment and what the operating system offers as a random seed. *)

From Stdlib Require Import ZArith QArith String Ascii List Lia Bool DecimalString.
From stdpp Require Import base option list strings gmap.

Local Open Scope string_scope.
Local Open Scope Z_scope.
Local Open Scope list_scope.

(** ** Python strings *)

Module PyStr.

Definition code (c : ascii) : Z := Z.of_nat (nat_of_ascii c).

Definition chars (s : string) : list ascii := list_ascii_of_string s.
Definition str (l : list ascii) : string := string_of_list_ascii l.

(** [str.isspace] on a single character, code points 0..255. *)
Definition is_space (c : ascii) : bool :=
  let n := code c in
  ((9 <=? n) && (n <=? 13)) || ((28 <=? n) && (n <=? 32))
  || (n =? 133) || (n =? 160).

Fixpoint lstrip_by (p : ascii -> bool) (l : list ascii) : list ascii :=
  match l with
  | [] => []
  | c :: r => if p c then lstrip_by p r else l
  end.

Definition rstrip_by (p : ascii -> bool) (l : list ascii) : list ascii :=
  rev (lstrip_by p (rev l)).

Definition strip_by (p : ascii -> bool) (l : list ascii) : list ascii :=
  rstrip_by p (lstrip_by p l).

(** [s.strip()] *)
Definition strip (s : string) : string := str (strip_by is_space (chars s)).

(** [s.strip(cs)]: characters of [cs] removed from both ends. *)
Definition strip_chars (cs : string) (s : string) : string :=
  str (strip_by (fun c => bool_decide (c ∈ chars cs)) (chars s)).

(** [str.lower] on one code point below 256: the ASCII capitals and the
    Latin-1 capitals (U+00C0..U+00DE without the multiplication sign). *)
Definition lower_char (c : ascii) : ascii :=
  let n := code c in
  if ((65 <=? n) && (n <=? 90))
     || ((192 <=? n) && (n <=? 222) && negb (n =? 215))
  then ascii_of_nat (Z.to_nat (n + 32))
  else c.

Definition lower (s : string) : string := str (map lower_char (chars s)).

(** [len(s)] *)
Definition len (s : string) : Z := Z.of_nat (String.length s).

(** [s[:n]] for [0 <= n]. *)
Definition prefix (n : Z) (s : string) : string :=
  str (take (Z.to_nat n) (chars s)).

(** Truthiness of a string: [not s] is [true] on the empty string only. *)
Definition truthy (s : string) : bool :=
  match s with EmptyString => false | _ => true end.

(** [s.encode("utf-8")] for code points below 256. *)
Definition utf8_char (c : ascii) : list Z :=
  let n := code c in
  if n <? 128 then [n]
  else [Z.lor 192 (Z.shiftr n 6); Z.lor 128 (Z.land n 63)].

Definition encode_utf8 (s : string) : list Z :=
  flat_map utf8_char (chars s).

End PyStr.

(** ** hashlib.sha1 (FIPS 180-4), on byte lists *)

Module Sha1.

Definition mask32 (x : Z) : Z := Z.land x 4294967295.
Definition add32 (x y : Z) : Z := mask32 (x + y).
Definition rotl (n : Z) (x : Z) : Z :=
  mask32 (Z.lor (Z.shiftl x n) (Z.shiftr x (32 - n))).
Definition not32 (x : Z) : Z := Z.lxor x 4294967295.

(** Message padding: a 1 bit, zeros, and the bit length on 64 bits. *)
Definition be_bytes (k : nat) (x : Z) : list Z :=
  map (fun i => Z.land (Z.shiftr x (8 * Z.of_nat i)) 255) (rev (seq 0 k)).

Definition pad (msg : list Z) : list Z :=
  let l := Z.of_nat (length msg) in
  let zeros := Z.to_nat ((55 - l) mod 64) in
  msg ++ [128] ++ repeat 0 zeros ++ be_bytes 8 (8 * l).

Fixpoint be_word (bs : list Z) (acc : Z) : Z :=
  match bs with
  | [] => acc
  | b :: r => be_word r (Z.lor (Z.shiftl acc 8) b)
  end.

Fixpoint words (fuel : nat) (bs : list Z) : list Z :=
  match fuel with
  | O => []
  | S f =>
      match bs with
      | [] => []
      | _ => be_word (take 4 bs) 0 :: words f (drop 4 bs)
      end
  end.

Definition w_at (w : list Z) (t : nat) : Z := nth t w 0.

(** The 80-word message schedule of one block. *)
Definition schedule (block : list Z) : list Z :=
  fold_left
    (fun w t =>
       w ++ [rotl 1 (Z.lxor (Z.lxor (w_at w (t - 3)) (w_at w (t - 8)))
                            (Z.lxor (w_at w (t - 14)) (w_at w (t - 16))))])
    (seq 16 64) (words 16 block).

Record regs := Regs { ra : Z; rb : Z; rc : Z; rd : Z; re : Z }.

Definition f_k (t : nat) (b c d : Z) : Z * Z :=
  if (t <? 20)%nat then
    (Z.lor (Z.land b c) (Z.land (not32 b) d), 1518500249)
  else if (t <? 40)%nat then
    (Z.lxor (Z.lxor b c) d, 1859775393)
  else if (t <? 60)%nat then
    (Z.lor (Z.lor (Z.land b c) (Z.land b d)) (Z.land c d), 2400959708)
  else
    (Z.lxor (Z.lxor b c) d, 3395469782).

Definition round (w : list Z) (r : regs) (t : nat) : regs :=
  let '(f, k) := f_k t (rb r) (rc r) (rd r) in
  let tmp := add32 (add32 (add32 (add32 (rotl 5 (ra r)) f) (re r)) k)
                   (w_at w t) in
  Regs tmp (ra r) (rotl 30 (rb r)) (rc r) (rd r).

Definition compress (h : regs) (block : list Z) : regs :=
  let w := schedule block in
  let r := fold_left (round w) (seq 0 80) h in
  Regs (add32 (ra h) (ra r)) (add32 (rb h) (rb r)) (add32 (rc h) (rc r))
       (add32 (rd h) (rd r)) (add32 (re h) (re r)).

Fixpoint blocks (fuel : nat) (bs : list Z) (h : regs) : regs :=
  match fuel with
  | O => h
  | S f =>
      match bs with
      | [] => h
      | _ => blocks f (drop 64 bs) (compress h (take 64 bs))
      end
  end.

Definition init : regs :=
  Regs 1732584193 4023233417 2562383102 271733878 3285377520.

Definition digest (msg : list Z) : list Z :=
  let p := pad msg in
  let r := blocks (length p) p init in
  flat_map (be_bytes 4) [ra r; rb r; rc r; rd r; re r].

Definition hex_digit (n : Z) : ascii :=
  if n <? 10 then ascii_of_nat (Z.to_nat (48 + n))
  else ascii_of_nat (Z.to_nat (87 + n)).

Definition hex_byte (b : Z) : list ascii :=
  [hex_digit (Z.shiftr b 4); hex_digit (Z.land b 15)].

(** [hashlib.sha1(data).hexdigest()] *)
Definition hexdigest (msg : list Z) : string :=
  PyStr.str (flat_map hex_byte (digest msg)).

End Sha1.

(** ** typecast_batch_tts.py: file-name helpers *)

Module BatchNames.

(** [SAFE_CHARS = re.compile(r"[^a-zA-Z0-9._-]+")]: the characters the
    class excludes. *)
Definition is_safe (c : ascii) : bool :=
  let n := PyStr.code c in
  ((97 <=? n) && (n <=? 122)) || ((65 <=? n) && (n <=? 90))
  || ((48 <=? n) && (n <=? 57))
  || (n =? 46) || (n =? 95) || (n =? 45).

(** [SAFE_CHARS.sub("-", s)]: every maximal run of excluded characters
    becomes one ["-"].  [in_run] says the previous character was part of
    the run being replaced. *)
Fixpoint sub_runs (in_run : bool) (l : list ascii) : list ascii :=
  match l with
  | [] => []
  | c :: r =>
      if is_safe c then c :: sub_runs false r
      else if in_run then sub_runs true r
      else "-"%char :: sub_runs true r
  end.

Definition SAFE_CHARS_sub (s : string) : string :=
  PyStr.str (sub_runs false (PyStr.chars s)).

Definition slugify (s : string) (max_len : Z) : string :=
  let s := PyStr.lower (PyStr.strip s) in
  let s := PyStr.strip_chars "-" (SAFE_CHARS_sub s) in
  if max_len <? PyStr.len s then PyStr.prefix max_len s else s.

Definition short_hash (s : string) (n : Z) : string :=
  PyStr.prefix n (Sha1.hexdigest (PyStr.encode_utf8 s)).

End BatchNames.

(** ** Python values, exceptions and the error monad *)

Module Py.

(** A Python object as [yaml.safe_load] returns it and as the SDK takes it.
    A dict keeps its string keys in an association list; the first binding
    of a key is the dict's. *)
#[warnings="-register-all"]
Inductive value :=
| VNone
| VBool (b : bool)
| VInt (z : Z)
| VFloat (q : Q)
| VStr (s : string)
| VList (l : list value)
| VDict (m : list (string * value)).

(** An exception: its class and its message. *)
Record exn := Exn { exn_class : string; exn_msg : string }.

(** A computation that returns or raises. *)
Definition result (A : Type) : Type := exn + A.

Definition ret {A} (a : A) : result A := inr a.
Definition raise {A} (e : exn) : result A := inl e.
Definition bind {A B} (m : result A) (k : A -> result B) : result B :=
  match m with
  | inl e => inl e
  | inr a => k a
  end.

(** Truth value of a Python object ([bool(v)]). *)
Definition truthy (v : value) : bool :=
  match v with
  | VNone => false
  | VBool b => b
  | VInt z => negb (z =? 0)
  | VFloat q => negb (Qeq_bool q 0)
  | VStr s => PyStr.truthy s
  | VList l => match l with [] => false | _ => true end
  | VDict m => match m with [] => false | _ => true end
  end.

(** [v or {}] *)
Definition or_empty_dict (v : value) : value :=
  if truthy v then v else VDict [].

(** [v or []] *)
Definition or_empty_list (v : value) : value :=
  if truthy v then v else VList [].

Fixpoint assoc (k : string) (m : list (string * value)) : option value :=
  match m with
  | [] => None
  | (k', v) :: r => if String.eqb k k' then Some v else assoc k r
  end.

(** [k in d] *)
Definition has_key (k : string) (m : list (string * value)) : bool :=
  match assoc k m with Some _ => true | None => false end.

(** [d.get(k, dflt)] on a dict. *)
Definition dict_get (m : list (string * value)) (k : string) (dflt : value)
  : value :=
  match assoc k m with Some v => v | None => dflt end.

(** [v.get(k)]: only a dict has the method. *)
Definition get (v : value) (k : string) : result value :=
  match v with
  | VDict m => ret (dict_get m k VNone)
  | _ => raise (Exn "AttributeError" "object has no attribute 'get'")
  end.

(** [v.get(k, dflt)] *)
Definition get_or (v : value) (k : string) (dflt : value) : result value :=
  match v with
  | VDict m => ret (dict_get m k dflt)
  | _ => raise (Exn "AttributeError" "object has no attribute 'get'")
  end.

(** [{**a, **b}]: the bindings of [b] shadow those of [a]. *)
Definition dict_merge (a b : list (string * value)) : list (string * value) :=
  b ++ a.

(** [str(z)] for an integer. *)
Definition str_of_Z (z : Z) : string := NilZero.string_of_int (Z.to_int z).

End Py.

Notation "'let*' x ':=' m 'in' k" := (Py.bind m (fun x => k))
  (at level 10, x pattern, m at level 100, k at level 200, only parsing).


(** ** Paths *)

Module Path.

(** An absolute path: [dslash] when its anchor is [//], and its parts
    after the anchor. *)
Record t := { dslash : bool; parts : list string }.

(** The pieces of a text between its separators. *)
Fixpoint split (l : list ascii) : list (list ascii) :=
  match l with
  | [] => [[]]
  | c :: r =>
      if Ascii.eqb c "/" then [] :: split r
      else match split r with
           | h :: t => (c :: h) :: t
           | [] => [[c]]
           end
  end.

(** A piece pathlib keeps as a part: not empty and not [.]. *)
Definition kept (x : list ascii) : bool :=
  match x with
  | [] => false
  | [c] => negb (Ascii.eqb c ".")
  | _ => true
  end.

(** The parts of the text [s]. *)
Definition components (s : string) : list string :=
  map PyStr.str (filter (fun x => kept x = true) (split (PyStr.chars s))).

(** The anchor of the text [s], when it has one: [Some true] for exactly
    two leading slashes, [Some false] for one, or for three and more. *)
Definition anchor (s : string) : option bool :=
  match PyStr.chars s with
  | c1 :: r1 =>
      if Ascii.eqb c1 "/" then
        match r1 with
        | c2 :: r2 =>
            if Ascii.eqb c2 "/" then
              match r2 with
              | c3 :: _ => if Ascii.eqb c3 "/" then Some false else Some true
              | [] => Some true
              end
            else Some false
        | [] => Some false
        end
      else None
  | [] => None
  end.

(** [p / s] *)
Definition div (p : t) (s : string) : t :=
  match anchor s with
  | Some d => {| dslash := d; parts := components s |}
  | None => {| dslash := dslash p; parts := parts p ++ components s |}
  end.

(** [str(p)] *)
Definition str (p : t) : string :=
  (if dslash p then "//" else "/") +:+ String.concat "/" (parts p).

(** [p.name] *)
Definition name (p : t) : string := default EmptyString (last (parts p)).

(** [p.parent] *)
Definition parent (p : t) : t :=
  {| dslash := dslash p; parts := removelast (parts p) |}.

(** [str(p.relative_to(base))]: raises [ValueError] unless [base] has the
    anchor of [p] and its parts are the first parts of [p]. *)
Definition relative_to (p base : t) : Py.result string :=
  if Bool.eqb (dslash p) (dslash base)
     && bool_decide (take (length (parts base)) (parts p) = parts base)
  then Py.ret (match drop (length (parts base)) (parts p) with
               | [] => "."
               | rest => String.concat "/" rest
               end)
  else Py.raise (Py.Exn "ValueError"
                   ("'" +:+ str p +:+ "' is not in the subpath of '"
                    +:+ str base
                    +:+ "' OR one path is relative and the other is absolute.")).

(** [p.with_suffix(p.suffix + ".tmp")]: the last part followed by
    [".tmp"]; raises [ValueError] for a path without parts.  (For a last part
    [..] pathlib gives three dots and [tmp]; no destination ends so.) *)
Definition with_suffix_tmp (p : t) : Py.result t :=
  match last (parts p) with
  | None => Py.raise (Py.Exn "ValueError"
                        ("PurePosixPath('" +:+ str p +:+ "') has an empty name"))
  | Some n =>
      Py.ret {| dslash := dslash p;
                parts := removelast (parts p) ++ [n +:+ ".tmp"] |}
  end.

End Path.

(** ** The file system *)

Module Fs.

Abbreviation bytes := (list Z).
(** The names that lead from the root to a file or a directory. *)
Abbreviation key := (list string).
Abbreviation files_t := (gmap (list string) (list Z)).
Abbreviation dirs_t := (gset (list string)).

(** [p / name] *)
Definition joinpath (p : Path.t) (name : string) : Path.t := Path.div p name.

(** The root is a directory; the others are those of [ds]. *)
Definition is_dir (ds : dirs_t) (k : key) : bool :=
  bool_decide (k = [] \/ k ∈ ds).

(** One name further from [cur]. *)
Definition step (cur : key) (c : string) : key :=
  if String.eqb c ".." then removelast cur else cur ++ [c].

(** The walk of the operating system along [rest] from [cur]: each
    place it leaves must be a directory. *)
Fixpoint walk (ds : dirs_t) (cur : key) (rest : list string) : option key :=
  match rest with
  | [] => Some cur
  | c :: rest' =>
      if is_dir ds cur then walk ds (step cur c) rest' else None
  end.

(** Where the path leads, when the walk gets there. *)
Definition locate (ds : dirs_t) (p : Path.t) : option key :=
  walk ds [] (Path.parts p).

(** Whether the walk was stopped by a regular file. *)
Fixpoint blocked (fs : files_t) (ds : dirs_t) (cur : key) (rest : list string)
  : bool :=
  match rest with
  | [] => false
  | c :: rest' =>
      if is_dir ds cur then blocked fs ds (step cur c) rest'
      else bool_decide (is_Some (fs !! cur))
  end.

(** The error of a walk that does not get there. *)
Definition walk_error (fs : files_t) (ds : dirs_t) (p : Path.t) : Py.exn :=
  if blocked fs ds [] (Path.parts p)
  then Py.Exn "NotADirectoryError"
              ("[Errno 20] Not a directory: '" +:+ Path.str p +:+ "'")
  else Py.Exn "FileNotFoundError"
              ("[Errno 2] No such file or directory: '" +:+ Path.str p +:+ "'").

(** [p.exists()] *)
Definition exists_ (fs : files_t) (ds : dirs_t) (p : Path.t) : bool :=
  match locate ds p with
  | Some k => bool_decide (is_Some (fs !! k)) || is_dir ds k
  | None => false
  end.

(** [p.is_dir()] *)
Definition path_is_dir (ds : dirs_t) (p : Path.t) : bool :=
  match locate ds p with
  | Some k => is_dir ds k
  | None => false
  end.

(** [p.read_bytes()] *)
Definition read_bytes (fs : files_t) (ds : dirs_t) (p : Path.t)
  : Py.result bytes :=
  match locate ds p with
  | None => Py.raise (walk_error fs ds p)
  | Some k =>
      if is_dir ds k
      then Py.raise (Py.Exn "IsADirectoryError"
                       ("[Errno 21] Is a directory: '" +:+ Path.str p +:+ "'"))
      else match fs !! k with
           | Some c => Py.ret c
           | None =>
               Py.raise (Py.Exn "FileNotFoundError"
                           ("[Errno 2] No such file or directory: '"
                            +:+ Path.str p +:+ "'"))
           end
  end.

(** Opening [p] for writing: the place of the file, unless the walk fails or
    a directory is there. *)
Definition open_w (fs : files_t) (ds : dirs_t) (p : Path.t) : Py.result key :=
  match locate ds p with
  | None => Py.raise (walk_error fs ds p)
  | Some k =>
      if is_dir ds k
      then Py.raise (Py.Exn "IsADirectoryError"
                       ("[Errno 21] Is a directory: '" +:+ Path.str p +:+ "'"))
      else Py.ret k
  end.

(** [p.write_bytes(data)] on the file at [k], when it has returned. *)
Definition write_bytes (k : key) (data : bytes) (fs : files_t) : files_t :=
  <[k := data]> fs.

(** The states of the files that can be observed while
    [p.write_bytes(data)] runs: the file is opened for writing (created or
    truncated), then the data reach it front to back. *)
Definition write_bytes_states (k : key) (data : bytes) (fs : files_t)
  : list files_t :=
  map (fun n => <[k := take n data]> fs) (seq 0 (S (length data))).

(** [src.replace(dst)] for a regular file [src]: one step ([os.replace]);
    raises when [src] is missing, when the walk to [dst] fails, and when [dst]
    is a directory. *)
Definition replace (src dst : Path.t) (fs : files_t) (ds : dirs_t)
  : Py.result files_t :=
  match locate ds src, locate ds dst with
  | Some ks, Some kd =>
      match fs !! ks with
      | Some c =>
          if is_dir ds kd
          then Py.raise (Py.Exn "IsADirectoryError"
                           ("[Errno 21] Is a directory: '" +:+ Path.str src
                            +:+ "' -> '" +:+ Path.str dst +:+ "'"))
          else Py.ret (<[kd := c]> (delete ks fs))
      | None =>
          Py.raise (Py.Exn "FileNotFoundError"
                      ("[Errno 2] No such file or directory: '"
                       +:+ Path.str src +:+ "' -> '" +:+ Path.str dst +:+ "'"))
      end
  | None, _ => Py.raise (walk_error fs ds src)
  | _, None => Py.raise (walk_error fs ds dst)
  end.

(** [os.mkdir(p)]: the directories afterwards. *)
Definition os_mkdir (fs : files_t) (ds : dirs_t) (p : Path.t)
  : Py.result dirs_t :=
  match locate ds p with
  | None => Py.raise (walk_error fs ds p)
  | Some k =>
      if bool_decide (is_Some (fs !! k)) || is_dir ds k
      then Py.raise (Py.Exn "FileExistsError"
                       ("[Errno 17] File exists: '" +:+ Path.str p +:+ "'"))
      else Py.ret ({[ k ]} ∪ ds)
  end.

(** [p.mkdir(parents=True, exist_ok=True)] as pathlib does it, for the path
    with the anchor [d] and the parts [rev rparts]: [os.mkdir]; when a name
    on the way is missing, the parent first and [os.mkdir] again; any other
    error is passed on unless [p] is a directory.  What was made before an
    error stays. *)
Fixpoint mkdir_parents (fs : files_t) (d : bool) (rparts : list string)
    (ds : dirs_t) : Py.result unit * dirs_t :=
  let p := {| Path.dslash := d; Path.parts := rev rparts |} in
  let settle (ds' : dirs_t) (e : Py.exn) : Py.result unit * dirs_t :=
    if path_is_dir ds' p then (Py.ret tt, ds') else (Py.raise e, ds') in
  match os_mkdir fs ds p with
  | inr ds' => (Py.ret tt, ds')
  | inl e =>
      if String.eqb (Py.exn_class e) "FileNotFoundError" then
        match rparts with
        | [] => (Py.raise e, ds)
        | _ :: rparent =>
            match mkdir_parents fs d rparent ds with
            | (inl e', ds') => (inl e', ds')
            | (inr _, ds') =>
                match os_mkdir fs ds' p with
                | inr ds'' => (Py.ret tt, ds'')
                | inl e' =>
                    if String.eqb (Py.exn_class e') "FileNotFoundError"
                    then (Py.raise e', ds')
                    else settle ds' e'
                end
            end
        end
      else settle ds e
  end.

(** [ensure_dir(p)] *)
Definition ensure_dir (fs : files_t) (ds : dirs_t) (p : Path.t)
  : Py.result unit * dirs_t :=
  mkdir_parents fs (Path.dslash p) (rev (Path.parts p)) ds.

End Fs.

(** ** What the scripts call but do not define

    The vendor SDK, PyYAML, [random.Random], [time.sleep] and a few
    built-ins.  A response of the service carries the audio and, when the SDK
    reports it, the printed duration. *)

Record Response := { audio_data : list Z; duration : option string }.

(** A Python [float], as [argparse] makes one from the text of an option. *)
Inductive pyfloat :=
| Finite (q : Q)
| PosInf
| NegInf
| NaN.

(** [x > 0] *)
Definition positive (x : pyfloat) : bool :=
  match x with
  | Finite q => if Qlt_le_dec 0 q then true else false
  | PosInf => true
  | NegInf => false
  | NaN => false
  end.

Class Externals := {
  (** [random.Random]: the generator state *)
  rng : Type;
  (** [random.Random(x)]: seeded with [x]; for [None], with the second
      argument, which is what the operating system offers *)
  Random : option Z -> Z -> rng;
  (** [rng.sample(items, k)] with the generator it leaves behind *)
  rng_sample : rng -> list (string * string) -> nat
               -> list (string * string) * rng;
  (** [Typecast(api_key=key)] *)
  client : Type;
  Typecast : option string -> gmap string string -> Py.result client;
  (** [cli.text_to_speech(req)]; the number counts the calls made before *)
  text_to_speech : client -> nat -> Py.value -> Py.result Response;
  (** [yaml.safe_load(text)] on the bytes of the file, decoding included *)
  safe_load : list Z -> Py.result Py.value;
  (** [Path(s).expanduser().resolve()] *)
  resolve : string -> Path.t;
  (** [str(v)] of a value that is not a string *)
  str_other : Py.value -> string;
  (** [float(v)] *)
  float_ : Py.value -> Py.result Py.value;
  (** [getattr(LanguageCode, c.upper().replace("-", "_"))] for the code [c] *)
  LanguageCode_attr : string -> Py.result Py.value;
  (** the voice listing helper of the client, when the SDK has one: the
      lines printed for the voices it returns *)
  list_voices : client -> option string -> option (Py.result (list string));
  (** what [time.sleep(t)] raises, when it does: [OverflowError] for a
      pause the platform cannot represent *)
  time_sleep : pyfloat -> option Py.exn;
  (** the constructors [Prompt], [Output] and [TTSRequest] of the SDK
      applied to keyword arguments, which they validate: the object made, or
      the exception *)
  sdk_Prompt : list (string * Py.value) -> Py.result Py.value;
  sdk_Output : list (string * Py.value) -> Py.result Py.value;
  sdk_TTSRequest : list (string * Py.value) -> Py.result Py.value
}.

(** ** The state of a run *)

Record World := {
  (** regular files and their contents *)
  files : gmap (list string) (list Z);
  (** directories *)
  dirs : gset (list string);
  (** every state of [files] that could be observed, oldest first *)
  observed : list (gmap (list string) (list Z));
  (** requests handed to [cli.text_to_speech], oldest first *)
  requests : list Py.value;
  stdout : list string;
  stderr : list string;
  (** arguments of the calls of [time.sleep] that returned *)
  sleeps : list pyfloat;
  (** [os.environ] *)
  environ : gmap string string;
  (** what the operating system offers as a seed *)
  entropy : Z
}.

Definition set_files (w : World) (fs : gmap (list string) (list Z))
                     (steps : list (gmap (list string) (list Z))) : World :=
  {| files := fs; dirs := dirs w; observed := observed w ++ steps;
     requests := requests w; stdout := stdout w; stderr := stderr w;
     sleeps := sleeps w; environ := environ w; entropy := entropy w |}.

Definition set_dirs (w : World) (ds : gset (list string)) : World :=
  {| files := files w; dirs := ds; observed := observed w;
     requests := requests w; stdout := stdout w; stderr := stderr w;
     sleeps := sleeps w; environ := environ w; entropy := entropy w |}.

Definition add_request (w : World) (req : Py.value) : World :=
  {| files := files w; dirs := dirs w; observed := observed w;
     requests := requests w ++ [req]; stdout := stdout w; stderr := stderr w;
     sleeps := sleeps w; environ := environ w; entropy := entropy w |}.

(** [print(line)] *)
Definition print (line : string) (w : World) : World :=
  {| files := files w; dirs := dirs w; observed := observed w;
     requests := requests w; stdout := stdout w ++ [line]; stderr := stderr w;
     sleeps := sleeps w; environ := environ w; entropy := entropy w |}.

(** [print(line, file=sys.stderr)] *)
Definition eprint (line : string) (w : World) : World :=
  {| files := files w; dirs := dirs w; observed := observed w;
     requests := requests w; stdout := stdout w; stderr := stderr w ++ [line];
     sleeps := sleeps w; environ := environ w; entropy := entropy w |}.

(** [time.sleep(t)], when it returns *)
Definition sleep_ (t : pyfloat) (w : World) : World :=
  {| files := files w; dirs := dirs w; observed := observed w;
     requests := requests w; stdout := stdout w; stderr := stderr w;
     sleeps := sleeps w ++ [t]; environ := environ w; entropy := entropy w |}.

(** [p.read_text(encoding="utf-8")], before it is decoded *)
Definition read_file (p : Path.t) (w : World) : Py.result (list Z) :=
  Fs.read_bytes (files w) (dirs w) p.

(** [ensure_dir(p)] *)
Definition ensure_dir (p : Path.t) (w : World) : Py.result unit * World :=
  let '(r, ds) := Fs.ensure_dir (files w) (dirs w) p in (r, set_dirs w ds).

(** [for p in ps: ensure_dir(p)] *)
Fixpoint ensure_dirs (ps : list Path.t) (w : World) : Py.result unit * World :=
  match ps with
  | [] => (Py.ret tt, w)
  | p :: rest =>
      match ensure_dir p w with
      | (inl e, w') => (inl e, w')
      | (inr _, w') => ensure_dirs rest w'
      end
  end.

(** How a script ends: [main] returns a code, or an exception leaves it. *)
Inductive Outcome :=
| Exit (code : Z)
| Uncaught (e : Py.exn).

(** The counters of the per-item loop, the world, and the exception that
    left the loop, if one did. *)
Record Run := {
  world : World;
  generated : Z;
  skipped : Z;
  failed : Z;
  raised : option Py.exn
}.

Definition start (w : World) : Run :=
  {| world := w; generated := 0; skipped := 0; failed := 0; raised := None |}.

Definition with_world (r : Run) (w : World) : Run :=
  {| world := w; generated := generated r; skipped := skipped r;
     failed := failed r; raised := raised r |}.

Definition count_generated (r : Run) : Run :=
  {| world := world r; generated := generated r + 1; skipped := skipped r;
     failed := failed r; raised := raised r |}.

Definition count_skipped (r : Run) : Run :=
  {| world := world r; generated := generated r; skipped := skipped r + 1;
     failed := failed r; raised := raised r |}.

Definition count_failed (r : Run) : Run :=
  {| world := world r; generated := generated r; skipped := skipped r;
     failed := failed r + 1; raised := raised r |}.

Definition leave (r : Run) (e : Py.exn) : Run :=
  {| world := world r; generated := generated r; skipped := skipped r;
     failed := failed r; raised := Some e |}.

(** [enumerate(plan, start=1)] *)
Definition enumerate1 {A} (plan : list A) : list (nat * A) :=
  combine (seq 1 (length plan)) plan.

(** Some iterations of a [for] loop, one after the other: once an exception
    has left the loop no further iteration runs. *)
Definition iterate_body {A} (body : Run -> A -> Run) (its : list A) (r : Run)
  : Run :=
  fold_left
    (fun st ix => match raised st with Some _ => st | None => body st ix end)
    its r.

(** [for i, x in enumerate(plan, start=1): body] *)
Definition for_each {A} (body : Run -> nat * A -> Run) (plan : list A)
                    (r : Run) : Run :=
  iterate_body body (enumerate1 plan) r.

(** The state of that loop when its first [k] iterations are over. *)
Definition for_each_upto {A} (k : nat) (body : Run -> nat * A -> Run)
                         (plan : list A) (r : Run) : Run :=
  iterate_body body (take k (enumerate1 plan)) r.

(** [f"{i:0{width}d}"] for [0 <= i]. *)
Definition zero_pad (width : nat) (i : nat) : string :=
  let s := Py.str_of_Z (Z.of_nat i) in
  PyStr.str (repeat "0"%char (width - String.length s)) +:+ s.

(** ** config.py *)

Module Config.

Definition ENV_API_KEY : string := "TYPECAST_API_KEY".

Record TypecastTTSDefaults := {
  model : string;
  voice_id : string;
  language : string;
  emotion_preset : string;
  emotion_intensity : Q;
  volume : Z;
  audio_pitch : Z;
  audio_tempo : Q;
  audio_format : string;
  seed : option Z
}.

Definition DEFAULTS : TypecastTTSDefaults :=
  {| model := "ssfm-v21";
     voice_id := "tc_62fb679683a541c351dc7c3a";
     language := "eng";
     emotion_preset := "normal";
     emotion_intensity := 1 # 1;
     volume := 100;
     audio_pitch := 0;
     audio_tempo := 1 # 1;
     audio_format := "mp3";
     seed := Some 42 |}.

(** [os.getenv(name)] *)
Definition getenv (env : gmap string string) (name : string) : option string :=
  env !! name.

(** [require_env(name)]; of the message only the first line is kept, the
    two that follow tell how to set the variable. *)
Definition require_env (env : gmap string string) (name : string)
  : Py.result string :=
  match getenv env name with
  | Some v =>
      if PyStr.truthy v then Py.ret v
      else Py.raise (Py.Exn "RuntimeError"
                       ("Missing required environment variable: " +:+ name))
  | None =>
      Py.raise (Py.Exn "RuntimeError"
                  ("Missing required environment variable: " +:+ name))
  end.

(** [api_key or os.getenv(ENV_API_KEY)] *)
Definition key_or_env (api_key : option string) (env : gmap string string)
  : option string :=
  match api_key with
  | Some k => if PyStr.truthy k then Some k else getenv env ENV_API_KEY
  | None => getenv env ENV_API_KEY
  end.

Definition get_typecast_client `{Externals} (api_key : option string)
    (env : gmap string string) : Py.result client :=
  match key_or_env api_key env with
  | Some k =>
      if PyStr.truthy k then Typecast (Some k) env
      else let* k' := require_env env ENV_API_KEY in Typecast (Some k') env
  | None => let* k' := require_env env ENV_API_KEY in Typecast (Some k') env
  end.

(** [tts_request_payload(text=..., voice_id=..., ...)]: the keys are in the
    order the dict gets them. *)
Definition tts_request_payload (text voice_id model : string)
    (language : option string) (emotion_preset : string)
    (emotion_intensity : Q) (volume audio_pitch : Z) (audio_tempo : Q)
    (audio_format : string) (seed : option Z) : list (string * Py.value) :=
  [("voice_id", Py.VStr voice_id);
   ("text", Py.VStr text);
   ("model", Py.VStr model);
   ("prompt", Py.VDict
      [("emotion_preset", Py.VStr emotion_preset);
       ("emotion_intensity", Py.VFloat emotion_intensity)]);
   ("output", Py.VDict
      [("volume", Py.VInt volume);
       ("audio_pitch", Py.VInt audio_pitch);
       ("audio_tempo", Py.VFloat audio_tempo);
       ("audio_format", Py.VStr audio_format)])]
  ++ match language with
     | Some l => if PyStr.truthy l then [("language", Py.VStr l)] else []
     | None => []
     end
  ++ match seed with
     | Some z => [("seed", Py.VInt z)]
     | None => []
     end.

(** The payload for a text with every other argument left to its default. *)
Definition default_payload (text : string) : list (string * Py.value) :=
  tts_request_payload text (voice_id DEFAULTS) (model DEFAULTS)
    (Some (language DEFAULTS)) (emotion_preset DEFAULTS)
    (emotion_intensity DEFAULTS) (volume DEFAULTS) (audio_pitch DEFAULTS)
    (audio_tempo DEFAULTS) (audio_format DEFAULTS) (seed DEFAULTS).

End Config.

(** ** What the three scripts built on config.py share

    [write_bytes_atomic] and [tts_one] have the same text in
    generate_colors.py and generate_voice_assets_sample.py;
    generate_voice_assets.py passes the fields of the defaults to [tts_one]
    one by one and builds the same request.  [sample] has the same text in
    generate_colors.py and generate_voice_assets_sample.py. *)

Section ConfigScripts.
Context `{Externals}.

Definition utterance : Type := string * string.

Definition opt_int (o : option Z) : Py.value :=
  match o with Some z => Py.VInt z | None => Py.VNone end.

(** [TTSRequest(text=..., model=..., voice_id=..., output=Output(...),
    prompt=Prompt(...), language=..., seed=...)] with the constants of
    config.py, which the constructors of the SDK are taken to accept: the
    request is the record of what was passed. *)
Definition TTSRequest (text : string) (d : Config.TypecastTTSDefaults)
  : Py.value :=
  Py.VDict
    [("text", Py.VStr text);
     ("model", Py.VStr (Config.model d));
     ("voice_id", Py.VStr (Config.voice_id d));
     ("output", Py.VDict
        [("audio_format", Py.VStr (Config.audio_format d));
         ("volume", Py.VInt (Config.volume d));
         ("audio_pitch", Py.VInt (Config.audio_pitch d));
         ("audio_tempo", Py.VFloat (Config.audio_tempo d))]);
     ("prompt", Py.VDict
        [("emotion_preset", Py.VStr (Config.emotion_preset d));
         ("emotion_intensity", Py.VFloat (Config.emotion_intensity d))]);
     ("language", Py.VStr (Config.language d));
     ("seed", opt_int (Config.seed d))].

(** [tts_one(cli, text=text, d=d)]: the request is recorded when
    [cli.text_to_speech] is entered; [cli] is [None] in a dry run. *)
Definition tts_one (cli : option client) (text : string)
    (d : Config.TypecastTTSDefaults) (w : World)
  : Py.result (list Z) * World :=
  let req := TTSRequest text d in
  match cli with
  | None =>
      (Py.raise (Py.Exn "AttributeError"
                   "'NoneType' object has no attribute 'text_to_speech'"), w)
  | Some c =>
      match text_to_speech c (length (requests w)) req with
      | inl e => (inl e, add_request w req)
      | inr resp => (inr (audio_data resp), add_request w req)
      end
  end.

(** [write_bytes_atomic(path, data)]: [tmp.write_bytes(data)], then
    [tmp.replace(path)]. *)
Definition write_bytes_atomic (path : Path.t) (data : list Z) (w : World)
  : Py.result unit * World :=
  match Path.with_suffix_tmp path with
  | inl e => (inl e, w)
  | inr tmp =>
      match Fs.open_w (files w) (dirs w) tmp with
      | inl e => (inl e, w)
      | inr kt =>
          let w1 := set_files w (Fs.write_bytes kt data (files w))
                              (Fs.write_bytes_states kt data (files w)) in
          match Fs.replace tmp path (files w1) (dirs w1) with
          | inl e => (inl e, w1)
          | inr fs => (inr tt, set_files w1 fs [fs])
          end
      end
  end.

(** [sample(items, n, rng)] *)
Definition sample (items : list utterance) (n : Z) (g : rng)
  : list utterance * rng :=
  if (n <=? 0) || bool_decide (items = []) then ([], g)
  else if Z.of_nat (length items) <=? n then (items, g)
  else rng_sample g items (Z.to_nat n).

(** [str(v)] *)
Definition py_str (v : Py.value) : string :=
  match v with Py.VStr s => s | _ => str_other v end.

(** [iter_utterances(section)] of generate_colors.py, [iter_items(section)]
    of the other two: the [(id, text)] pairs of a list of dicts.  [invalid]
    is the head of the message of the [ValueError] for an item that is not a
    dict with both keys. *)
Fixpoint iter_list (invalid : string) (l : list Py.value)
  : Py.result (list utterance) :=
  match l with
  | [] => Py.ret []
  | it :: r =>
      match it with
      | Py.VDict m =>
          if Py.has_key "id" m && Py.has_key "text" m then
            let* out := iter_list invalid r in
            Py.ret ((py_str (Py.dict_get m "id" Py.VNone),
                     py_str (Py.dict_get m "text" Py.VNone)) :: out)
          else Py.raise (Py.Exn "ValueError" (invalid +:+ str_other it))
      | _ => Py.raise (Py.Exn "ValueError" (invalid +:+ py_str it))
      end
  end.

(** [type(v)] as an f-string prints it. *)
Definition type_text (v : Py.value) : string :=
  match v with
  | Py.VNone => "<class 'NoneType'>"
  | Py.VBool _ => "<class 'bool'>"
  | Py.VInt _ => "<class 'int'>"
  | Py.VFloat _ => "<class 'float'>"
  | Py.VStr _ => "<class 'str'>"
  | Py.VList _ => "<class 'list'>"
  | Py.VDict _ => "<class 'dict'>"
  end.

Definition iter_section (invalid : string) (section : Py.value)
  : Py.result (list utterance) :=
  match section with
  | Py.VNone => Py.ret []
  | Py.VList l => iter_list invalid l
  | _ => Py.raise (Py.Exn "ValueError"
                     ("Unsupported YAML section type: " +:+ type_text section))
  end.

(** ["." + d.audio_format.lower().strip(".")] *)
Definition extension (d : Config.TypecastTTSDefaults) : string :=
  "." +:+ PyStr.strip_chars "." (PyStr.lower (Config.audio_format d)).

(** [if args.sleep > 0: time.sleep(args.sleep)]: an exception of
    [time.sleep] leaves the loop. *)
Definition pause (sleep : pyfloat) (st : Run) : Run :=
  if positive sleep then
    match time_sleep sleep with
    | Some e => leave st e
    | None => with_world st (sleep_ sleep (world st))
    end
  else st.

(** The [try] block of the loop with its handler and the pause after it:
    lines 188-197 of generate_colors.py and of
    generate_voice_assets_sample.py, lines 192-214 of
    generate_voice_assets.py ([label] is what the message names). *)
Definition synth_and_store (cli : option client) (sleep : pyfloat)
    (d : Config.TypecastTTSDefaults) (label : string) (out_path : Path.t)
    (text : string) (st : Run) : Run :=
  let st1 :=
    match tts_one cli text d (world st) with
    | (inr audio, w1) =>
        match write_bytes_atomic out_path audio w1 with
        | (inr _, w2) => count_generated (with_world st w2)
        | (inl e, w2) =>
            let st' := count_failed (with_world st w2) in
            with_world st'
              (eprint ("[ERR] Failed " +:+ label +:+ ": " +:+ Py.exn_msg e)
                      (world st'))
        end
    | (inl e, w1) =>
        let st' := count_failed (with_world st w1) in
        with_world st'
          (eprint ("[ERR] Failed " +:+ label +:+ ": " +:+ Py.exn_msg e)
                  (world st'))
    end in
  pause sleep st1.

(** The loop body of generate_colors.py and of
    generate_voice_assets_sample.py (lines 176-197 of both). *)
Definition sampled_body (force dry_run : bool) (sleep : pyfloat)
    (d : Config.TypecastTTSDefaults) (cli : option client) (out_dir : Path.t)
    (total : nat) (st : Run) (ix : nat * (Path.t * string * string)) : Run :=
  let '(i, (subdir, clip_id, text)) := ix in
  let out_path := Fs.joinpath subdir (clip_id +:+ extension d) in
  if Fs.exists_ (files (world st)) (dirs (world st)) out_path && negb force
  then count_skipped st
  else
    match Path.relative_to out_path out_dir with
    | inl e => leave st e
    | inr rel =>
        let st1 :=
          with_world st
            (print ("[" +:+ zero_pad 3 i +:+ "/" +:+ zero_pad 3 total +:+ "] "
                    +:+ rel +:+ "  <-  " +:+ text) (world st)) in
        if dry_run then count_generated st1
        else synth_and_store cli sleep d clip_id out_path text st1
    end.

Definition sampled_loop (force dry_run : bool) (sleep : pyfloat)
    (d : Config.TypecastTTSDefaults) (cli : option client) (out_dir : Path.t)
    (plan : list (Path.t * string * string)) (w : World) : Run :=
  for_each (sampled_body force dry_run sleep d cli out_dir (length plan))
           plan (start w).

Definition sampled_loop_upto (k : nat) (force dry_run : bool)
    (sleep : pyfloat) (d : Config.TypecastTTSDefaults) (cli : option client)
    (out_dir : Path.t) (plan : list (Path.t * string * string)) (w : World)
  : Run :=
  for_each_upto k (sampled_body force dry_run sleep d cli out_dir (length plan))
                plan (start w).

(** The summary and the return value that end [main]. *)
Definition summary (out_dir : Path.t) (st : Run) : World :=
  print ("  out_dir:   " +:+ Path.str out_dir)
    (print ("  failed:    " +:+ Py.str_of_Z (failed st))
       (print ("  skipped:   " +:+ Py.str_of_Z (skipped st))
          (print ("  generated: " +:+ Py.str_of_Z (generated st))
             (print "[SUMMARY]" (print "" (world st)))))).

Definition finish (out_dir : Path.t) (st : Run) : Outcome * World :=
  match raised st with
  | Some e => (Uncaught e, world st)
  | None =>
      (Exit (if failed st =? 0 then 0 else 1), summary out_dir st)
  end.

(** [plan.append((out_dir / sub, clip_id, text))] for every pair. *)
Definition plan_group (out_dir : Path.t) (sub : string)
    (items : list utterance) : list (Path.t * string * string) :=
  map (fun it => (Fs.joinpath out_dir sub, fst it, snd it)) items.

End ConfigScripts.

(** What [main] has when it reaches the per-item loop ([Go]), or how it
    ended before ([Stop]). *)
Inductive Prepared `{Externals} (entry : Type) :=
| Stop (o : Outcome) (w : World)
| Go (out_dir : Path.t) (cli : option client) (plan : list entry) (w : World).
Arguments Stop {_ _} o w.
Arguments Go {_ _} out_dir cli plan w.

(** Lines 163-166: the client, unless the run is dry. *)
Definition init_client `{Externals} (dry_run : bool) (w : World)
  : Py.result (option client) :=
  if dry_run then Py.ret None
  else let* c := Config.get_typecast_client None (environ w) in Py.ret (Some c).

(** ** generate_colors.py *)

Module GenerateColors.
Section Script.
Context `{Externals}.

Record Args := {
  yaml_path : string;
  out_dir : string;
  seed : Z;
  n_long : Z;
  n_short : Z;
  all : bool;
  sleep : pyfloat;
  force : bool;
  dry_run : bool
}.

(** The same options with the [--dry-run] flag as given. *)
Definition with_dry_run (b : bool) (args : Args) : Args :=
  {| yaml_path := yaml_path args; out_dir := out_dir args; seed := seed args;
     n_long := n_long args; n_short := n_short args; all := all args;
     sleep := sleep args; force := force args; dry_run := b |}.

Definition iter_utterances (section : Py.value) : Py.result (list utterance) :=
  iter_section "Invalid utterance item: " section.

(** Lines 125-133: the two utterance lists of the document. *)
Definition load (content : list Z)
  : Py.result (list utterance * list utterance) :=
  let* data := safe_load content in
  let* root0 := Py.get data "lulu_reaction_voice" in
  let root := Py.or_empty_dict root0 in
  let* utterances0 := Py.get root "utterances" in
  let utterances := Py.or_empty_dict utterances0 in
  let* long_section := Py.get utterances "long_by_color" in
  let* long_utterances := iter_utterances long_section in
  let* short_section := Py.get utterances "short_by_color" in
  let* short_utterances := iter_utterances short_section in
  Py.ret (long_utterances, short_utterances).

(** Lines 129 and 137-143: the sampling stage, in a world that offers
    [os_seed] to a generator made without a seed. *)
Definition select (args : Args) (os_seed : Z)
    (long_utterances short_utterances : list utterance)
  : list utterance * list utterance :=
  let g := Random (Some (seed args)) os_seed in
  if all args then (long_utterances, short_utterances)
  else
    let '(selected_long, g1) := sample long_utterances (n_long args) g in
    let '(selected_short, _) := sample short_utterances (n_short args) g1 in
    (selected_long, selected_short).

(** Lines 148-153. *)
Definition build_plan (out_dir : Path.t)
    (selected_long selected_short : list utterance)
  : list (Path.t * string * string) :=
  plan_group out_dir "long" selected_long
  ++ plan_group out_dir "short" selected_short.

(** Lines 172-197. *)
Definition generate (args : Args) (cli : option client) (out_dir : Path.t)
    (plan : list (Path.t * string * string)) (w : World) : Run :=
  sampled_loop (force args) (dry_run args) (sleep args) Config.DEFAULTS cli
               out_dir plan w.

(** The loop after its first [k] iterations. *)
Definition generate_upto (k : nat) (args : Args) (cli : option client)
    (out_dir : Path.t) (plan : list (Path.t * string * string)) (w : World)
  : Run :=
  sampled_loop_upto k (force args) (dry_run args) (sleep args) Config.DEFAULTS
                    cli out_dir plan w.

(** [main] down to line 170. *)
Definition prepare (args : Args) (w : World)
  : Prepared (Path.t * string * string) :=
  let yaml := resolve (yaml_path args) in
  let out := resolve (out_dir args) in
  if negb (Fs.exists_ (files w) (dirs w) yaml) then
    Stop (Exit 2) (eprint ("[ERR] YAML not found: " +:+ Path.str yaml) w)
  else
    match read_file yaml w with
    | inl e => Stop (Uncaught e) w
    | inr content =>
        match load content with
        | inl e => Stop (Uncaught e) w
        | inr (long_utterances, short_utterances) =>
            let w1 :=
              print ("[INFO] Found "
                     +:+ Py.str_of_Z (Z.of_nat (length long_utterances))
                     +:+ " long utterances, "
                     +:+ Py.str_of_Z (Z.of_nat (length short_utterances))
                     +:+ " short utterances") w in
            let '(selected_long, selected_short) :=
              select args (entropy w) long_utterances short_utterances in
            let plan := build_plan out selected_long selected_short in
            match plan with
            | [] => Stop (Exit 0) (print "[WARN] No utterances selected." w1)
            | _ =>
                match ensure_dirs (map (fun e => e.1.1) plan) w1 with
                | (inl e, w2) => Stop (Uncaught e) w2
                | (inr _, w2) =>
                    match init_client (dry_run args) w2 with
                    | inl e => Stop (Uncaught e) w2
                    | inr cli =>
                        Go out cli plan
                          (print ("[INFO] Selected: "
                                  +:+ Py.str_of_Z
                                        (Z.of_nat (length selected_long))
                                  +:+ " long + "
                                  +:+ Py.str_of_Z
                                        (Z.of_nat (length selected_short))
                                  +:+ " short")
                             (print ("[INFO] Output: " +:+ Path.str out
                                     +:+ "  format="
                                     +:+ Config.audio_format Config.DEFAULTS)
                                (print ("[INFO] Generating color utterances (seed="
                                        +:+ Py.str_of_Z (seed args) +:+ ")")
                                   w2)))
                    end
                end
            end
        end
    end.

Definition main (args : Args) (w : World) : Outcome * World :=
  match prepare args w with
  | Stop o w' => (o, w')
  | Go out cli plan w' => finish out (generate args cli out plan w')
  end.

End Script.
End GenerateColors.

(** ** generate_voice_assets_sample.py *)

Module GenerateVoiceAssetsSample.
Section Script.
Context `{Externals}.

Record Args := {
  yaml_path : string;
  out_dir : string;
  seed : Z;
  n_prefix : Z;
  n_suffix : Z;
  n_color : Z;
  n_tool : Z;
  n_micro : Z;
  n_completion_not_enough : Z;
  n_completion_enough : Z;
  sleep : pyfloat;
  force : bool;
  dry_run : bool
}.

(** The same options with the [--dry-run] flag as given. *)
Definition with_dry_run (b : bool) (args : Args) : Args :=
  {| yaml_path := yaml_path args; out_dir := out_dir args; seed := seed args;
     n_prefix := n_prefix args; n_suffix := n_suffix args;
     n_color := n_color args; n_tool := n_tool args; n_micro := n_micro args;
     n_completion_not_enough := n_completion_not_enough args;
     n_completion_enough := n_completion_enough args;
     sleep := sleep args; force := force args; dry_run := b |}.

Definition iter_items (section : Py.value) : Py.result (list utterance) :=
  iter_section "Invalid item: " section.

(** The seven selections of lines 128-134, in that order. *)
Record Selection := {
  prefixes : list utterance;
  suffixes : list utterance;
  colors : list utterance;
  tools : list utterance;
  micros : list utterance;
  comp_ne : list utterance;
  comp_ok : list utterance
}.

(** Lines 121-134: each section is read, then sampled, before the next
    one is read. *)
Definition select (args : Args) (os_seed : Z) (content : list Z)
  : Py.result Selection :=
  let* data := safe_load content in
  let* root0 := Py.get data "lulu_reaction_voice" in
  let root := Py.or_empty_dict root0 in
  let* vars0 := Py.get root "variables" in
  let vars_section := Py.or_empty_dict vars0 in
  let* completion0 := Py.get root "completion" in
  let completion := Py.or_empty_dict completion0 in
  let g := Random (Some (seed args)) os_seed in
  let* s1 := Py.get root "prefixes" in
  let* i1 := iter_items s1 in
  let '(prefixes, g1) := sample i1 (n_prefix args) g in
  let* s2 := Py.get root "suffixes" in
  let* i2 := iter_items s2 in
  let '(suffixes, g2) := sample i2 (n_suffix args) g1 in
  let* s3 := Py.get vars_section "colors" in
  let* i3 := iter_items s3 in
  let '(colors, g3) := sample i3 (n_color args) g2 in
  let* s4 := Py.get vars_section "tools" in
  let* i4 := iter_items s4 in
  let '(tools, g4) := sample i4 (n_tool args) g3 in
  let* s5 := Py.get root "micro_reactions" in
  let* i5 := iter_items s5 in
  let '(micros, g5) := sample i5 (n_micro args) g4 in
  let* s6 := Py.get completion "not_enough" in
  let* i6 := iter_items s6 in
  let '(comp_ne, g6) := sample i6 (n_completion_not_enough args) g5 in
  let* s7 := Py.get completion "enough" in
  let* i7 := iter_items s7 in
  let '(comp_ok, _) := sample i7 (n_completion_enough args) g6 in
  Py.ret {| prefixes := prefixes; suffixes := suffixes; colors := colors;
            tools := tools; micros := micros; comp_ne := comp_ne;
            comp_ok := comp_ok |}.

(** Lines 140-154. *)
Definition build_plan (out_dir : Path.t) (s : Selection)
  : list (Path.t * string * string) :=
  plan_group out_dir "prefix" (prefixes s)
  ++ plan_group out_dir "suffix" (suffixes s)
  ++ plan_group out_dir "color" (colors s)
  ++ plan_group out_dir "tool" (tools s)
  ++ plan_group out_dir "micro" (micros s)
  ++ plan_group (Fs.joinpath out_dir "completion") "not_enough" (comp_ne s)
  ++ plan_group (Fs.joinpath out_dir "completion") "enough" (comp_ok s).

(** Lines 172-197. *)
Definition generate (args : Args) (cli : option client) (out_dir : Path.t)
    (plan : list (Path.t * string * string)) (w : World) : Run :=
  sampled_loop (force args) (dry_run args) (sleep args) Config.DEFAULTS cli
               out_dir plan w.

(** The loop after its first [k] iterations. *)
Definition generate_upto (k : nat) (args : Args) (cli : option client)
    (out_dir : Path.t) (plan : list (Path.t * string * string)) (w : World)
  : Run :=
  sampled_loop_upto k (force args) (dry_run args) (sleep args) Config.DEFAULTS
                    cli out_dir plan w.

(** [main] down to line 170. *)
Definition prepare (args : Args) (w : World)
  : Prepared (Path.t * string * string) :=
  let yaml := resolve (yaml_path args) in
  let out := resolve (out_dir args) in
  if negb (Fs.exists_ (files w) (dirs w) yaml) then
    Stop (Exit 2) (eprint ("[ERR] YAML not found: " +:+ Path.str yaml) w)
  else
    match read_file yaml w with
    | inl e => Stop (Uncaught e) w
    | inr content =>
        match select args (entropy w) content with
        | inl e => Stop (Uncaught e) w
        | inr s =>
            let plan := build_plan out s in
            match plan with
            | [] => Stop (Exit 0) (print "[WARN] No items selected." w)
            | _ =>
                match ensure_dirs (map (fun e => e.1.1) plan) w with
                | (inl e, w2) => Stop (Uncaught e) w2
                | (inr _, w2) =>
                    match init_client (dry_run args) w2 with
                    | inl e => Stop (Uncaught e) w2
                    | inr cli =>
                        Go out cli plan
                          (print ("[INFO] Output: " +:+ Path.str out
                                  +:+ "  format="
                                  +:+ Config.audio_format Config.DEFAULTS)
                             (print ("[INFO] Generating sample assets (seed="
                                     +:+ Py.str_of_Z (seed args) +:+ ")") w2))
                    end
                end
            end
        end
    end.

Definition main (args : Args) (w : World) : Outcome * World :=
  match prepare args w with
  | Stop o w' => (o, w')
  | Go out cli plan w' => finish out (generate args cli out plan w')
  end.

End Script.
End GenerateVoiceAssetsSample.

(** ** generate_voice_assets.py *)

Module GenerateVoiceAssets.
Section Script.
Context `{Externals}.

Record Args := {
  yaml_path : string;
  out_dir : string;
  force : bool;
  sleep : pyfloat;
  dry_run : bool;
  only : option (list string)
}.

(** The same options with the [--dry-run] flag as given. *)
Definition with_dry_run (b : bool) (args : Args) : Args :=
  {| yaml_path := yaml_path args; out_dir := out_dir args;
     force := force args; sleep := sleep args; dry_run := b;
     only := only args |}.

Definition iter_items (section : Py.value) : Py.result (list utterance) :=
  iter_section "Invalid item: " section.

(** A plan entry: [(group_key, subdir, clip_id, text)]. *)
Definition entry : Type := string * Path.t * string * string.

(** [add_group(group_key, subdir, items)]: what it appends to the plan. *)
Definition add_group (args : Args) (out_dir : Path.t)
    (group_key subdir : string) (items : list utterance) : list entry :=
  match only args with
  | Some (g :: gs) =>
      if bool_decide (group_key ∈ g :: gs)
      then map (fun it => (group_key, Fs.joinpath out_dir subdir, fst it, snd it))
               items
      else []
  | _ => map (fun it => (group_key, Fs.joinpath out_dir subdir, fst it, snd it))
             items
  end.

(** Lines 139-148, from the value of [root]. *)
Definition build_plan (args : Args) (out_dir : Path.t) (root : Py.value)
  : Py.result (list entry) :=
  let* s1 := Py.get root "prefixes" in
  let* i1 := iter_items s1 in
  let p1 := add_group args out_dir "prefixes" "prefix" i1 in
  let* s2 := Py.get root "suffixes" in
  let* i2 := iter_items s2 in
  let p2 := add_group args out_dir "suffixes" "suffix" i2 in
  let* vars0 := Py.get root "variables" in
  let vars_section := Py.or_empty_dict vars0 in
  let* s3 := Py.get vars_section "colors" in
  let* i3 := iter_items s3 in
  let p3 := add_group args out_dir "colors" "color" i3 in
  let* s4 := Py.get vars_section "tools" in
  let* i4 := iter_items s4 in
  let p4 := add_group args out_dir "tools" "tool" i4 in
  let* s5 := Py.get root "micro_reactions" in
  let* i5 := iter_items s5 in
  let p5 := add_group args out_dir "micro" "micro" i5 in
  let* completion0 := Py.get root "completion" in
  let completion := Py.or_empty_dict completion0 in
  let* s6 := Py.get completion "not_enough" in
  let* i6 := iter_items s6 in
  let p6 := add_group args out_dir "completion_not_enough"
                      "completion/not_enough" i6 in
  let* s7 := Py.get completion "enough" in
  let* i7 := iter_items s7 in
  let p7 := add_group args out_dir "completion_enough" "completion/enough" i7 in
  Py.ret (p1 ++ p2 ++ p3 ++ p4 ++ p5 ++ p6 ++ p7).

(** [sha1_text(s)] *)
Definition sha1_text (s : string) : string :=
  Sha1.hexdigest (PyStr.encode_utf8 s).

(** [subdir / f"{clip_id}{ext}"] for an entry of the plan. *)
Definition dest (e : entry) : Path.t :=
  Fs.joinpath e.1.1.2 (e.1.2 +:+ extension Config.DEFAULTS).

(** [not text or not text.strip()] *)
Definition is_blank (text : string) : bool :=
  negb (PyStr.truthy text) || negb (PyStr.truthy (PyStr.strip text)).

(** The loop body, lines 173-214.  The character between the id and
    [skipping] in the warning lies outside the code points of the string
    model and is written as two hyphens. *)
Definition body (args : Args) (d : Config.TypecastTTSDefaults)
    (cli : option client) (total : nat) (st : Run) (ix : nat * entry) : Run :=
  let '(idx, (group_key, subdir, clip_id, text)) := ix in
  let out_path := Fs.joinpath subdir (clip_id +:+ extension d) in
  if Fs.exists_ (files (world st)) (dirs (world st)) out_path
     && negb (force args)
  then count_skipped st
  else if is_blank text then
    count_skipped
      (with_world st
         (print ("[WARN] Empty text for " +:+ group_key +:+ ":" +:+ clip_id
                 +:+ " -- skipping") (world st)))
  else
    let st1 :=
      with_world st
        (print ("[" +:+ zero_pad 4 idx +:+ "/" +:+ zero_pad 4 total +:+ "] "
                +:+ group_key +:+ ":" +:+ clip_id +:+ " -> "
                +:+ Path.name out_path) (world st)) in
    if dry_run args then count_generated st1
    else synth_and_store cli (sleep args) d (group_key +:+ ":" +:+ clip_id)
                         out_path text st1.

Definition generate (args : Args) (cli : option client) (plan : list entry)
    (w : World) : Run :=
  for_each (body args Config.DEFAULTS cli (length plan)) plan (start w).

(** The loop after its first [k] iterations. *)
Definition generate_upto (k : nat) (args : Args) (cli : option client)
    (plan : list entry) (w : World) : Run :=
  for_each_upto k (body args Config.DEFAULTS cli (length plan)) plan (start w).


(** Lines 121-124. *)
Definition load_root (content : list Z)
  : Py.result (Py.value * Py.value * Py.value) :=
  let* data := safe_load content in
  let* root0 := Py.get data "lulu_reaction_voice" in
  let root := Py.or_empty_dict root0 in
  let* locale := Py.get_or root "locale" (Py.VStr "en-US") in
  let* version := Py.get_or root "version" (Py.VStr "unknown") in
  Py.ret (root, locale, version).

(** [main] down to line 166. *)
Definition prepare (args : Args) (w : World) : Prepared entry :=
  let yaml := resolve (yaml_path args) in
  let out := resolve (out_dir args) in
  if negb (Fs.exists_ (files w) (dirs w) yaml) then
    Stop (Exit 2) (eprint ("[ERR] YAML not found: " +:+ Path.str yaml) w)
  else
    match read_file yaml w with
    | inl e => Stop (Uncaught e) w
    | inr content =>
        match load_root content with
        | inl e => Stop (Uncaught e) w
        | inr (root, locale, version) =>
            let w1 :=
              print ("[INFO] Loaded " +:+ Path.name yaml +:+ " (version="
                     +:+ py_str version +:+ ", locale=" +:+ py_str locale
                     +:+ ")") w in
            match build_plan args out root with
            | inl e => Stop (Uncaught e) w1
            | inr [] =>
                Stop (Exit 0)
                  (print "[WARN] No items to generate (check --only filters)."
                         w1)
            | inr plan =>
                let d := Config.DEFAULTS in
                let w2 :=
                  print ("[INFO] Output dir: " +:+ Path.str out)
                    (print ("[INFO] Output format: " +:+ Config.audio_format d
                            +:+ "  (ext=" +:+ extension d +:+ ")") w1) in
                match ensure_dirs (map (fun e => e.1.1.2) plan) w2 with
                | (inl e, w3) => Stop (Uncaught e) w3
                | (inr _, w3) =>
                    match init_client (dry_run args) w3 with
                    | inl e => Stop (Uncaught e) w3
                    | inr cli => Go out cli plan w3
                    end
                end
            end
        end
    end.

Definition main (args : Args) (w : World) : Outcome * World :=
  match prepare args w with
  | Stop o w' => (o, w')
  | Go out cli plan w' => finish out (generate args cli plan w')
  end.

End Script.
End GenerateVoiceAssets.

(** ** typecast_batch_tts.py *)

Module TypecastBatchTts.
Section Script.
Context `{Externals}.

Record Args := {
  manifest : string;
  out : string;
  dry_run : bool;
  overwrite : bool;
  list_voices_flag : bool;
  model_filter : option string
}.

Definition slugify := BatchNames.slugify.
Definition short_hash := BatchNames.short_hash.

(** The same options with the [--dry-run] flag as given. *)
Definition with_dry_run (b : bool) (args : Args) : Args :=
  {| manifest := manifest args; out := out args; dry_run := b;
     overwrite := overwrite args; list_voices_flag := list_voices_flag args;
     model_filter := model_filter args |}.

(** The fields hold what the manifest holds: nothing converts them. *)
Record LineItem := {
  set : Py.value;
  key : Py.value;
  text : Py.value;
  filename : Py.value;
  model : Py.value;
  voice_id : Py.value;
  language : Py.value;
  output_format : Py.value;
  prompt : list (string * Py.value);
  output : list (string * Py.value)
}.

(** [f"{v}"] *)
Definition fmt (v : Py.value) : string :=
  match v with Py.VStr s => s | _ => str_other v end.

(** [{**v}]: only a mapping unpacks. *)
Definition mapping (v : Py.value) : Py.result (list (string * Py.value)) :=
  match v with
  | Py.VDict m => Py.ret m
  | _ => Py.raise (Py.Exn "TypeError" "object is not a mapping")
  end.

(** [for x in v]: a list gives its items, a dict its keys, a string its
    characters; nothing else iterates. *)
Definition iterate (v : Py.value) : Py.result (list Py.value) :=
  match v with
  | Py.VList l => Py.ret l
  | Py.VDict m => Py.ret (map (fun kv => Py.VStr (fst kv)) m)
  | Py.VStr s =>
      Py.ret (map (fun c => Py.VStr (String c EmptyString)) (PyStr.chars s))
  | _ => Py.raise (Py.Exn "TypeError" "object is not iterable")
  end.

(** [v.encode("utf-8")] is a method of strings. *)
Definition text_hash (text : Py.value) : Py.result string :=
  match text with
  | Py.VStr s => Py.ret (short_hash s 8)
  | _ => Py.raise (Py.Exn "AttributeError" "object has no attribute 'encode'")
  end.

(** Lines 128-133, the branch that derives the name. *)
Definition derived_filename (set_name key text output_format : Py.value)
  : Py.result string :=
  let base := fmt set_name +:+ "-" +:+ fmt key in
  let slug := slugify base 80 in
  let* h := text_hash text in
  Py.ret (slug +:+ "-" +:+ h +:+ "." +:+ fmt output_format).

(** Lines 108-148: one line of a set. *)
Definition load_line (set_name : Py.value)
    (set_defaults : list (string * Py.value)) (ln : Py.value)
  : Py.result LineItem :=
  let* key := Py.get ln "key" in
  let* text := Py.get ln "text" in
  if negb (Py.truthy key) || negb (Py.truthy text) then
    Py.raise (Py.Exn "ValueError"
                ("Line in set '" +:+ fmt set_name
                 +:+ "' must include key and text."))
  else
    let* model := Py.get_or ln "model" (Py.dict_get set_defaults "model" Py.VNone) in
    let* voice_id :=
      Py.get_or ln "voice_id" (Py.dict_get set_defaults "voice_id" Py.VNone) in
    let* language :=
      Py.get_or ln "language"
                (Py.dict_get set_defaults "language" (Py.VStr "en")) in
    let* output_format :=
      Py.get_or ln "output_format"
                (Py.dict_get set_defaults "output_format" (Py.VStr "mp3")) in
    if negb (Py.truthy model) || negb (Py.truthy voice_id) then
      Py.raise (Py.Exn "ValueError"
                  ("Missing model/voice_id for set '" +:+ fmt set_name
                   +:+ "', line '" +:+ fmt key
                   +:+ "'. Provide in defaults or per-line."))
    else
      let* p1 := mapping (Py.or_empty_dict (Py.dict_get set_defaults "prompt" Py.VNone)) in
      let* lp := Py.get ln "prompt" in
      let* p2 := mapping (Py.or_empty_dict lp) in
      let* o1 := mapping (Py.or_empty_dict (Py.dict_get set_defaults "output" Py.VNone)) in
      let* lo := Py.get ln "output" in
      let* o2 := mapping (Py.or_empty_dict lo) in
      let* explicit := Py.get ln "filename" in
      let* filename :=
        (if Py.truthy explicit then Py.ret explicit
         else let* f := derived_filename set_name key text output_format in
              Py.ret (Py.VStr f)) in
      Py.ret {| set := set_name; key := key; text := text;
                filename := filename; model := model; voice_id := voice_id;
                language := language; output_format := output_format;
                prompt := Py.dict_merge p1 p2; output := Py.dict_merge o1 o2 |}.

Fixpoint load_lines (set_name : Py.value)
    (set_defaults : list (string * Py.value)) (lines : list Py.value)
  : Py.result (list LineItem) :=
  match lines with
  | [] => Py.ret []
  | ln :: r =>
      let* item := load_line set_name set_defaults ln in
      let* items := load_lines set_name set_defaults r in
      Py.ret (item :: items)
  end.

(** Lines 102-148: one set. *)
Definition load_set (defaults : Py.value) (s : Py.value)
  : Py.result (list LineItem) :=
  let* set_name := Py.get s "name" in
  if negb (Py.truthy set_name) then
    Py.raise (Py.Exn "ValueError" "Each set must have a name.")
  else
    let* d1 := mapping defaults in
    let* sd := Py.get s "defaults" in
    let* d2 := mapping (Py.or_empty_dict sd) in
    let set_defaults := Py.dict_merge d1 d2 in
    let* lines0 := Py.get_or s "lines" (Py.VList []) in
    let* lines := iterate (Py.or_empty_list lines0) in
    load_lines set_name set_defaults lines.

Fixpoint load_sets (defaults : Py.value) (sets : list Py.value)
  : Py.result (list LineItem) :=
  match sets with
  | [] => Py.ret []
  | s :: r =>
      let* items := load_set defaults s in
      let* more := load_sets defaults r in
      Py.ret (items ++ more)
  end.

(** [load_manifest(path)], from the files [fs] and the directories
    [ds]. *)
Definition load_manifest (path : Path.t) (fs : gmap (list string) (list Z))
    (ds : gset (list string)) : Py.result (Py.value * list LineItem) :=
  let* content := Fs.read_bytes fs ds path in
  let* data := safe_load content in
  match data with
  | Py.VDict m =>
      let defaults := Py.or_empty_dict (Py.dict_get m "defaults" (Py.VDict [])) in
      let sets := Py.or_empty_list (Py.dict_get m "sets" (Py.VList [])) in
      let* sets_list := iterate sets in
      let* items := load_sets defaults sets_list in
      Py.ret (data, items)
  | _ => Py.raise (Py.Exn "ValueError"
                     "Manifest root must be a YAML mapping/dict.")
  end.

(** [as_language_code(code)] *)
Definition as_language_code (code : Py.value) : Py.result Py.value :=
  match code with
  | Py.VStr s =>
      let c := PyStr.lower (PyStr.strip s) in
      if bool_decide (c ∈ ["en"; "en-us"; "en-gb"]) then Py.ret (Py.VStr "LanguageCode.ENG")
      else if bool_decide (c ∈ ["ko"; "ko-kr"]) then Py.ret (Py.VStr "LanguageCode.KOR")
      else if bool_decide (c ∈ ["ja"; "ja-jp"]) then Py.ret (Py.VStr "LanguageCode.JPN")
      else if bool_decide (c ∈ ["zh"; "zh-cn"]) then Py.ret (Py.VStr "LanguageCode.ZHO")
      else if String.eqb c "es" then Py.ret (Py.VStr "LanguageCode.SPA")
      else if String.eqb c "fr" then Py.ret (Py.VStr "LanguageCode.FRA")
      else if String.eqb c "de" then Py.ret (Py.VStr "LanguageCode.DEU")
      else
        match LanguageCode_attr c with
        | inr v => Py.ret v
        | inl _ =>
            Py.raise (Py.Exn "ValueError"
                        ("Unsupported/unknown language code: " +:+ s
                         +:+ ". Please map it in as_language_code()."))
        end
  | _ => Py.raise (Py.Exn "AttributeError" "object has no attribute 'strip'")
  end.

(** The [known] dict of [build_tts_request]. *)
Definition known_prompt (p : list (string * Py.value))
  : Py.result (list (string * Py.value)) :=
  let k1 := match Py.assoc "emotion_preset" p with
            | Some v => [("emotion_preset", v)]
            | None => []
            end in
  match Py.assoc "emotion_intensity" p with
  | Some v => let* f := float_ v in Py.ret (k1 ++ [("emotion_intensity", f)])
  | None => Py.ret k1
  end.

(** The audio controls copied into [output_kwargs]. *)
Definition audio_control (o : list (string * Py.value)) (k : string)
  : list (string * Py.value) :=
  match Py.assoc k o with
  | Some Py.VNone => []
  | Some v => [(k, v)]
  | None => []
  end.

(** [output_kwargs] *)
Definition output_kwargs (item : LineItem) : list (string * Py.value) :=
  [("audio_format", output_format item)]
  ++ audio_control (output item) "volume"
  ++ audio_control (output item) "pitch"
  ++ audio_control (output item) "tempo".

(** [build_tts_request(item)]: the prompt, when there is one, is made
    first; the arguments of [TTSRequest] are evaluated in the order they are
    written, the language code before the output. *)
Definition build_tts_request (item : LineItem) : Py.result Py.value :=
  let* prompt_value :=
    (match prompt item with
     | [] => Py.ret Py.VNone
     | _ =>
         let* known := known_prompt (prompt item) in
         match known with
         | [] => Py.ret Py.VNone
         | _ => sdk_Prompt known
         end
     end) in
  let* lang := as_language_code (language item) in
  let* output_value := sdk_Output (output_kwargs item) in
  sdk_TTSRequest [("text", text item); ("model", model item);
                  ("voice_id", voice_id item); ("language", lang);
                  ("prompt", prompt_value); ("output", output_value)].

(** The counters of the loop of [main] and what left it. *)
Record State := {
  bworld : World;
  planned : Z;
  bgenerated : Z;
  bskipped : Z;
  braised : option Py.exn
}.

Definition bstart (w : World) : State :=
  {| bworld := w; planned := 0; bgenerated := 0; bskipped := 0;
     braised := None |}.

(** [out_dir / item.filename] *)
Definition dest_of (out_dir : Path.t) (item : LineItem) : Py.result Path.t :=
  match filename item with
  | Py.VStr f => Py.ret (Fs.joinpath out_dir f)
  | _ => Py.raise (Py.Exn "TypeError" "unsupported operand type(s) for /")
  end.

(** The loop body, lines 227-244. *)
Definition body (args : Args) (cli : client) (out_dir : Path.t) (st : State)
    (item : LineItem) : State :=
  match dest_of out_dir item with
  | inl e =>
      {| bworld := bworld st; planned := planned st;
         bgenerated := bgenerated st; bskipped := bskipped st;
         braised := Some e |}
  | inr dest =>
      let n := planned st + 1 in
      let w := bworld st in
      if Fs.exists_ (files w) (dirs w) dest && negb (overwrite args) then
        {| bworld := w; planned := n; bgenerated := bgenerated st;
           bskipped := bskipped st + 1; braised := None |}
      else if dry_run args then
        {| bworld := print ("[DRY] " +:+ fmt (set item) +:+ "/"
                            +:+ fmt (key item) +:+ " -> " +:+ Path.name dest) w;
           planned := n; bgenerated := bgenerated st; bskipped := bskipped st;
           braised := None |}
      else
        match build_tts_request item with
        | inl e =>
            {| bworld := w; planned := n; bgenerated := bgenerated st;
               bskipped := bskipped st; braised := Some e |}
        | inr req =>
            let w1 := add_request w req in
            match text_to_speech cli (length (requests w)) req with
            | inl e =>
                {| bworld := w1; planned := n; bgenerated := bgenerated st;
                   bskipped := bskipped st; braised := Some e |}
            | inr resp =>
                match Fs.open_w (files w1) (dirs w1) dest with
                | inl e =>
                    {| bworld := w1; planned := n; bgenerated := bgenerated st;
                       bskipped := bskipped st; braised := Some e |}
                | inr k =>
                    let w2 :=
                      set_files w1
                        (Fs.write_bytes k (audio_data resp) (files w1))
                        (Fs.write_bytes_states k (audio_data resp) (files w1)) in
                    {| bworld :=
                         print ("[OK] " +:+ fmt (set item) +:+ "/"
                                +:+ fmt (key item) +:+ " -> " +:+ Path.name dest
                                +:+ " ("
                                +:+ match duration resp with
                                    | Some t => t
                                    | None => "?"
                                    end +:+ "s)") w2;
                       planned := n; bgenerated := bgenerated st + 1;
                       bskipped := bskipped st; braised := None |}
                end
            end
        end
  end.

(** [for item in items: ...]: an exception leaves the loop. *)
Definition generate (args : Args) (cli : client) (out_dir : Path.t)
    (items : list LineItem) (w : World) : State :=
  fold_left
    (fun st item =>
       match braised st with Some _ => st | None => body args cli out_dir st item end)
    items (bstart w).

(** [main] after [ensure_dir(out_dir)]. *)
Definition run (args : Args) (manifest_path out_dir : Path.t) (w : World)
  : Outcome * World :=
  match Typecast None (environ w) with
  | inl e => (Uncaught e, w)
  | inr cli =>
      if list_voices_flag args then
        match list_voices cli (model_filter args) with
        | None =>
            (Exit 2,
             print "Check the docs 'Voice Discovery' section or use the REST endpoint GET /v1/voices."
               (print "This SDK version doesn't expose a voice listing helper on the client." w))
        | Some (inl e) => (Uncaught e, w)
        | Some (inr lines) => (Exit 0, fold_left (fun w l => print l w) lines w)
        end
      else
        match load_manifest manifest_path (files w) (dirs w) with
        | inl e => (Uncaught e, w)
        | inr (_, items) =>
            let st := generate args cli out_dir items w in
            match braised st with
            | Some e => (Uncaught e, bworld st)
            | None =>
                (Exit 0,
                 print ("Planned: " +:+ Py.str_of_Z (planned st)
                        +:+ ", Generated: " +:+ Py.str_of_Z (bgenerated st)
                        +:+ ", Skipped(existing): "
                        +:+ Py.str_of_Z (bskipped st))
                   (print "" (bworld st)))
            end
        end
  end.

Definition main (args : Args) (w : World) : Outcome * World :=
  let manifest_path := resolve (manifest args) in
  let out_dir := resolve (out args) in
  match ensure_dir out_dir w with
  | (inl e, w0) => (Uncaught e, w0)
  | (inr _, w0) => run args manifest_path out_dir w0
  end.

End Script.
End TypecastBatchTts.


(** ** A concrete environment

    A small generator, a manifest given as the value PyYAML returns for it,
    and a service given by a function, for running the scripts on explicit
    inputs. *)

Module Demo.

(** Draws [k] items without replacement: the item at position
    [g mod len(l)] leaves the population, and the generator moves on. *)
Fixpoint pick (k : nat) (g : Z) (l : list (string * string))
  : list (string * string) * Z :=
  match k with
  | O => ([], g)
  | S k' =>
      let j := Z.to_nat (g mod Z.of_nat (length l)) in
      match l !! j with
      | None => ([], g)
      | Some x =>
          let '(r, g') := pick k' ((1103515245 * g + 12345) mod 2147483648)
                               (delete j l) in
          (x :: r, g')
      end
  end.

(** [time.sleep] where a pause is counted in nanoseconds on 63 bits. *)
Definition sleep_raises (t : pyfloat) : option Py.exn :=
  let overflow :=
    Py.Exn "OverflowError" "timestamp too large to convert to C _PyTime_t" in
  let negative := Py.Exn "ValueError" "sleep length must be non-negative" in
  match t with
  | Finite q =>
      if Qlt_le_dec q 0 then Some negative
      else if Qlt_le_dec (9223372036 # 1) q then Some overflow else None
  | PosInf => Some overflow
  | NegInf => Some negative
  | NaN => Some (Py.Exn "ValueError" "Invalid value NaN (not a number)")
  end.

(** A stand-in for [Output]: it keeps the fields it knows and refuses a
    volume outside 0..200. *)
Definition checked_output (kwargs : list (string * Py.value))
  : Py.result Py.value :=
  let known :=
    filter (fun kv => kv.1 ∈ ["audio_format"; "volume"; "audio_pitch";
                              "audio_tempo"]) kwargs in
  match Py.assoc "volume" kwargs with
  | Some (Py.VInt z) =>
      if (0 <=? z) && (z <=? 200) then Py.ret (Py.VDict known)
      else Py.raise (Py.Exn "ValidationError" "volume")
  | _ => Py.ret (Py.VDict known)
  end.

(** The working directory of the examples. *)
Definition cwd : Path.t := {| Path.dslash := false; Path.parts := ["w"] |}.

Definition ext (doc : Py.value) (svc : nat -> Py.value -> Py.result Response)
  : Externals :=
  {| rng := Z;
     Random := fun seed os_seed =>
       match seed with Some z => z | None => os_seed end;
     rng_sample := fun g l k => pick k g l;
     client := string;
     Typecast := fun k env =>
       match k with
       | Some k => Py.ret k
       | None =>
           match env !! Config.ENV_API_KEY with
           | Some k => Py.ret k
           | None => Py.raise (Py.Exn "ValueError" "API key is required")
           end
       end;
     text_to_speech := fun _ n req => svc n req;
     safe_load := fun _ => Py.ret doc;
     resolve := fun s => Path.div cwd s;
     str_other := fun _ => "<object>";
     float_ := fun v => Py.ret v;
     LanguageCode_attr := fun _ => Py.raise (Py.Exn "AttributeError" "LanguageCode");
     list_voices := fun _ _ => None;
     time_sleep := sleep_raises;
     sdk_Prompt := fun kwargs => Py.ret (Py.VDict kwargs);
     sdk_Output := checked_output;
     sdk_TTSRequest := fun kwargs => Py.ret (Py.VDict kwargs) |}.

(** A service that answers every request with the same three bytes. *)
Definition svc_ok (n : nat) (req : Py.value) : Py.result Response :=
  Py.ret {| audio_data := [73; 68; 51]; duration := None |}.

(** A service that is down. *)
Definition svc_down (n : nat) (req : Py.value) : Py.result Response :=
  Py.raise (Py.Exn "TypecastError" "503 Service Unavailable").


(** The directories of the examples: the working directory [/w] and the
    output directories below it. *)
Definition tree : gset (list string) :=
  list_to_set [["w"]; ["w"; "out"]; ["w"; "out"; "long"];
               ["w"; "out"; "short"]; ["w"; "out_audio"];
               ["w"; "voice_assets"]; ["w"; "voice_assets"; "micro"]].

(** [/w/name] *)
Definition at_cwd (name : string) : Path.t := Path.div cwd name.

(** A world with the given files, those directories and the API key set. *)
Definition world_with (fs : gmap (list string) (list Z)) : World :=
  {| files := fs; dirs := tree; observed := []; requests := [];
     stdout := []; stderr := []; sleeps := [];
     environ := {[ Config.ENV_API_KEY := "k" ]}; entropy := 0 |}.

Definition utt (id text : string) : Py.value :=
  Py.VDict [("id", Py.VStr id); ("text", Py.VStr text)].

(** A colors manifest with two long utterances and one short one. *)
Definition colors_doc : Py.value :=
  Py.VDict [("lulu_reaction_voice", Py.VDict [("utterances", Py.VDict
    [("long_by_color", Py.VList [utt "red_long" "Red is bold."; utt "blue_long" "Blue is calm."]);
     ("short_by_color", Py.VList [utt "red_short" "Red!"])])])].

(** A batch manifest with one set of two lines. *)
Definition batch_doc : Py.value :=
  Py.VDict [("defaults", Py.VDict [("model", Py.VStr "ssfm-v21");
                                   ("voice_id", Py.VStr "tc_1")]);
            ("sets", Py.VList [Py.VDict
               [("name", Py.VStr "greet");
                ("lines", Py.VList
                   [Py.VDict [("key", Py.VStr "hello"); ("text", Py.VStr "Hello there")];
                    Py.VDict [("key", Py.VStr "bye"); ("text", Py.VStr "Goodbye")]])]])].

Definition colors_args (dry : bool) : GenerateColors.Args :=
  {| GenerateColors.yaml_path := "colors.yaml";
     GenerateColors.out_dir := "out";
     GenerateColors.seed := 42;
     GenerateColors.n_long := 10;
     GenerateColors.n_short := 10;
     GenerateColors.all := false;
     GenerateColors.sleep := Finite 0;
     GenerateColors.force := false;
     GenerateColors.dry_run := dry |}.

Definition batch_args (dry : bool) : TypecastBatchTts.Args :=
  {| TypecastBatchTts.manifest := "voice_sets.yaml";
     TypecastBatchTts.out := "out_audio";
     TypecastBatchTts.dry_run := dry;
     TypecastBatchTts.overwrite := false;
     TypecastBatchTts.list_voices_flag := false;
     TypecastBatchTts.model_filter := None |}.

End Demo.
(** * The vocabulary of the statements *)

Section Vocabulary.
Context `{Externals}.

(** What [random.Random.sample] promises for [0 <= k <= len(population)]:
    [k] items, drawn without replacement. *)
Definition rng_sample_contract : Prop :=
  forall (g : rng) (items : list utterance) (k : nat),
    (k <= length items)%nat ->
    length (fst (rng_sample g items k)) = k
    /\ fst (rng_sample g items k) ⊆+ items.

(** The characters of a slug: lower-case letters, digits, [.], [_], [-]. *)
Definition slug_char (c : ascii) : bool :=
  let n := PyStr.code c in
  ((97 <=? n) && (n <=? 122)) || ((48 <=? n) && (n <=? 57))
  || (n =? 46) || (n =? 95) || (n =? 45).

(** What the library promises of a generator made with a seed: it does
    not look at what the operating system offers. *)
Definition seeded_generator_contract : Prop :=
  forall (s os_seed os_seed' : Z),
    Random (Some s) os_seed = Random (Some s) os_seed'.

(** The destination of a plan entry of the scripts built on config.py. *)
Definition dest_of (e : Path.t * string * string) : Path.t :=
  Fs.joinpath e.1.1 (e.1.2 +:+ extension Config.DEFAULTS).

(** The destination of the entry lies below the output directory: line
    182 of generate_colors.py and of generate_voice_assets_sample.py finds
    its relative path. *)
Definition under (out : Path.t) (e : Path.t * string * string) : Prop :=
  exists rel, Path.relative_to (dest_of e) out = inr rel.

(** The utterance of a plan entry: its id and its text. *)
Definition utterance_of (e : Path.t * string * string) : utterance :=
  (e.1.2, e.2).

(** The world [main] is in when its preparation is over. *)
Definition world_of {entry} (p : Prepared entry) : World :=
  match p with
  | Stop _ w => w
  | Go _ _ _ w => w
  end.

(** What [main] reaches the loop with, when it does. *)
Definition reached {entry} (p : Prepared entry)
  : option (Path.t * option client * list entry) :=
  match p with
  | Stop _ _ => None
  | Go out cli plan _ => Some (out, cli, plan)
  end.

(** An id that is not an absolute path. *)
Definition relative_id (id : string) : Prop := Path.anchor id = None.


(** The place of the file of [p] in the world [w], when the walk gets
    there. *)
Definition file_of (w : World) (p : Path.t) : option (list string) :=
  Fs.locate (dirs w) p.

(** The place of the temporary sibling of the file at [k]. *)
Definition tmp_key (k : list string) : list string :=
  match last k with
  | Some n => removelast k ++ [n +:+ ".tmp"]
  | None => k
  end.


(** The requests of a run of generate_voice_assets.py: those made before
    it, and requests for texts that are not blank. *)
Definition request_for_text (before : list Py.value) (req : Py.value) : Prop :=
  req ∈ before
  \/ exists text, GenerateVoiceAssets.is_blank text = false
                  /\ req = TTSRequest text Config.DEFAULTS.







(** The files when [write_bytes_atomic(path, data)] has returned, for
    the destination at [k]. *)
Definition atomic_final (k : list string) (data : list Z)
    (fs : gmap (list string) (list Z)) : gmap (list string) (list Z) :=
  <[k := data]> (delete (tmp_key k) (<[tmp_key k := data]> fs)).

(** The states that can be observed while it runs. *)
Definition atomic_states (k : list string) (data : list Z)
    (fs : gmap (list string) (list Z)) : list (gmap (list string) (list Z)) :=
  Fs.write_bytes_states (tmp_key k) data fs ++ [atomic_final k data fs].

(** The place of a file a plan entry can have as its destination: its
    name ends with the extension. *)
Definition is_destination (k : list string) : Prop :=
  exists n, last k = Some (n +:+ extension Config.DEFAULTS).

(** What is at [k]: what was there at the start, or all the bytes of
    an answer of the service. *)
Definition complete_or_untouched (fs0 fs : gmap (list string) (list Z))
    (k : list string) : Prop :=
  fs !! k = fs0 !! k
  \/ exists c n req resp,
       text_to_speech c n req = inr resp /\ fs !! k = Some (audio_data resp).

(** That, at every destination. *)
Definition destinations_whole (fs0 fs : gmap (list string) (list Z)) : Prop :=
  forall k, is_destination k -> complete_or_untouched fs0 fs k.

(** The iteration for [out_path] wrote the audio of an answer of the
    service through the temporary sibling: the bytes grew there, then the
    sibling was renamed onto the destination. *)
Definition stored (out_path : Path.t) (w w' : World) : Prop :=
  exists k c n req resp,
    file_of w out_path = Some k
    /\ text_to_speech c n req = inr resp
    /\ files w' = atomic_final k (audio_data resp) (files w)
    /\ observed w'
       = observed w ++ atomic_states k (audio_data resp) (files w).

(** The iteration wrote the audio to the temporary sibling and the
    rename was refused, which happens when a directory has the name of the
    destination. *)
Definition stranded (out_path : Path.t) (w w' : World) : Prop :=
  exists k c n req resp,
    file_of w out_path = Some k
    /\ Fs.is_dir (dirs w) k = true
    /\ text_to_speech c n req = inr resp
    /\ files w' = <[tmp_key k := audio_data resp]> (files w)
    /\ observed w'
       = observed w
         ++ Fs.write_bytes_states (tmp_key k) (audio_data resp) (files w).

(** What one iteration does to the files: nothing, or one of the two. *)
Definition files_step (out_path : Path.t) (w w' : World) : Prop :=
  dirs w' = dirs w
  /\ ((files w' = files w /\ observed w' = observed w)
      \/ stranded out_path w w'
      \/ stored out_path w w').

(** Every state observed since the run began, and the present one. *)
Definition whole_so_far (w : World) (st : Run) : Prop :=
  destinations_whole (files w) (files (world st))
  /\ exists seen,
       observed (world st) = observed w ++ seen
       /\ Forall (destinations_whole (files w)) seen.


(** A dry loop leaves the world as it found it, apart from what it
    prints, and counts no failure. *)
Definition silent (w : World) (r : Run) : Prop :=
  raised r = None
  /\ files (world r) = files w
  /\ dirs (world r) = dirs w
  /\ observed (world r) = observed w
  /\ requests (world r) = requests w
  /\ failed r = 0.


End Vocabulary.

Section MoreVocabulary.
Context `{Externals}.

(** An item [iter_utterances] and [iter_items] accept: a dict with the keys
    ["id"] and ["text"]. *)
Definition valid_item (it : Py.value) : bool :=
  match it with
  | Py.VDict m => Py.has_key "id" m && Py.has_key "text" m
  | _ => false
  end.

(** The pair such an item gives: [(str(it["id"]), str(it["text"]))]. *)
Definition item_pair (it : Py.value) : string * string :=
  match it with
  | Py.VDict m => (py_str (Py.dict_get m "id" Py.VNone),
                   py_str (Py.dict_get m "text" Py.VNone))
  | _ => (EmptyString, EmptyString)
  end.

(** A character the file names of the scripts are made of, as a
    proposition on strings. *)
Definition slug_string (s : string) : Prop :=
  Forall (fun c => slug_char c = true) (PyStr.chars s).

(** The groups of generate_voice_assets.py and the directory of each,
    below the output directory. *)
Definition group_table : list (string * string) :=
  [("prefixes", "prefix"); ("suffixes", "suffix"); ("colors", "color");
   ("tools", "tool"); ("micro", "micro");
   ("completion_not_enough", "completion/not_enough");
   ("completion_enough", "completion/enough")].

(** The group passes the [--only] filter: the filter is absent or empty,
    or names the group. *)
Definition selected (args : GenerateVoiceAssets.Args) (group_key : string)
  : Prop :=
  match GenerateVoiceAssets.only args with
  | Some (g :: gs) => group_key ∈ g :: gs
  | _ => True
  end.

(** An entry of the plan of generate_voice_assets.py as it should be: a
    known group that passes the filter, in the directory of that group. *)
Definition entry_in_place (args : GenerateVoiceAssets.Args) (out : Path.t)
    (e : GenerateVoiceAssets.entry) : Prop :=
  exists sub, (e.1.1.1, sub) ∈ group_table
              /\ e.1.1.2 = Fs.joinpath out sub
              /\ selected args e.1.1.1.

(** Nothing happened to the files, and no request went out. *)
Definition untouched (w w' : World) : Prop :=
  files w' = files w /\ observed w' = observed w /\ requests w' = requests w.

(** The API key is unset or empty. *)
Definition no_api_key (w : World) : Prop :=
  Config.getenv (environ w) Config.ENV_API_KEY = None
  \/ Config.getenv (environ w) Config.ENV_API_KEY = Some EmptyString.

(** How [prepare] can end, for the three scripts: the world it leaves
    differs from the one it found by what was printed only; it never stops
    with the value 1; a dry run has no client; and without an API key a real
    run does not reach the loop. *)
Definition prepared_well {entry} (dry : bool) (w : World) (p : Prepared entry)
  : Prop :=
  match p with
  | Stop o w' => untouched w w' /\ o <> Exit 1
  | Go out cli plan w' =>
      untouched w w' /\ (dry = true -> cli = None)
      /\ (dry = false -> ~ no_api_key w)
  end.

(** The value of the parameter [k] of a line: the line's own when it has
    the key, else the set's default, else the manifest's default, else
    [dflt]. *)
Definition inherited (k : string) (line set_level global : list (string * Py.value))
    (dflt : Py.value) : Py.value :=
  match Py.assoc k line with
  | Some v => v
  | None =>
      match Py.assoc k set_level with
      | Some v => v
      | None => Py.dict_get global k dflt
      end
  end.

(** [b] over [a], key by key. *)
Definition overrides (merged a b : list (string * Py.value)) : Prop :=
  forall k, Py.assoc k merged
            = match Py.assoc k b with Some v => Some v | None => Py.assoc k a end.

(** An item of typecast_batch_tts.py as [load_manifest] makes it from the
    line [ln] of a set called [name], with the defaults [set_level] of the
    set and [global] of the manifest. *)
Definition line_loaded (name : Py.value)
    (set_level global : list (string * Py.value)) (ln : Py.value)
    (item : TypecastBatchTts.LineItem) : Prop :=
  exists line,
    ln = Py.VDict line
    /\ TypecastBatchTts.set item = name
    /\ TypecastBatchTts.key item = Py.dict_get line "key" Py.VNone
    /\ TypecastBatchTts.text item = Py.dict_get line "text" Py.VNone
    /\ TypecastBatchTts.model item
       = inherited "model" line set_level global Py.VNone
    /\ TypecastBatchTts.voice_id item
       = inherited "voice_id" line set_level global Py.VNone
    /\ TypecastBatchTts.language item
       = inherited "language" line set_level global (Py.VStr "en")
    /\ TypecastBatchTts.output_format item
       = inherited "output_format" line set_level global (Py.VStr "mp3")
    /\ (exists sp lp,
          TypecastBatchTts.mapping
            (Py.or_empty_dict (inherited "prompt" [] set_level global Py.VNone))
          = inr sp
          /\ TypecastBatchTts.mapping
               (Py.or_empty_dict (Py.dict_get line "prompt" Py.VNone)) = inr lp
          /\ overrides (TypecastBatchTts.prompt item) sp lp)
    /\ (exists so lo,
          TypecastBatchTts.mapping
            (Py.or_empty_dict (inherited "output" [] set_level global Py.VNone))
          = inr so
          /\ TypecastBatchTts.mapping
               (Py.or_empty_dict (Py.dict_get line "output" Py.VNone)) = inr lo
          /\ overrides (TypecastBatchTts.output item) so lo)
    /\ (Py.truthy (Py.dict_get line "filename" Py.VNone) = true ->
        TypecastBatchTts.filename item = Py.dict_get line "filename" Py.VNone).

(** An item that has all it needs: a set name, a key, a text, a model, a
    voice and a file name, none of them empty. *)
Definition complete_item (item : TypecastBatchTts.LineItem) : Prop :=
  Py.truthy (TypecastBatchTts.set item) = true
  /\ Py.truthy (TypecastBatchTts.key item) = true
  /\ Py.truthy (TypecastBatchTts.text item) = true
  /\ Py.truthy (TypecastBatchTts.model item) = true
  /\ Py.truthy (TypecastBatchTts.voice_id item) = true
  /\ Py.truthy (TypecastBatchTts.filename item) = true.

(** Every key of the dict is one of [allowed]. *)
Definition keys_within (allowed : list string) (m : list (string * Py.value))
  : Prop :=
  Forall (fun kv => kv.1 ∈ allowed) m.

(** What an iteration may do to the files: nothing, or, only when nothing
    is at the destination or overwriting was asked for, a write to the
    temporary sibling, followed or not by the rename. *)
Definition wrote (force : bool) (out_path : Path.t) (w w' : World) : Prop :=
  dirs w' = dirs w
  /\ (files w' = files w
      \/ (Fs.exists_ (files w) (dirs w) out_path && negb force = false
          /\ exists k data,
               file_of w out_path = Some k
               /\ (files w' = <[tmp_key k := data]> (files w)
                   \/ files w' = atomic_final k data (files w)))).

(** Every destination that held a file when the run began still holds the
    same bytes. *)
Definition keeps_existing (w : World) (r : Run) : Prop :=
  forall q content,
    is_destination q -> files w !! q = Some content ->
    files (world r) !! q = Some content.

(** Only the destinations [dests] and their temporary siblings can have
    changed. *)
Definition touches_only (dests : list (list string)) (w : World) (r : Run)
  : Prop :=
  forall q,
    q ∉ dests -> q ∉ map tmp_key dests ->
    files (world r) !! q = files w !! q.

(** The places of the files of the paths [ps] that can be reached in
    [w]. *)
Definition files_of (w : World) (ps : list Path.t) : list (list string) :=
  omap (file_of w) ps.

(** A second pass found everything in place: it skipped every entry and
    left the files and the requests as they were. *)
Definition all_skipped (plan_length : nat) (w : World) (r : Run) : Prop :=
  untouched w (world r)
  /\ skipped r = Z.of_nat plan_length
  /\ generated r = 0 /\ failed r = 0 /\ raised r = None.

(** Each of the paths [dests] holds a file when the run is over. *)
Definition all_present (dests : list Path.t) (r : Run) : Prop :=
  forall q, q ∈ dests ->
    Fs.exists_ (files (world r)) (dirs (world r)) q = true.

(** The destinations of the entries of generate_voice_assets.py that have
    a text to speak. *)
Definition spoken (plan : list GenerateVoiceAssets.entry) : list Path.t :=
  map GenerateVoiceAssets.dest
      (filter (fun e => GenerateVoiceAssets.is_blank e.2 = false) plan).

(** What one iteration contributes to a complete run: it makes no
    directory, it removes no file from a destination, and when it ends
    without an exception and without a failure its own destination exists. *)
Definition step_completes {A} (body : Run -> A -> Run) (dest : A -> Path.t)
    (good : A -> Prop) (st : Run) (ix : A) : Prop :=
  failed st <= failed (body st ix)
  /\ dirs (world (body st ix)) = dirs (world st)
  /\ (forall k, is_destination k ->
        is_Some (files (world st) !! k) ->
        is_Some (files (world (body st ix)) !! k))
  /\ (raised (body st ix) = None -> failed (body st ix) = failed st ->
      good ix ->
      Fs.exists_ (files (world (body st ix))) (dirs (world st)) (dest ix)
      = true).

(** What an iteration that finds its file in place, or nothing to say,
    does. *)
Definition step_skips {A} (body : Run -> A -> Run) (st : Run) (ix : A)
  : Prop :=
  untouched (world st) (world (body st ix))
  /\ dirs (world (body st ix)) = dirs (world st)
  /\ skipped (body st ix) = skipped st + 1
  /\ generated (body st ix) = generated st
  /\ failed (body st ix) = failed st
  /\ raised (body st ix) = None.

(** The loop of typecast_batch_tts.py from an arbitrary state. *)
Definition batch_loop (args : TypecastBatchTts.Args) (cli : client)
    (out : Path.t) (items : list TypecastBatchTts.LineItem)
    (st : TypecastBatchTts.State) : TypecastBatchTts.State :=
  fold_left
    (fun st item =>
       match TypecastBatchTts.braised st with
       | Some _ => st
       | None => TypecastBatchTts.body args cli out st item
       end) items st.

(** What the loop of typecast_batch_tts.py has done when [n] more lines
    are behind it and no exception has left it. *)
Definition batch_progress (args : TypecastBatchTts.Args) (out : Path.t)
    (items : list TypecastBatchTts.LineItem) (n : nat)
    (st st' : TypecastBatchTts.State) : Prop :=
  TypecastBatchTts.planned st' = TypecastBatchTts.planned st + Z.of_nat n
  /\ dirs (TypecastBatchTts.bworld st') = dirs (TypecastBatchTts.bworld st)
  /\ (forall q,
        Fs.exists_ (files (TypecastBatchTts.bworld st))
                   (dirs (TypecastBatchTts.bworld st)) q = true ->
        Fs.exists_ (files (TypecastBatchTts.bworld st'))
                   (dirs (TypecastBatchTts.bworld st')) q = true)
  /\ (TypecastBatchTts.dry_run args = false ->
      TypecastBatchTts.bgenerated st' + TypecastBatchTts.bskipped st'
      = TypecastBatchTts.bgenerated st + TypecastBatchTts.bskipped st
        + Z.of_nat n
      /\ Z.of_nat (length (requests (TypecastBatchTts.bworld st')))
         = Z.of_nat (length (requests (TypecastBatchTts.bworld st)))
           + (TypecastBatchTts.bgenerated st' - TypecastBatchTts.bgenerated st)
      /\ forall item, item ∈ items ->
           exists dest,
             TypecastBatchTts.dest_of out item = inr dest
             /\ Fs.exists_ (files (TypecastBatchTts.bworld st'))
                           (dirs (TypecastBatchTts.bworld st')) dest = true).

(** A pass of typecast_batch_tts.py over [n] lines that found every file in
    place. *)
Definition batch_all_skipped (n : nat) (st st' : TypecastBatchTts.State)
  : Prop :=
  TypecastBatchTts.bworld st' = TypecastBatchTts.bworld st
  /\ TypecastBatchTts.planned st'
     = TypecastBatchTts.planned st + Z.of_nat n
  /\ TypecastBatchTts.bskipped st'
     = TypecastBatchTts.bskipped st + Z.of_nat n
  /\ TypecastBatchTts.bgenerated st' = TypecastBatchTts.bgenerated st
  /\ TypecastBatchTts.braised st' = None.

(** A lower-case hexadecimal digit. *)
Definition hex_char (c : ascii) : bool :=
  let n := PyStr.code c in
  ((48 <=? n) && (n <=? 57)) || ((97 <=? n) && (n <=? 102)).

(** The file system of [w] replaced by [fs]. *)
Definition with_files (fs : gmap (list string) (list Z)) (w : World) : World :=
  set_files w fs [].

End MoreVocabulary.
(** * Properties *)

(** ** Test vectors *)

Example sha1_abc :
  Sha1.hexdigest (PyStr.encode_utf8 "abc")
  = "a9993e364706816aba3e25717850c26c9cd0d89d".
Proof. vm_compute. reflexivity. Qed.

Example sha1_empty :
  Sha1.hexdigest [] = "da39a3ee5e6b4b0d3255bfef95601890afd80709".
Proof. vm_compute. reflexivity. Qed.

Example sha1_two_blocks :
  Sha1.hexdigest (PyStr.encode_utf8 (PyStr.str (repeat "x"%char 200)))
  = "94218caae9904e93a3d7bf578bf4791926fc5e82".
Proof. vm_compute. reflexivity. Qed.

Example slugify_hello :
  BatchNames.slugify "  Hello, World!  " 80 = "hello-world".
Proof. vm_compute. reflexivity. Qed.

Example slugify_keeps_safe : BatchNames.slugify "--A__b..C--" 80 = "a__b..c".
Proof. vm_compute. reflexivity. Qed.

(** ** Strings *)

Lemma chars_str l : PyStr.chars (PyStr.str l) = l.
Proof. apply list_ascii_of_string_of_list_ascii. Qed.

Lemma str_chars s : PyStr.str (PyStr.chars s) = s.
Proof. apply string_of_list_ascii_of_string. Qed.

Lemma chars_app a b : PyStr.chars (a +:+ b) = PyStr.chars a ++ PyStr.chars b.
Proof. induction a as [|c a IH]; simpl; [done | by rewrite IH]. Qed.

Lemma length_chars s : length (PyStr.chars s) = String.length s.
Proof. induction s as [|c s IH]; simpl; [done | by rewrite IH]. Qed.

Lemma chars_inj a b : PyStr.chars a = PyStr.chars b -> a = b.
Proof. intros E. by rewrite <- (str_chars a), <- (str_chars b), E. Qed.

Lemma append_inj_r a b c : a +:+ c = b +:+ c -> a = b.
Proof.
  intros E. apply chars_inj. apply (f_equal PyStr.chars) in E.
  rewrite !chars_app in E. by apply app_inv_tail in E.
Qed.

Lemma append_assoc a b c : (a +:+ b) +:+ c = a +:+ (b +:+ c).
Proof. apply chars_inj. rewrite !chars_app. by rewrite app_assoc. Qed.

Lemma prefix_append a b : String.prefix a (a +:+ b) = true.
Proof.
  induction a as [|x a IH].
  - by destruct b.
  - change (String x a +:+ b) with (String x (a +:+ b)). simpl.
    destruct (ascii_dec x x); [done | congruence].
Qed.

(** ** The file names of typecast_batch_tts.py *)

Lemma lstrip_by_suffix p l : exists t, l = t ++ PyStr.lstrip_by p l.
Proof.
  induction l as [|c l [t IH]]; simpl; [by exists []|].
  destruct (p c); [|by exists []].
  exists (c :: t). simpl. by rewrite <- IH.
Qed.

Lemma lstrip_by_head p l c :
  head (PyStr.lstrip_by p l) = Some c -> p c = false.
Proof.
  induction l as [|x l IH]; simpl; [done|].
  destruct (p x) eqn:Hx; [done|]. simpl. by intros [= <-].
Qed.

Lemma rstrip_by_prefix p l : exists t, l = PyStr.rstrip_by p l ++ t.
Proof.
  unfold PyStr.rstrip_by.
  destruct (lstrip_by_suffix p (rev l)) as [t Ht].
  exists (rev t). rewrite <- rev_app_distr, <- Ht. by rewrite rev_involutive.
Qed.

Lemma strip_by_head p l c :
  head (PyStr.strip_by p l) = Some c -> p c = false.
Proof.
  unfold PyStr.strip_by. intros Hh.
  destruct (rstrip_by_prefix p (PyStr.lstrip_by p l)) as [t Ht].
  apply (lstrip_by_head p l). rewrite Ht.
  destruct (PyStr.rstrip_by p (PyStr.lstrip_by p l)); [done|exact Hh].
Qed.

Lemma strip_by_Forall (P : ascii -> Prop) p l :
  Forall P l -> Forall P (PyStr.strip_by p l).
Proof.
  intros Hl. unfold PyStr.strip_by.
  destruct (lstrip_by_suffix p l) as [t1 H1].
  destruct (rstrip_by_prefix p (PyStr.lstrip_by p l)) as [t2 H2].
  rewrite H1, H2 in Hl.
  apply Forall_app in Hl as [_ Hl]. by apply Forall_app in Hl as [Hl _].
Qed.

Lemma lower_safe_is_slug_char c :
  BatchNames.is_safe (PyStr.lower_char c) = true ->
  slug_char (PyStr.lower_char c) = true.
Proof.
  destruct c as [[] [] [] [] [] [] [] []]; vm_compute; intros Hc;
    first [reflexivity | discriminate Hc].
Qed.

Lemma sub_runs_lower_Forall b l :
  Forall (fun c => slug_char c = true)
         (BatchNames.sub_runs b (map PyStr.lower_char l)).
Proof.
  revert b. induction l as [|c l IH]; intros b; simpl; [done|].
  destruct (BatchNames.is_safe (PyStr.lower_char c)) eqn:Hs.
  - apply Forall_cons. split; [by apply lower_safe_is_slug_char | apply IH].
  - destruct b; [apply IH|]. apply Forall_cons. split; [reflexivity | apply IH].
Qed.

(** What does hold of every slug: at most [max_len] characters, all of
    them lower-case letters, digits, [.], [_] or [-], and no hyphen in
    front. *)
Lemma slugify_shape s max_len :
  0 < max_len ->
  PyStr.len (BatchNames.slugify s max_len) <= max_len
  /\ Forall (fun c => slug_char c = true)
            (PyStr.chars (BatchNames.slugify s max_len))
  /\ head (PyStr.chars (BatchNames.slugify s max_len)) <> Some "-"%char.
Proof.
  intros Hm. unfold BatchNames.slugify.
  set (t := PyStr.strip_chars "-"
              (BatchNames.SAFE_CHARS_sub (PyStr.lower (PyStr.strip s)))).
  assert (Hall : Forall (fun c => slug_char c = true) (PyStr.chars t)).
  { unfold t, PyStr.strip_chars, BatchNames.SAFE_CHARS_sub, PyStr.lower.
    rewrite !chars_str. apply strip_by_Forall, sub_runs_lower_Forall. }
  assert (Hhead : head (PyStr.chars t) <> Some "-"%char).
  { unfold t, PyStr.strip_chars. rewrite chars_str. intros Hh.
    apply strip_by_head in Hh. vm_compute in Hh. discriminate Hh. }
  destruct (max_len <? PyStr.len t) eqn:Hlt.
  - unfold PyStr.prefix, PyStr.len. rewrite <- length_chars, !chars_str.
    split; [rewrite length_take; lia|]. split; [by apply Forall_take|].
    destruct (Z.to_nat max_len) as [|k] eqn:Hk; [lia|].
    by destruct (PyStr.chars t).
  - apply Z.ltb_ge in Hlt. done.
Qed.

(** C10, at the failing input: a slug cut at 80 characters can end with
    the hyphen that replaced white space.  [slugify] removes the hyphens at
    both ends before it cuts, so the cut may leave one at the end. *)
Theorem slugify_cut_ends_with_hyphen :
  BatchNames.slugify (PyStr.str (repeat "a"%char 79) +:+ " b") 80
  = PyStr.str (repeat "a"%char 79) +:+ "-"
  /\ last (PyStr.chars
             (BatchNames.slugify (PyStr.str (repeat "a"%char 79) +:+ " b") 80))
     = Some "-"%char.
Proof. split; vm_compute; reflexivity. Qed.

Lemma length_hexdigest msg : String.length (Sha1.hexdigest msg) = 40%nat.
Proof.
  unfold Sha1.hexdigest, Sha1.digest.
  rewrite <- length_chars, chars_str. reflexivity.
Qed.

Lemma length_short_hash s : String.length (BatchNames.short_hash s 8) = 8%nat.
Proof.
  unfold BatchNames.short_hash, PyStr.prefix.
  rewrite <- length_chars, chars_str, length_take, length_chars, length_hexdigest.
  reflexivity.
Qed.

Section FileNames.
Context `{Externals}.

Lemma derived_filename_eq set_name key t output_format :
  TypecastBatchTts.derived_filename set_name key (Py.VStr t) output_format
  = inr (BatchNames.slugify (TypecastBatchTts.fmt set_name +:+ "-"
                             +:+ TypecastBatchTts.fmt key) 80
         +:+ "-" +:+ BatchNames.short_hash t 8 +:+ "."
         +:+ TypecastBatchTts.fmt output_format).
Proof. reflexivity. Qed.

Lemma load_line_filename set_name set_defaults ln item :
  TypecastBatchTts.load_line set_name set_defaults ln = inr item ->
  (forall v, Py.get ln "filename" = inr v -> Py.truthy v = false) ->
  exists f,
    TypecastBatchTts.filename item = Py.VStr f
    /\ TypecastBatchTts.derived_filename
         (TypecastBatchTts.set item) (TypecastBatchTts.key item)
         (TypecastBatchTts.text item) (TypecastBatchTts.output_format item)
       = inr f.
Proof.
  unfold TypecastBatchTts.load_line, Py.bind. intros Hl Hf.
  repeat
    match type of Hl with
    | match ?x with _ => _ end = _ => destruct x eqn:?; try discriminate
    | (if ?x then _ else _) = _ => destruct x eqn:?; try discriminate
    end.
  match goal with
  | Hx : (if Py.truthy ?v then _ else _) = inr _ |- _ =>
      rewrite (Hf v eq_refl) in Hx;
      destruct (TypecastBatchTts.derived_filename set_name _ _ _) eqn:Hd;
      [discriminate|]; injection Hx as <-
  end.
  injection Hl as <-. simpl. eauto.
Qed.

(** C7 (amended).  A line without an explicit file name gets
    [slug(set-key) - hash8(text) . output_format]: the name is a function of
    the set, the key, the text and the output format; the hash part has
    eight characters; and with the set, the key and the format held fixed two
    texts give different names exactly when the first eight hex digits of
    their SHA-1 differ. *)
Theorem derived_filename_spec set_name set_defaults ln item :
  TypecastBatchTts.load_line set_name set_defaults ln = inr item ->
  (forall v, Py.get ln "filename" = inr v -> Py.truthy v = false) ->
  exists t,
    TypecastBatchTts.text item = Py.VStr t
    /\ TypecastBatchTts.filename item
       = Py.VStr (BatchNames.slugify
                    (TypecastBatchTts.fmt (TypecastBatchTts.set item) +:+ "-"
                     +:+ TypecastBatchTts.fmt (TypecastBatchTts.key item)) 80
                  +:+ "-" +:+ BatchNames.short_hash t 8 +:+ "."
                  +:+ TypecastBatchTts.fmt (TypecastBatchTts.output_format item))
    /\ String.length (BatchNames.short_hash t 8) = 8%nat
    /\ forall t',
         TypecastBatchTts.derived_filename
           (TypecastBatchTts.set item) (TypecastBatchTts.key item)
           (Py.VStr t') (TypecastBatchTts.output_format item)
         <> inr (BatchNames.slugify
                   (TypecastBatchTts.fmt (TypecastBatchTts.set item) +:+ "-"
                    +:+ TypecastBatchTts.fmt (TypecastBatchTts.key item)) 80
                 +:+ "-" +:+ BatchNames.short_hash t 8 +:+ "."
                 +:+ TypecastBatchTts.fmt (TypecastBatchTts.output_format item))
         <-> BatchNames.short_hash t' 8 <> BatchNames.short_hash t 8.
Proof.
  intros Hl Hf.
  destruct (load_line_filename _ _ _ _ Hl Hf) as (f & Hfile & Hd).
  destruct (TypecastBatchTts.text item) as [| | | |t| |] eqn:Ht;
    try (unfold TypecastBatchTts.derived_filename in Hd; simpl in Hd;
         discriminate).
  exists t. rewrite derived_filename_eq in Hd. injection Hd as <-.
  split; [done|]. split; [done|]. split; [apply length_short_hash|].
  intros t'. rewrite derived_filename_eq. split.
  - intros Hne Heq. apply Hne. by rewrite Heq.
  - intros Hne Heq. apply Hne. injection Heq as Heq.
    apply String.app_inj in Heq. apply String.app_inj in Heq.
    by apply append_inj_r in Heq.
Qed.

End FileNames.

Lemma derived_filename_spec_witness :
  let E := Demo.ext Demo.batch_doc Demo.svc_ok in
  let ln := Py.VDict [("key", Py.VStr "hello"); ("text", Py.VStr "Hello there")] in
  let defaults := [("model", Py.VStr "ssfm-v21"); ("voice_id", Py.VStr "tc_1")] in
  let item :=
    {| TypecastBatchTts.set := Py.VStr "greet";
       TypecastBatchTts.key := Py.VStr "hello";
       TypecastBatchTts.text := Py.VStr "Hello there";
       TypecastBatchTts.filename := Py.VStr "greet-hello-726c7655.mp3";
       TypecastBatchTts.model := Py.VStr "ssfm-v21";
       TypecastBatchTts.voice_id := Py.VStr "tc_1";
       TypecastBatchTts.language := Py.VStr "en";
       TypecastBatchTts.output_format := Py.VStr "mp3";
       TypecastBatchTts.prompt := [];
       TypecastBatchTts.output := [] |} in
  TypecastBatchTts.load_line (Py.VStr "greet") defaults ln = inr item
  /\ (forall v, Py.get ln "filename" = inr v -> Py.truthy v = false)
  /\ exists t,
       TypecastBatchTts.text item = Py.VStr t
       /\ String.length (BatchNames.short_hash t 8) = 8%nat.
Proof.
  intros E ln defaults item.
  assert (Hl : TypecastBatchTts.load_line (Py.VStr "greet") defaults ln
               = inr item) by (vm_compute; reflexivity).
  assert (Hf : forall v, Py.get ln "filename" = inr v -> Py.truthy v = false).
  { intros v Hv. injection Hv as <-. reflexivity. }
  split; [exact Hl|]. split; [exact Hf|].
  destruct (derived_filename_spec (H:=E) _ _ _ _ Hl Hf) as (t & Ht & _ & Hlen & _).
  exists t. split; [exact Ht | exact Hlen].
Defined.

(** C7, as stated, fails: two different texts whose SHA-1 digests share
    their first eight hex digits get the same file name. *)
Lemma hash_suffix_collision :
  let E := Demo.ext Demo.batch_doc Demo.svc_ok in
  "line 109822" <> "line 135819"
  /\ BatchNames.short_hash "line 109822" 8 = "7717f349"
  /\ BatchNames.short_hash "line 135819" 8 = "7717f349"
  /\ TypecastBatchTts.derived_filename (Py.VStr "greet") (Py.VStr "hello")
       (Py.VStr "line 109822") (Py.VStr "mp3")
     = TypecastBatchTts.derived_filename (Py.VStr "greet") (Py.VStr "hello")
         (Py.VStr "line 135819") (Py.VStr "mp3").
Proof.
  intros E. split; [discriminate|].
  split; [vm_compute; reflexivity|].
  split; vm_compute; reflexivity.
Qed.

(** ** The sampler *)

Section Sampler.
Context `{Externals}.

(** C1 (amended).  A count of zero or less selects nothing; a count that
    reaches the population size selects the population as it stands; any
    other count selects what the generator's [sample] returns: exactly that
    many items, drawn from the population without replacement.  In the first
    two cases the generator is not touched. *)
Theorem sample_spec (Hrng : rng_sample_contract)
    (items : list utterance) (n : Z) (g : rng) :
  (n <= 0 -> sample items n g = ([], g))
  /\ (Z.of_nat (length items) <= n -> sample items n g = (items, g))
  /\ (0 < n < Z.of_nat (length items) ->
      sample items n g = rng_sample g items (Z.to_nat n)
      /\ Z.of_nat (length (fst (sample items n g))) = n
      /\ fst (sample items n g) ⊆+ items).
Proof.
  split; [|split].
  - intros Hn. unfold sample. by rewrite (proj2 (Z.leb_le n 0) Hn).
  - intros Hn. unfold sample. destruct (n <=? 0) eqn:Hle; simpl.
    + apply Z.leb_le in Hle.
      assert (length items = 0%nat) as Hz by lia.
      by rewrite (nil_length_inv _ Hz).
    + case_bool_decide as Hnil; [by subst|].
      by rewrite (proj2 (Z.leb_le _ _) Hn).
  - intros [Hlo Hhi].
    assert (Heq : sample items n g = rng_sample g items (Z.to_nat n)).
    { unfold sample. rewrite (proj2 (Z.leb_gt n 0) Hlo). simpl.
      case_bool_decide as Hnil; [subst; simpl in Hhi; lia|].
      by rewrite (proj2 (Z.leb_gt _ _) Hhi). }
    rewrite Heq.
    destruct (Hrng g items (Z.to_nat n)) as [Hlen Hsub]; [lia|].
    split; [done|]. split; [|done].
    transitivity (Z.of_nat (Z.to_nat n)); [f_equal; exact Hlen | lia].
Qed.

End Sampler.

Lemma pick_contract k : forall g l,
  (k <= length l)%nat ->
  length (fst (Demo.pick k g l)) = k /\ fst (Demo.pick k g l) ⊆+ l.
Proof.
  induction k as [|k IH]; intros g l Hk; simpl.
  - split; [done | apply submseteq_nil_l].
  - assert (Hj : (Z.to_nat (g mod Z.of_nat (length l)) < length l)%nat).
    { pose proof (Z.mod_pos_bound g (Z.of_nat (length l))). lia. }
    destruct (lookup_lt_is_Some_2 _ _ Hj) as [x Hx]. rewrite Hx.
    destruct (Demo.pick k _ (delete _ l)) as [r g'] eqn:Hp. simpl.
    destruct (IH ((1103515245 * g + 12345) mod 2147483648)
                 (delete (Z.to_nat (g mod Z.of_nat (length l))) l)) as [Hl Hs].
    { rewrite length_delete by eauto. lia. }
    rewrite Hp in Hl, Hs. simpl in Hl, Hs. split; [by rewrite Hl|].
    rewrite (delete_Permutation _ _ _ Hx). by apply submseteq_skip.
Qed.

Lemma demo_rng_sample_contract doc svc :
  @rng_sample_contract (Demo.ext doc svc).
Proof. intros g items k Hk. apply pick_contract. exact Hk. Qed.

Lemma sample_spec_witness :
  let E := Demo.ext Demo.colors_doc Demo.svc_ok in
  let items := [("a", "one"); ("b", "two"); ("c", "three"); ("d", "four")] in
  @rng_sample_contract E
  /\ (0 < 2 < Z.of_nat (length items))
  /\ Z.of_nat (length (fst (@sample E items 2 (@Random E (Some 7) 0)))) = 2
  /\ fst (@sample E items 2 (@Random E (Some 7) 0)) ⊆+ items.
Proof.
  intros E items.
  split; [apply demo_rng_sample_contract|].
  assert (Hr : 0 < 2 < Z.of_nat (length items)) by (simpl; lia).
  split; [exact Hr|].
  destruct (@sample_spec E (demo_rng_sample_contract _ _) items 2 (@Random E (Some 7) 0))
    as (_ & _ & Hs).
  destruct (Hs Hr) as (_ & Hlen & Hsub). split; [exact Hlen | exact Hsub].
Defined.

(** C1, as stated, fails: a count of zero selects nothing, not the whole
    population. *)
Lemma sample_zero_selects_nothing :
  let E := Demo.ext Demo.colors_doc Demo.svc_ok in
  fst (@sample E [("a", "one"); ("b", "two")] 0 (@Random E (Some 42) 0)) = []
  /\ fst (@sample E [("a", "one"); ("b", "two")] 0 (@Random E (Some 42) 0))
     <> [("a", "one"); ("b", "two")].
Proof. intros E. split; [reflexivity | discriminate]. Qed.

(** ** Paths and places *)

Lemma str_app a b : PyStr.str (a ++ b) = PyStr.str a +:+ PyStr.str b.
Proof. apply chars_inj. by rewrite chars_app, !chars_str. Qed.

Lemma split_plain t :
  Forall (fun c => c <> "/"%char) t -> Path.split t = [t].
Proof.
  induction 1 as [|c t Hc _ IH]; [done|]. simpl.
  destruct (Ascii.eqb_spec c "/"); [done|]. by rewrite IH.
Qed.

Lemma split_app_last l t :
  Forall (fun c => c <> "/"%char) t ->
  exists init x,
    Path.split l = init ++ [x] /\ Path.split (l ++ t) = init ++ [x ++ t].
Proof.
  intros Ht. induction l as [|c l (init & x & Hl & Hlt)].
  - exists [], []. split; [done|]. simpl. by apply split_plain.
  - simpl. destruct (Ascii.eqb c "/").
    + exists ([] :: init), x. rewrite Hl, Hlt. done.
    + rewrite Hl, Hlt. destruct init as [|h init]; simpl.
      * by exists [], (c :: x).
      * by exists ((c :: h) :: init), x.
Qed.

Lemma extension_chars :
  PyStr.chars (extension Config.DEFAULTS) = ["."; "m"; "p"; "3"]%char.
Proof. vm_compute. reflexivity. Qed.

Lemma extension_plain :
  Forall (fun c => c <> "/"%char) (PyStr.chars (extension Config.DEFAULTS)).
Proof. rewrite extension_chars. repeat constructor; discriminate. Qed.

Lemma components_of_clip id :
  exists init n,
    Path.components (id +:+ extension Config.DEFAULTS)
    = init ++ [n +:+ extension Config.DEFAULTS].
Proof.
  unfold Path.components. rewrite chars_app.
  destruct (split_app_last (PyStr.chars id)
              (PyStr.chars (extension Config.DEFAULTS)) extension_plain)
    as (init & x & _ & ->).
  rewrite filter_app, map_app.
  exists (map PyStr.str (filter (fun y => Path.kept y = true) init)),
         (PyStr.str x).
  f_equal. rewrite filter_cons_True.
  - rewrite filter_nil. cbn [map]. by rewrite str_app, str_chars.
  - rewrite extension_chars. by destruct x as [|a [|b x]].
Qed.

Lemma clip_name_long n c :
  (String.length c < 4)%nat -> n +:+ extension Config.DEFAULTS <> c.
Proof.
  intros Hc Heq. subst c.
  rewrite <- length_chars, chars_app, length_app, extension_chars in Hc.
  simpl in Hc. lia.
Qed.

Lemma joinpath_last subdir id :
  exists n,
    last (Path.parts (Fs.joinpath subdir (id +:+ extension Config.DEFAULTS)))
    = Some (n +:+ extension Config.DEFAULTS).
Proof.
  destruct (components_of_clip id) as (init & n & Hc). exists n.
  unfold Fs.joinpath, Path.div. rewrite Hc.
  destruct (Path.anchor _); simpl; by rewrite ?app_assoc, last_snoc.
Qed.

Lemma walk_snoc ds init : forall cur c,
  Fs.walk ds cur (init ++ [c])
  = match Fs.walk ds cur init with
    | Some k => if Fs.is_dir ds k then Some (Fs.step k c) else None
    | None => None
    end.
Proof.
  induction init as [|x init IH]; intros cur c; simpl.
  - by destruct (Fs.is_dir ds cur).
  - destruct (Fs.is_dir ds cur); [apply IH|done].
Qed.

Lemma step_name k c : c <> ".." -> Fs.step k c = k ++ [c].
Proof.
  intros Hc. unfold Fs.step. by destruct (String.eqb_spec c "..").
Qed.

Lemma locate_snoc ds d init c :
  c <> ".." ->
  Fs.locate ds {| Path.dslash := d; Path.parts := init ++ [c] |}
  = match Fs.walk ds [] init with
    | Some k => if Fs.is_dir ds k then Some (k ++ [c]) else None
    | None => None
    end.
Proof.
  intros Hc. unfold Fs.locate. simpl. rewrite walk_snoc.
  destruct (Fs.walk ds [] init); [|done]. by rewrite step_name.
Qed.

Lemma locate_last ds p k n :
  last (Path.parts p) = Some n -> n <> ".." ->
  Fs.locate ds p = Some k -> last k = Some n.
Proof.
  destruct p as [d ps]. simpl. intros Hl Hn Hk.
  apply last_Some in Hl as [init ->]. rewrite locate_snoc in Hk by done.
  destruct (Fs.walk ds [] init); [|done].
  destruct (Fs.is_dir ds l); [|done]. injection Hk as <-.
  by rewrite last_snoc.
Qed.

Lemma tmp_key_snoc k n : tmp_key (k ++ [n]) = k ++ [n +:+ ".tmp"].
Proof. unfold tmp_key. by rewrite last_snoc, removelast_last. Qed.

Lemma tmp_name_long n : n +:+ ".tmp" <> "..".
Proof.
  intros Heq. apply (f_equal String.length) in Heq.
  rewrite <- !length_chars, chars_app, length_app in Heq. simpl in Heq. lia.
Qed.

Lemma locate_tmp ds p n :
  last (Path.parts p) = Some n -> n <> ".." ->
  exists tmp,
    Path.with_suffix_tmp p = inr tmp
    /\ Fs.locate ds tmp = tmp_key <$> Fs.locate ds p.
Proof.
  destruct p as [d ps]. simpl. intros Hl Hn.
  unfold Path.with_suffix_tmp. simpl. rewrite Hl.
  eexists. split; [reflexivity|].
  apply last_Some in Hl as [init ->]. rewrite removelast_last.
  rewrite !locate_snoc by (done || apply tmp_name_long).
  destruct (Fs.walk ds [] init) as [k|]; [|done].
  destruct (Fs.is_dir ds k); [|done]. simpl. by rewrite tmp_key_snoc.
Qed.

Lemma destination_last_char k :
  is_destination k ->
  exists n, last k = Some n /\ last (PyStr.chars n) = Some "3"%char.
Proof.
  intros [n Hn]. eexists. split; [exact Hn|].
  rewrite chars_app, extension_chars.
  by rewrite (last_app _ ["."; "m"; "p"; "3"]%char).
Qed.

Lemma tmp_key_not_destination k q : is_destination q -> tmp_key k <> q.
Proof.
  intros Hq Heq. destruct (destination_last_char q Hq) as (n & Hn & Hc).
  unfold tmp_key in Heq. destruct (last k) as [m|] eqn:Hk.
  - rewrite <- Heq, last_snoc in Hn. injection Hn as <-.
    rewrite chars_app in Hc.
    by rewrite (last_app _ ["."; "t"; "m"; "p"]%char) in Hc.
  - rewrite <- Heq, Hk in Hn. discriminate.
Qed.

Lemma tmp_key_neq k : is_destination k -> tmp_key k <> k.
Proof. intros Hk. by apply tmp_key_not_destination. Qed.

Lemma located_destination ds subdir id k :
  Fs.locate ds (Fs.joinpath subdir (id +:+ extension Config.DEFAULTS)) = Some k ->
  is_destination k.
Proof.
  intros Hk. destruct (joinpath_last subdir id) as [n Hn]. exists n.
  eapply locate_last; [exact Hn| |exact Hk].
  apply clip_name_long. simpl. lia.
Qed.

Lemma destination_tmp ds subdir id :
  exists tmp,
    Path.with_suffix_tmp
      (Fs.joinpath subdir (id +:+ extension Config.DEFAULTS)) = inr tmp
    /\ Fs.locate ds tmp
       = tmp_key
         <$> Fs.locate ds
               (Fs.joinpath subdir (id +:+ extension Config.DEFAULTS)).
Proof.
  destruct (joinpath_last subdir id) as [n Hn].
  apply (locate_tmp ds _ _ Hn). apply clip_name_long. simpl. lia.
Qed.

(** *** Below the output directory *)

Lemma relative_clip id :
  relative_id id -> Path.anchor (id +:+ extension Config.DEFAULTS) = None.
Proof.
  unfold relative_id, Path.anchor. rewrite chars_app, extension_chars.
  destruct (PyStr.chars id) as [|c r]; [done|]. simpl.
  destruct (Ascii.eqb c "/"); [|done].
  intros Hid. exfalso. repeat case_match; discriminate.
Qed.

Lemma relative_to_below (out p : Path.t) rest :
  Path.dslash p = Path.dslash out ->
  Path.parts p = Path.parts out ++ rest ->
  exists rel, Path.relative_to p out = inr rel.
Proof.
  intros Hd Hp. unfold Path.relative_to.
  rewrite Hd, Hp, eqb_reflx, take_app_length, bool_decide_true by done.
  simpl. eauto.
Qed.

Lemma under_relative (out subdir : Path.t) rest id text :
  Path.dslash subdir = Path.dslash out ->
  Path.parts subdir = Path.parts out ++ rest ->
  relative_id id ->
  under out (subdir, id, text).
Proof.
  intros Hd Hp Hid. unfold under, dest_of, Fs.joinpath, Path.div. simpl.
  rewrite (relative_clip id Hid).
  apply (relative_to_below out _ (rest ++ Path.components
                                          (id +:+ extension Config.DEFAULTS))).
  - done.
  - simpl. by rewrite Hp, app_assoc.
Qed.

Lemma plan_group_under (out base : Path.t) rest sub items :
  Path.dslash base = Path.dslash out ->
  Path.parts base = Path.parts out ++ rest ->
  Path.anchor sub = None ->
  Forall (fun u => relative_id u.1) items ->
  Forall (under out) (plan_group base sub items).
Proof.
  intros Hd Hp Hsub Hids. unfold plan_group.
  apply List.Forall_forall. intros e He.
  apply in_map_iff in He as (it & <- & Hit).
  rewrite List.Forall_forall in Hids.
  apply (under_relative out _ (rest ++ Path.components sub)).
  - unfold Fs.joinpath, Path.div. by rewrite Hsub.
  - unfold Fs.joinpath, Path.div. rewrite Hsub. simpl.
    by rewrite Hp, app_assoc.
  - by apply Hids.
Qed.

Lemma colors_plan_under out sl ss :
  Forall (fun u => relative_id u.1) sl ->
  Forall (fun u => relative_id u.1) ss ->
  Forall (under out) (GenerateColors.build_plan out sl ss).
Proof.
  intros Hl Hs. unfold GenerateColors.build_plan.
  apply Forall_app; split;
    apply (plan_group_under out out []); try done; by rewrite app_nil_r.
Qed.

Lemma sample_plan_under out (sel : GenerateVoiceAssetsSample.Selection) :
  Forall (fun u => relative_id u.1)
         (GenerateVoiceAssetsSample.prefixes sel
          ++ GenerateVoiceAssetsSample.suffixes sel
          ++ GenerateVoiceAssetsSample.colors sel
          ++ GenerateVoiceAssetsSample.tools sel
          ++ GenerateVoiceAssetsSample.micros sel
          ++ GenerateVoiceAssetsSample.comp_ne sel
          ++ GenerateVoiceAssetsSample.comp_ok sel) ->
  Forall (under out) (GenerateVoiceAssetsSample.build_plan out sel).
Proof.
  intros Hids. repeat (apply Forall_app in Hids as [? Hids]).
  unfold GenerateVoiceAssetsSample.build_plan.
  repeat (apply Forall_app; split);
    first [ apply (plan_group_under out out []); try done; by rewrite app_nil_r
          | apply (plan_group_under out _ ["completion"]); done ].
Qed.


(** X21.  When no id of the selection is an absolute path, every
    destination of the plan lies below the output directory, so that line 182
    of generate_colors.py and of generate_voice_assets_sample.py finds its
    relative path. *)
Theorem relative_ids_stay_below_the_output_directory (out : Path.t) :
  (forall sl ss,
     Forall (fun u => relative_id u.1) sl ->
     Forall (fun u => relative_id u.1) ss ->
     Forall (under out) (GenerateColors.build_plan out sl ss))
  /\ (forall sel : GenerateVoiceAssetsSample.Selection,
        Forall (fun u => relative_id u.1)
               (GenerateVoiceAssetsSample.prefixes sel
                ++ GenerateVoiceAssetsSample.suffixes sel
                ++ GenerateVoiceAssetsSample.colors sel
                ++ GenerateVoiceAssetsSample.tools sel
                ++ GenerateVoiceAssetsSample.micros sel
                ++ GenerateVoiceAssetsSample.comp_ne sel
                ++ GenerateVoiceAssetsSample.comp_ok sel) ->
        Forall (under out) (GenerateVoiceAssetsSample.build_plan out sel)).
Proof.
  split; [apply colors_plan_under | apply sample_plan_under].
Qed.

Lemma relative_ids_witness :
  let out := Demo.at_cwd "out" in
  let sl := [("red_long", "Red is bold."); ("sub/blue_long", "Blue is calm.")] in
  let ss := [("../red_short", "Red!")] in
  Forall (fun u : string * string => relative_id u.1) sl
  /\ Forall (fun u : string * string => relative_id u.1) ss
  /\ Forall (under out) (GenerateColors.build_plan out sl ss)
  /\ map (fun e => Path.relative_to (dest_of e) out)
         (GenerateColors.build_plan out sl ss)
     = [inr "long/red_long.mp3"; inr "long/sub/blue_long.mp3";
        inr "short/../red_short.mp3"].
Proof.
  intros out sl ss.
  assert (Hl : Forall (fun u : string * string => relative_id u.1) sl)
    by (repeat constructor).
  assert (Hs : Forall (fun u : string * string => relative_id u.1) ss)
    by (repeat constructor).
  split; [exact Hl|]. split; [exact Hs|].
  split;
    [exact (proj1 (relative_ids_stay_below_the_output_directory out)
                  sl ss Hl Hs)|].
  vm_compute. reflexivity.
Defined.
(** ** The loop *)

Lemma length_enumerate1 {A} (plan : list A) :
  length (enumerate1 plan) = length plan.
Proof. unfold enumerate1. rewrite length_combine, length_seq. lia. Qed.



Lemma iterate_body_cons {A} (body : Run -> A -> Run) ix its r :
  iterate_body body (ix :: its) r
  = iterate_body body its
      (match raised r with Some _ => r | None => body r ix end).
Proof. reflexivity. Qed.

Lemma iterate_body_raised {A} (body : Run -> A -> Run) its r e :
  raised r = Some e -> iterate_body body its r = r.
Proof.
  induction its as [|ix its IH]; intros Hr; [done|].
  rewrite iterate_body_cons, Hr. by apply IH.
Qed.

Lemma iterate_body_inv {A} (body : Run -> A -> Run) (I : Run -> Prop)
    (P : A -> Prop) :
  (forall st ix, I st -> raised st = None -> P ix -> I (body st ix)) ->
  forall its r, Forall P its -> I r -> I (iterate_body body its r).
Proof.
  intros Hstep its. induction its as [|ix its IH]; intros r HP HI; [done|].
  inversion HP as [|? ? Hix Hrest]; subst.
  rewrite iterate_body_cons.
  apply IH; [done|]. destruct (raised r) eqn:Hr; [done|]. by apply Hstep.
Qed.



Section Counting.
Context `{Externals}.

Lemma pause_world sleep st :
  files (world (pause sleep st)) = files (world st)
  /\ dirs (world (pause sleep st)) = dirs (world st)
  /\ observed (world (pause sleep st)) = observed (world st)
  /\ requests (world (pause sleep st)) = requests (world st)
  /\ stderr (world (pause sleep st)) = stderr (world st).
Proof. unfold pause. repeat case_match; simpl; done. Qed.

Lemma pause_counts sleep st :
  generated (pause sleep st) = generated st
  /\ skipped (pause sleep st) = skipped st
  /\ failed (pause sleep st) = failed st.
Proof. unfold pause. repeat case_match; simpl; done. Qed.















End Counting.

(** ** Destinations that exist *)

Section Skipping.
Context `{Externals}.

(** C8.  In each of the four scripts, an entry whose destination exists
    when it is reached, with the force (overwrite) flag off, is counted as
    skipped and nothing else happens: no request reaches the service. *)
Theorem existing_destination_is_skipped :
  (forall dry sleep d cli out total st i subdir clip_id text,
     Fs.exists_ (files (world st)) (dirs (world st))
                (Fs.joinpath subdir (clip_id +:+ extension d)) = true ->
     let st' := sampled_body false dry sleep d cli out total st
                             (i, (subdir, clip_id, text)) in
     st' = count_skipped st
     /\ requests (world st') = requests (world st)
     /\ skipped st' = skipped st + 1)
  /\ (forall (args : GenerateVoiceAssets.Args) d cli total st i
             group_key subdir clip_id text,
       GenerateVoiceAssets.force args = false ->
       Fs.exists_ (files (world st)) (dirs (world st))
                  (Fs.joinpath subdir (clip_id +:+ extension d)) = true ->
       let st' := GenerateVoiceAssets.body args d cli total st
                    (i, (group_key, subdir, clip_id, text)) in
       st' = count_skipped st
       /\ requests (world st') = requests (world st)
       /\ skipped st' = skipped st + 1)
  /\ (forall (args : TypecastBatchTts.Args) cli out st item f,
       TypecastBatchTts.overwrite args = false ->
       TypecastBatchTts.filename item = Py.VStr f ->
       Fs.exists_ (files (TypecastBatchTts.bworld st))
                  (dirs (TypecastBatchTts.bworld st)) (Fs.joinpath out f)
       = true ->
       let st' := TypecastBatchTts.body args cli out st item in
       TypecastBatchTts.bworld st' = TypecastBatchTts.bworld st
       /\ TypecastBatchTts.bskipped st' = TypecastBatchTts.bskipped st + 1
       /\ TypecastBatchTts.bgenerated st' = TypecastBatchTts.bgenerated st
       /\ TypecastBatchTts.braised st' = None).
Proof.
  split; [|split].
  - intros dry sleep d cli out total st i subdir clip_id text Hex.
    simpl. unfold sampled_body. rewrite Hex. simpl. done.
  - intros args d cli total st i group_key subdir clip_id text Hf Hex.
    simpl. unfold GenerateVoiceAssets.body. rewrite Hex, Hf. simpl. done.
  - intros args cli out st item f Ho Hf Hex.
    simpl. unfold TypecastBatchTts.body, TypecastBatchTts.dest_of.
    rewrite Hf. simpl. rewrite Hex, Ho. simpl. done.
Qed.

End Skipping.

Lemma existing_destination_is_skipped_witness :
  let E := Demo.ext Demo.batch_doc Demo.svc_ok in
  let out := Demo.at_cwd "out" in
  let long := Path.div out "long" in
  let out_audio := Demo.at_cwd "out_audio" in
  let st :=
    start (Demo.world_with {[ ["w"; "out"; "long"; "red_long.mp3"] := [1; 2] ]}) in
  let args :=
    {| GenerateVoiceAssets.yaml_path := "content_sets.yaml";
       GenerateVoiceAssets.out_dir := "out";
       GenerateVoiceAssets.force := false;
       GenerateVoiceAssets.sleep := Finite 0;
       GenerateVoiceAssets.dry_run := false;
       GenerateVoiceAssets.only := None |} in
  let bst :=
    TypecastBatchTts.bstart
      (Demo.world_with
         {[ ["w"; "out_audio"; "greet-hello-726c7655.mp3"] := [1; 2] ]}) in
  let item :=
    {| TypecastBatchTts.set := Py.VStr "greet";
       TypecastBatchTts.key := Py.VStr "hello";
       TypecastBatchTts.text := Py.VStr "Hello there";
       TypecastBatchTts.filename := Py.VStr "greet-hello-726c7655.mp3";
       TypecastBatchTts.model := Py.VStr "ssfm-v21";
       TypecastBatchTts.voice_id := Py.VStr "tc_1";
       TypecastBatchTts.language := Py.VStr "en";
       TypecastBatchTts.output_format := Py.VStr "mp3";
       TypecastBatchTts.prompt := [];
       TypecastBatchTts.output := [] |} in
  (Fs.exists_ (files (world st)) (dirs (world st))
     (Fs.joinpath long ("red_long" +:+ extension Config.DEFAULTS))
   = true
   /\ skipped (@sampled_body E false false (Finite 0) Config.DEFAULTS (Some "k")
                 out 1%nat st (1%nat, (long, "red_long", "Red is bold.")))
      = skipped st + 1
   /\ requests (world (@sampled_body E false false (Finite 0) Config.DEFAULTS
                          (Some "k") out 1%nat st
                          (1%nat, (long, "red_long", "Red is bold."))))
      = requests (world st))
  /\ (GenerateVoiceAssets.force args = false
      /\ skipped (@GenerateVoiceAssets.body E args Config.DEFAULTS (Some "k")
                    1%nat st
                    (1%nat, ("colors", long, "red_long", "Red is bold.")))
         = skipped st + 1)
  /\ (TypecastBatchTts.overwrite (Demo.batch_args false) = false
      /\ TypecastBatchTts.filename item = Py.VStr "greet-hello-726c7655.mp3"
      /\ Fs.exists_ (files (TypecastBatchTts.bworld bst))
           (dirs (TypecastBatchTts.bworld bst))
           (Fs.joinpath out_audio "greet-hello-726c7655.mp3") = true
      /\ TypecastBatchTts.bskipped
           (@TypecastBatchTts.body E (Demo.batch_args false) "k" out_audio
              bst item)
         = TypecastBatchTts.bskipped bst + 1
      /\ TypecastBatchTts.bworld
           (@TypecastBatchTts.body E (Demo.batch_args false) "k" out_audio
              bst item)
         = TypecastBatchTts.bworld bst).
Proof.
  intros E out long out_audio st args bst item.
  destruct (@existing_destination_is_skipped E) as (Hs & Hv & Hb).
  assert (Hex : Fs.exists_ (files (world st)) (dirs (world st))
                  (Fs.joinpath long
                     ("red_long" +:+ extension Config.DEFAULTS)) = true)
    by (vm_compute; reflexivity).
  assert (Hbx : Fs.exists_ (files (TypecastBatchTts.bworld bst))
                  (dirs (TypecastBatchTts.bworld bst))
                  (Fs.joinpath out_audio "greet-hello-726c7655.mp3") = true)
    by (vm_compute; reflexivity).
  split; [|split].
  - split; [exact Hex|].
    destruct (Hs false (Finite 0) Config.DEFAULTS (Some "k") out 1%nat st 1%nat
                 long "red_long" "Red is bold." Hex) as (_ & Hreq & Hsk).
    split; [exact Hsk | exact Hreq].
  - split; [reflexivity|].
    destruct (Hv args Config.DEFAULTS (Some "k") 1%nat st 1%nat "colors"
                 long "red_long" "Red is bold." eq_refl Hex)
      as (_ & _ & Hsk).
    exact Hsk.
  - split; [reflexivity|]. split; [reflexivity|]. split; [exact Hbx|].
    destruct (Hb (Demo.batch_args false) "k" out_audio bst item
                 "greet-hello-726c7655.mp3" eq_refl eq_refl Hbx)
      as (Hw & Hsk & _).
    split; [exact Hsk | exact Hw].
Defined.

(** ** One attempt *)

Section Attempt.
Context `{Externals}.

(** What [write_bytes_atomic] leaves alone. *)
Lemma write_bytes_atomic_frame path data w :
  let w' := snd (write_bytes_atomic path data w) in
  dirs w' = dirs w /\ requests w' = requests w /\ stdout w' = stdout w
  /\ stderr w' = stderr w.
Proof. unfold write_bytes_atomic. repeat case_match; simpl; done. Qed.

Lemma tts_one_frame cli text d w :
  let w' := snd (tts_one cli text d w) in
  files w' = files w /\ dirs w' = dirs w /\ observed w' = observed w
  /\ stdout w' = stdout w /\ stderr w' = stderr w
  /\ requests w'
     = requests w ++ match cli with
                     | Some _ => [TTSRequest text d]
                     | None => []
                     end.
Proof.
  unfold tts_one. destruct cli as [c|]; simpl.
  - by destruct (text_to_speech c _ _).
  - by rewrite app_nil_r.
Qed.

Lemma synth_and_store_requests cli sleep d label out_path text st :
  requests (world (synth_and_store cli sleep d label out_path text st))
  = requests (world st) ++ match cli with
                           | Some _ => [TTSRequest text d]
                           | None => []
                           end.
Proof.
  unfold synth_and_store.
  match goal with |- context [pause sleep ?x] =>
    destruct (pause_world sleep x) as (_ & _ & _ & -> & _) end.
  destruct (tts_one_frame cli text d (world st)) as (_ & _ & _ & _ & _ & Hreq).
  destruct (tts_one cli text d (world st)) as [[e|audio] w1]; simpl in *;
    [done|].
  destruct (write_bytes_atomic_frame out_path audio w1) as (_ & Hr & _).
  destruct (write_bytes_atomic out_path audio w1) as [[e|[]] w2]; simpl in *;
    congruence.
Qed.

Lemma synth_and_store_frame cli sleep d label out_path text st :
  let st' := synth_and_store cli sleep d label out_path text st in
  dirs (world st') = dirs (world st)
  /\ stdout (world st') = stdout (world st)
  /\ skipped st' = skipped st.
Proof.
  simpl. unfold synth_and_store.
  match goal with |- context [pause sleep ?x] =>
    destruct (pause_world sleep x) as (_ & -> & _);
    destruct (pause_counts sleep x) as (_ & -> & _);
    assert (Hout : stdout (world (pause sleep x)) = stdout (world x))
      by (unfold pause; repeat case_match; done);
    rewrite Hout; clear Hout
  end.
  destruct (tts_one_frame cli text d (world st)) as (_ & Hd & _ & Ho & _).
  destruct (tts_one cli text d (world st)) as [[e|audio] w1]; simpl in *;
    [done|].
  destruct (write_bytes_atomic_frame out_path audio w1) as (Hd' & _ & Ho' & _).
  destruct (write_bytes_atomic out_path audio w1) as [[e|[]] w2]; simpl in *;
    repeat split; congruence.
Qed.

(** [write_bytes_atomic] on the destination of an entry: what it does is
    decided by where the destination lies and by what is there. *)
Lemma write_bytes_atomic_cases subdir id data w :
  let p := Fs.joinpath subdir (id +:+ extension Config.DEFAULTS) in
  match file_of w p with
  | None => exists e, write_bytes_atomic p data w = (inl e, w)
  | Some k =>
      let w1 := set_files w (<[tmp_key k := data]> (files w))
                          (Fs.write_bytes_states (tmp_key k) data (files w)) in
      if Fs.is_dir (dirs w) (tmp_key k)
      then exists e, write_bytes_atomic p data w = (inl e, w)
      else if Fs.is_dir (dirs w) k
      then exists e, write_bytes_atomic p data w = (inl e, w1)
      else write_bytes_atomic p data w
           = (inr tt, set_files w1 (atomic_final k data (files w))
                                [atomic_final k data (files w)])
  end.
Proof.
  simpl. destruct (destination_tmp (dirs w) subdir id) as (tmp & Htmp & Hloc).
  unfold write_bytes_atomic, file_of. rewrite Htmp.
  unfold Fs.open_w, Fs.replace. simpl. rewrite Hloc.
  destruct (Fs.locate (dirs w)
              (Fs.joinpath subdir (id +:+ extension Config.DEFAULTS)))
    as [k|] eqn:Hk; simpl; [|eauto].
  destruct (Fs.is_dir (dirs w) (tmp_key k)) eqn:Ht; simpl; [eauto|].
  unfold Fs.write_bytes. rewrite lookup_insert_eq.
  destruct (Fs.is_dir (dirs w) k); simpl; [eauto|done].
Qed.

(** What one attempt comes to, for the destination of an entry: the
    audio is stored and the entry counted as generated, or the entry is
    counted as failed with a line on the error stream, and then either no
    file changed or the audio is left in the temporary sibling. *)
Local Ltac attempt_failed e :=
  right; simpl; split; [done|]; exists e; split; [done|];
  split; [reflexivity|]; left; done.

Lemma synth_and_store_outcome cli sleep label subdir id text st :
  let out_path := Fs.joinpath subdir (id +:+ extension Config.DEFAULTS) in
  let st' := synth_and_store cli sleep Config.DEFAULTS label out_path text st in
  (generated st' = generated st + 1 /\ failed st' = failed st
   /\ stderr (world st') = stderr (world st)
   /\ stored out_path (world st) (world st'))
  \/ (generated st' = generated st
      /\ exists e,
           failed st' = failed st + 1
           /\ stderr (world st')
              = stderr (world st)
                ++ ["[ERR] Failed " +:+ label +:+ ": " +:+ Py.exn_msg e]
           /\ ((files (world st') = files (world st)
                /\ observed (world st') = observed (world st))
               \/ stranded out_path (world st) (world st'))).
Proof.
  simpl. unfold synth_and_store.
  match goal with |- context [pause sleep ?x] => set (st1 := x) end.
  destruct (pause_world sleep st1) as (Hf & Hd & Ho & _ & He).
  destruct (pause_counts sleep st1) as (Hg & _ & Hfa).
  unfold stored, stranded. rewrite Hf, Ho, He, Hg, Hfa. subst st1.
  clear Hf Hd Ho He Hg Hfa.
  unfold tts_one. destruct cli as [c|];
    [|attempt_failed
        (Py.Exn "AttributeError"
           "'NoneType' object has no attribute 'text_to_speech'")].
  destruct (text_to_speech c (length (requests (world st)))
              (TTSRequest text Config.DEFAULTS)) as [e|resp] eqn:Hcall;
    [attempt_failed e|].
  pose proof (write_bytes_atomic_cases subdir id (audio_data resp)
                (add_request (world st) (TTSRequest text Config.DEFAULTS)))
    as Hw. simpl in Hw. unfold file_of in *. simpl in Hw.
  destruct (Fs.locate (dirs (world st)) _) as [k|] eqn:Hk.
  - destruct (Fs.is_dir (dirs (world st)) (tmp_key k)) eqn:Ht.
    { destruct Hw as [e ->]. attempt_failed e. }
    destruct (Fs.is_dir (dirs (world st)) k) eqn:Hdk.
    + destruct Hw as [e ->]. right. simpl. split; [done|]. exists e.
      split; [done|]. split; [done|]. right.
      exists k, c, (length (requests (world st))),
        (TTSRequest text Config.DEFAULTS), resp. done.
    + rewrite Hw. left. simpl. split; [done|]. split; [done|].
      split; [done|].
      exists k, c, (length (requests (world st))),
        (TTSRequest text Config.DEFAULTS), resp.
      split; [done|]. split; [done|]. split; [done|].
      unfold atomic_states. by rewrite <- app_assoc.
  - destruct Hw as [e ->]. attempt_failed e.
Qed.

End Attempt.

(** ** Empty texts *)

Section EmptyText.
Context `{Externals}.

Lemma voice_body_requests args cli total st ix before :
  Forall (request_for_text before) (requests (world st)) ->
  Forall (request_for_text before)
         (requests (world (GenerateVoiceAssets.body args Config.DEFAULTS cli
                             total st ix))).
Proof.
  intros Hall. destruct ix as [i [[[group_key subdir] clip_id] text]].
  unfold GenerateVoiceAssets.body.
  destruct (GenerateVoiceAssets.is_blank text) eqn:Hb.
  - repeat case_match; simpl; done.
  - repeat case_match; simpl; try done.
    rewrite synth_and_store_requests. simpl.
    apply Forall_app. split; [done|].
    destruct cli; [|done]. apply Forall_singleton. right. eauto.
Qed.

Lemma blank_line_rejected set_name set_defaults ln k v :
  Py.get ln "key" = inr k -> Py.get ln "text" = inr v ->
  Py.truthy v = false ->
  TypecastBatchTts.load_line set_name set_defaults ln
  = inl (Py.Exn "ValueError"
           ("Line in set '" +:+ TypecastBatchTts.fmt set_name
            +:+ "' must include key and text.")).
Proof.
  intros Hk Hv Ht. unfold TypecastBatchTts.load_line, Py.bind.
  rewrite Hk, Hv, Ht. by rewrite orb_true_r.
Qed.

(** C3 (amended).  In generate_voice_assets.py an entry whose text is
    empty or only white space is counted as skipped and nothing else is
    counted; its iteration changes neither the files nor the requests; and
    every request a run makes is for a text that is not blank.  In
    typecast_batch_tts.py a line whose text is empty makes the manifest loader
    raise [ValueError]. *)
Theorem blank_text_is_skipped (args : GenerateVoiceAssets.Args)
    (cli : option client) :
  (forall total st i group_key subdir clip_id text,
     GenerateVoiceAssets.is_blank text = true ->
     let st' := GenerateVoiceAssets.body args Config.DEFAULTS cli total st
                  (i, (group_key, subdir, clip_id, text)) in
     skipped st' = skipped st + 1
     /\ failed st' = failed st
     /\ generated st' = generated st
     /\ requests (world st') = requests (world st)
     /\ files (world st') = files (world st))
  /\ (forall plan w,
       Forall (request_for_text (requests w))
              (requests (world (GenerateVoiceAssets.generate args cli plan w))))
  /\ (forall set_name set_defaults ln k v,
       Py.get ln "key" = inr k -> Py.get ln "text" = inr v ->
       Py.truthy v = false ->
       exists msg,
         TypecastBatchTts.load_line set_name set_defaults ln
         = inl (Py.Exn "ValueError" msg)).
Proof.
  split; [|split].
  - intros total st i group_key subdir clip_id text Hb. simpl.
    unfold GenerateVoiceAssets.body. rewrite Hb.
    case_match; simpl; done.
  - intros plan w. unfold GenerateVoiceAssets.generate, for_each.
    apply (iterate_body_inv _
             (fun st => Forall (request_for_text (requests w))
                               (requests (world st)))
             (fun _ => True)).
    + intros st ix Hst _ _. by apply voice_body_requests.
    + by apply Forall_true.
    + simpl. apply Forall_forall. intros req Hreq. by left.
  - intros set_name set_defaults ln k v Hk Hv Ht.
    eexists. by apply (blank_line_rejected _ _ _ k v).
Qed.

End EmptyText.

Lemma blank_text_is_skipped_witness :
  let E := Demo.ext Demo.colors_doc Demo.svc_ok in
  let args :=
    {| GenerateVoiceAssets.yaml_path := "content_sets.yaml";
       GenerateVoiceAssets.out_dir := "voice_assets";
       GenerateVoiceAssets.force := false;
       GenerateVoiceAssets.sleep := Finite 0;
       GenerateVoiceAssets.dry_run := false;
       GenerateVoiceAssets.only := None |} in
  let micro := Path.div (Demo.at_cwd "voice_assets") "micro" in
  let st := start (Demo.world_with ∅) in
  let st' := @GenerateVoiceAssets.body E args Config.DEFAULTS (Some "k") 1%nat st
               (1%nat, ("micro", micro, "m1", "   ")) in
  GenerateVoiceAssets.is_blank "   " = true
  /\ skipped st' = skipped st + 1
  /\ failed st' = failed st
  /\ requests (world st') = requests (world st).
Proof.
  intros E args micro st st'.
  assert (Hb : GenerateVoiceAssets.is_blank "   " = true) by reflexivity.
  split; [exact Hb|].
  destruct (@blank_text_is_skipped E args (Some "k")) as (Hs & _ & _).
  destruct (Hs 1%nat st 1%nat "micro" micro "m1" "   " Hb)
    as (Hsk & Hfa & _ & Hreq & _).
  split; [exact Hsk|]. split; [exact Hfa | exact Hreq].
Defined.

(** C3, as stated, fails.  generate_colors.py hands an empty text to the
    service and counts the entry as generated; typecast_batch_tts.py stops
    with [ValueError] on a line whose text is empty, and hands a text of
    white space to the service. *)
Lemma empty_text_reaches_the_service :
  let E := Demo.ext Demo.colors_doc Demo.svc_ok in
  let out := Demo.at_cwd "out" in
  let r := @GenerateColors.generate E (Demo.colors_args false) (Some "k") out
             (GenerateColors.build_plan out [("red_long", "")] [])
             (Demo.world_with ∅) in
  requests (world r) = [TTSRequest "" Config.DEFAULTS]
  /\ skipped r = 0 /\ generated r = 1
  /\ (let doc text :=
        Py.VDict [("defaults", Py.VDict [("model", Py.VStr "ssfm-v21");
                                         ("voice_id", Py.VStr "tc_1")]);
                  ("sets", Py.VList [Py.VDict
                     [("name", Py.VStr "greet");
                      ("lines", Py.VList
                         [Py.VDict [("key", Py.VStr "hello");
                                    ("text", Py.VStr text)]])]])] in
      let run text :=
        @TypecastBatchTts.main (Demo.ext (doc text) Demo.svc_ok)
          (Demo.batch_args false)
          (Demo.world_with {[ ["w"; "voice_sets.yaml"] := [] ]}) in
      fst (run "")
      = Uncaught (Py.Exn "ValueError"
                         "Line in set 'greet' must include key and text.")
      /\ fst (run "   ") = Exit 0
      /\ length (requests (snd (run "   "))) = 1%nat).
Proof. intros E out r. vm_compute. repeat split; reflexivity. Qed.

(** ** Failures of the service *)

Section Failures.
Context `{Externals}.














End Failures.



(** ** What [main] has when it reaches the loop *)

Section Reaching.
Context `{Externals}.

Lemma reached_go {entry} (p : Prepared entry) out cli plan :
  reached p = Some (out, cli, plan) -> p = Go out cli plan (world_of p).
Proof. destruct p; simpl; [discriminate|]. by intros [= -> -> ->]. Qed.

Lemma colors_prepare_go args w out cli plan w' :
  GenerateColors.prepare args w = Go out cli plan w' ->
  exists content long_utterances short_utterances,
    read_file (resolve (GenerateColors.yaml_path args)) w = inr content
    /\ GenerateColors.load content = inr (long_utterances, short_utterances)
    /\ out = resolve (GenerateColors.out_dir args)
    /\ plan
       = GenerateColors.build_plan out
           (GenerateColors.select args (entropy w) long_utterances
                                  short_utterances).1
           (GenerateColors.select args (entropy w) long_utterances
                                  short_utterances).2.
Proof.
  unfold GenerateColors.prepare. intros Hp.
  destruct (negb _); [discriminate|].
  destruct (read_file _ w) as [e|content]; [discriminate|].
  destruct (GenerateColors.load content) as [e|[long short]] eqn:Hload;
    [discriminate|].
  exists content, long, short.
  destruct (GenerateColors.select args (entropy w) long short) as [sl ss].
  simpl. destruct (GenerateColors.build_plan _ sl ss) eqn:Hplan;
    [discriminate|].
  destruct (ensure_dirs _ _) as [[e|u] w2]; cbv beta iota in Hp;
    [discriminate|].
  destruct (init_client _ w2); cbv beta iota in Hp; [discriminate|].
  injection Hp as <- <- <- <-. by rewrite Hplan.
Qed.

Lemma sample_prepare_go args w out cli plan w' :
  GenerateVoiceAssetsSample.prepare args w = Go out cli plan w' ->
  exists content s,
    read_file (resolve (GenerateVoiceAssetsSample.yaml_path args)) w
    = inr content
    /\ GenerateVoiceAssetsSample.select args (entropy w) content = inr s
    /\ out = resolve (GenerateVoiceAssetsSample.out_dir args)
    /\ plan = GenerateVoiceAssetsSample.build_plan out s.
Proof.
  unfold GenerateVoiceAssetsSample.prepare. intros Hp.
  destruct (negb _); [discriminate|].
  destruct (read_file _ w) as [e|content]; [discriminate|].
  destruct (GenerateVoiceAssetsSample.select args (entropy w) content)
    as [e|s] eqn:Hsel; [discriminate|].
  exists content, s.
  destruct (GenerateVoiceAssetsSample.build_plan _ s) eqn:Hplan;
    [discriminate|].
  destruct (ensure_dirs _ _) as [[e|u] w2]; cbv beta iota in Hp;
    [discriminate|].
  destruct (init_client _ w2); cbv beta iota in Hp; [discriminate|].
  injection Hp as <- <- <- <-. by rewrite Hplan.
Qed.

Lemma plan_group_utterances out sub items :
  map utterance_of (plan_group out sub items) = items.
Proof.
  unfold plan_group. induction items as [|[id text] items IH]; [done|].
  simpl. by rewrite IH.
Qed.

Lemma colors_plan_utterances out sl ss :
  map utterance_of (GenerateColors.build_plan out sl ss) = sl ++ ss.
Proof.
  unfold GenerateColors.build_plan.
  by rewrite map_app, !plan_group_utterances.
Qed.

Lemma sample_plan_utterances out s :
  map utterance_of (GenerateVoiceAssetsSample.build_plan out s)
  = GenerateVoiceAssetsSample.prefixes s
    ++ GenerateVoiceAssetsSample.suffixes s
    ++ GenerateVoiceAssetsSample.colors s
    ++ GenerateVoiceAssetsSample.tools s
    ++ GenerateVoiceAssetsSample.micros s
    ++ GenerateVoiceAssetsSample.comp_ne s
    ++ GenerateVoiceAssetsSample.comp_ok s.
Proof.
  unfold GenerateVoiceAssetsSample.build_plan.
  by rewrite !map_app, !plan_group_utterances.
Qed.

End Reaching.

(** ** Determinism of the sampling stage *)

Section Determinism.
Context `{Externals}.
Hypothesis seeded : seeded_generator_contract.

Lemma colors_select_seeded (a1 a2 : GenerateColors.Args) e1 e2 long short :
  GenerateColors.seed a1 = GenerateColors.seed a2 ->
  GenerateColors.n_long a1 = GenerateColors.n_long a2 ->
  GenerateColors.n_short a1 = GenerateColors.n_short a2 ->
  GenerateColors.all a1 = GenerateColors.all a2 ->
  GenerateColors.select a1 e1 long short
  = GenerateColors.select a2 e2 long short.
Proof.
  intros Hs Hl Hn Ha. unfold GenerateColors.select.
  by rewrite Hs, Hl, Hn, Ha, (seeded _ e1 e2).
Qed.

Lemma sample_select_seeded (a1 a2 : GenerateVoiceAssetsSample.Args) e1 e2
    content :
  GenerateVoiceAssetsSample.seed a1 = GenerateVoiceAssetsSample.seed a2 ->
  GenerateVoiceAssetsSample.n_prefix a1
  = GenerateVoiceAssetsSample.n_prefix a2 ->
  GenerateVoiceAssetsSample.n_suffix a1
  = GenerateVoiceAssetsSample.n_suffix a2 ->
  GenerateVoiceAssetsSample.n_color a1
  = GenerateVoiceAssetsSample.n_color a2 ->
  GenerateVoiceAssetsSample.n_tool a1
  = GenerateVoiceAssetsSample.n_tool a2 ->
  GenerateVoiceAssetsSample.n_micro a1
  = GenerateVoiceAssetsSample.n_micro a2 ->
  GenerateVoiceAssetsSample.n_completion_not_enough a1
  = GenerateVoiceAssetsSample.n_completion_not_enough a2 ->
  GenerateVoiceAssetsSample.n_completion_enough a1
  = GenerateVoiceAssetsSample.n_completion_enough a2 ->
  GenerateVoiceAssetsSample.select a1 e1 content
  = GenerateVoiceAssetsSample.select a2 e2 content.
Proof.
  intros Hs H1 H2 H3 H4 H5 H6 H7. unfold GenerateVoiceAssetsSample.select.
  by rewrite Hs, H1, H2, H3, H4, H5, H6, H7, (seeded _ e1 e2).
Qed.

(** C6.  A generator made with a seed does not look at what the operating
    system offers (the contract of [random.Random] with a seed); given
    that, the selection of the sampling stage is determined by the seed,
    the utterances and the requested counts.  Two runs that agree on them
    select the same utterances in the same order, whatever their other
    options, their files and the entropy of their systems are: the two
    selections are equal, and two runs of [main] that read the same
    manifest content reach the loop with plans of the same utterances in
    the same order, the same plans when their output directories are the
    same. *)
Theorem sampling_is_deterministic :
  (forall (a1 a2 : GenerateColors.Args) e1 e2 long_utterances short_utterances,
     GenerateColors.seed a1 = GenerateColors.seed a2 ->
     GenerateColors.n_long a1 = GenerateColors.n_long a2 ->
     GenerateColors.n_short a1 = GenerateColors.n_short a2 ->
     GenerateColors.all a1 = GenerateColors.all a2 ->
     GenerateColors.select a1 e1 long_utterances short_utterances
     = GenerateColors.select a2 e2 long_utterances short_utterances)
  /\ (forall (a1 a2 : GenerateVoiceAssetsSample.Args) e1 e2 content,
       GenerateVoiceAssetsSample.seed a1 = GenerateVoiceAssetsSample.seed a2 ->
       GenerateVoiceAssetsSample.n_prefix a1
       = GenerateVoiceAssetsSample.n_prefix a2 ->
       GenerateVoiceAssetsSample.n_suffix a1
       = GenerateVoiceAssetsSample.n_suffix a2 ->
       GenerateVoiceAssetsSample.n_color a1
       = GenerateVoiceAssetsSample.n_color a2 ->
       GenerateVoiceAssetsSample.n_tool a1
       = GenerateVoiceAssetsSample.n_tool a2 ->
       GenerateVoiceAssetsSample.n_micro a1
       = GenerateVoiceAssetsSample.n_micro a2 ->
       GenerateVoiceAssetsSample.n_completion_not_enough a1
       = GenerateVoiceAssetsSample.n_completion_not_enough a2 ->
       GenerateVoiceAssetsSample.n_completion_enough a1
       = GenerateVoiceAssetsSample.n_completion_enough a2 ->
       GenerateVoiceAssetsSample.select a1 e1 content
       = GenerateVoiceAssetsSample.select a2 e2 content)
  /\ (forall (a1 a2 : GenerateColors.Args) w1 w2
             out1 cli1 plan1 w1' out2 cli2 plan2 w2',
       GenerateColors.seed a1 = GenerateColors.seed a2 ->
       GenerateColors.n_long a1 = GenerateColors.n_long a2 ->
       GenerateColors.n_short a1 = GenerateColors.n_short a2 ->
       GenerateColors.all a1 = GenerateColors.all a2 ->
       read_file (resolve (GenerateColors.yaml_path a1)) w1
       = read_file (resolve (GenerateColors.yaml_path a2)) w2 ->
       GenerateColors.prepare a1 w1 = Go out1 cli1 plan1 w1' ->
       GenerateColors.prepare a2 w2 = Go out2 cli2 plan2 w2' ->
       map utterance_of plan1 = map utterance_of plan2
       /\ (out1 = out2 -> plan1 = plan2))
  /\ (forall (a1 a2 : GenerateVoiceAssetsSample.Args) w1 w2
             out1 cli1 plan1 w1' out2 cli2 plan2 w2',
       GenerateVoiceAssetsSample.seed a1 = GenerateVoiceAssetsSample.seed a2 ->
       GenerateVoiceAssetsSample.n_prefix a1
       = GenerateVoiceAssetsSample.n_prefix a2 ->
       GenerateVoiceAssetsSample.n_suffix a1
       = GenerateVoiceAssetsSample.n_suffix a2 ->
       GenerateVoiceAssetsSample.n_color a1
       = GenerateVoiceAssetsSample.n_color a2 ->
       GenerateVoiceAssetsSample.n_tool a1
       = GenerateVoiceAssetsSample.n_tool a2 ->
       GenerateVoiceAssetsSample.n_micro a1
       = GenerateVoiceAssetsSample.n_micro a2 ->
       GenerateVoiceAssetsSample.n_completion_not_enough a1
       = GenerateVoiceAssetsSample.n_completion_not_enough a2 ->
       GenerateVoiceAssetsSample.n_completion_enough a1
       = GenerateVoiceAssetsSample.n_completion_enough a2 ->
       read_file (resolve (GenerateVoiceAssetsSample.yaml_path a1)) w1
       = read_file (resolve (GenerateVoiceAssetsSample.yaml_path a2)) w2 ->
       GenerateVoiceAssetsSample.prepare a1 w1 = Go out1 cli1 plan1 w1' ->
       GenerateVoiceAssetsSample.prepare a2 w2 = Go out2 cli2 plan2 w2' ->
       map utterance_of plan1 = map utterance_of plan2
       /\ (out1 = out2 -> plan1 = plan2)).
Proof.
  split; [intros; by apply colors_select_seeded|].
  split; [intros; by apply sample_select_seeded|].
  split.
  - intros a1 a2 w1 w2 out1 cli1 plan1 w1' out2 cli2 plan2 w2'
      Hs Hl Hn Ha Hread Hp1 Hp2.
    apply colors_prepare_go in Hp1
      as (c1 & l1 & s1 & Hr1 & Hl1 & -> & ->).
    apply colors_prepare_go in Hp2
      as (c2 & l2 & s2 & Hr2 & Hl2 & -> & ->).
    assert (c1 = c2) as -> by congruence.
    assert (l1 = l2 /\ s1 = s2) as [-> ->]
      by (split; congruence).
    rewrite (colors_select_seeded a1 a2 (entropy w1) (entropy w2) l2 s2
               Hs Hl Hn Ha).
    split; [by rewrite !colors_plan_utterances|]. by intros ->.
  - intros a1 a2 w1 w2 out1 cli1 plan1 w1' out2 cli2 plan2 w2'
      Hs H1 H2 H3 H4 H5 H6 H7 Hread Hp1 Hp2.
    apply sample_prepare_go in Hp1 as (c1 & s1 & Hr1 & Hs1 & -> & ->).
    apply sample_prepare_go in Hp2 as (c2 & s2 & Hr2 & Hs2 & -> & ->).
    assert (c1 = c2) as -> by congruence.
    rewrite (sample_select_seeded a1 a2 (entropy w1) (entropy w2) c2
               Hs H1 H2 H3 H4 H5 H6 H7) in Hs1.
    assert (s1 = s2) as -> by congruence.
    split; [by rewrite !sample_plan_utterances|]. by intros ->.
Qed.

End Determinism.

Lemma sampling_is_deterministic_witness :
  let doc :=
    Py.VDict [("lulu_reaction_voice", Py.VDict [("utterances", Py.VDict
      [("long_by_color",
        Py.VList [Demo.utt "a" "one"; Demo.utt "b" "two";
                  Demo.utt "c" "three"; Demo.utt "d" "four"]);
       ("short_by_color",
        Py.VList [Demo.utt "s" "five"; Demo.utt "t" "six"])])])] in
  let E := Demo.ext doc Demo.svc_ok in
  let a1 :=
    {| GenerateColors.yaml_path := "colors.yaml";
       GenerateColors.out_dir := "out";
       GenerateColors.seed := 7;
       GenerateColors.n_long := 2;
       GenerateColors.n_short := 1;
       GenerateColors.all := false;
       GenerateColors.sleep := Finite 0;
       GenerateColors.force := false;
       GenerateColors.dry_run := true |} in
  let a2 :=
    {| GenerateColors.yaml_path := "colors.yaml";
       GenerateColors.out_dir := "out_audio";
       GenerateColors.seed := 7;
       GenerateColors.n_long := 2;
       GenerateColors.n_short := 1;
       GenerateColors.all := false;
       GenerateColors.sleep := Finite (1 # 4);
       GenerateColors.force := true;
       GenerateColors.dry_run := false |} in
  let w1 := Demo.world_with {[ ["w"; "colors.yaml"] := [] ]} in
  let w2 :=
    {| files := {[ ["w"; "colors.yaml"] := [];
                   ["w"; "out_audio"; "long"; "a.mp3"] := [1; 2] ]};
       dirs := Demo.tree; observed := []; requests := [];
       stdout := ["earlier"]; stderr := []; sleeps := [];
       environ := {[ Config.ENV_API_KEY := "k" ]}; entropy := 99 |} in
  let long := [("a", "one"); ("b", "two"); ("c", "three"); ("d", "four")] in
  let short := [("s", "five"); ("t", "six")] in
  let out1 := Demo.at_cwd "out" in
  let out2 := Demo.at_cwd "out_audio" in
  let selected_long := [("d", "four"); ("a", "one")] in
  let selected_short := [("t", "six")] in
  @seeded_generator_contract E
  /\ @GenerateColors.select E a1 0 long short = (selected_long, selected_short)
  /\ @GenerateColors.select E a1 0 long short
     = @GenerateColors.select E a2 99 long short
  /\ reached (@GenerateColors.prepare E a1 w1)
     = Some (out1, None,
             GenerateColors.build_plan out1 selected_long selected_short)
  /\ reached (@GenerateColors.prepare E a2 w2)
     = Some (out2, Some "k",
             GenerateColors.build_plan out2 selected_long selected_short)
  /\ map utterance_of
         (GenerateColors.build_plan out1 selected_long selected_short)
     = map utterance_of
         (GenerateColors.build_plan out2 selected_long selected_short).
Proof.
  intros doc E a1 a2 w1 w2 long short out1 out2 selected_long selected_short.
  assert (Hc : @seeded_generator_contract E) by (intros s e1 e2; reflexivity).
  destruct (@sampling_is_deterministic E Hc) as (Hsel & _ & Hprep & _).
  assert (Hr : read_file (@resolve E (GenerateColors.yaml_path a1)) w1
               = read_file (@resolve E (GenerateColors.yaml_path a2)) w2)
    by (vm_compute; reflexivity).
  assert (Hp1 : reached (@GenerateColors.prepare E a1 w1)
                = Some (out1, None,
                        GenerateColors.build_plan out1 selected_long
                          selected_short))
    by (vm_compute; reflexivity).
  assert (Hp2 : reached (@GenerateColors.prepare E a2 w2)
                = Some (out2, Some "k",
                        GenerateColors.build_plan out2 selected_long
                          selected_short))
    by (vm_compute; reflexivity).
  split; [exact Hc|]. split; [vm_compute; reflexivity|].
  split; [exact (Hsel a1 a2 0 99 long short eq_refl eq_refl eq_refl eq_refl)|].
  split; [exact Hp1|]. split; [exact Hp2|].
  exact (proj1 (Hprep a1 a2 w1 w2 _ _ _ _ _ _ _ _
                  eq_refl eq_refl eq_refl eq_refl Hr
                  (reached_go _ _ _ _ Hp1) (reached_go _ _ _ _ Hp2))).
Defined.



(** ** Writing through a temporary sibling *)

Section Atomic.
Context `{Externals}.

Lemma tmp_writes_whole fs0 fs k data :
  destinations_whole fs0 fs ->
  Forall (destinations_whole fs0) (Fs.write_bytes_states (tmp_key k) data fs)
  /\ destinations_whole fs0 (<[tmp_key k := data]> fs).
Proof.
  intros Hfs. split.
  - unfold Fs.write_bytes_states. apply List.Forall_forall. intros s Hs.
    apply in_map_iff in Hs as (j & <- & _). intros q Hq.
    pose proof (tmp_key_not_destination k q Hq) as Ht.
    unfold complete_or_untouched. rewrite lookup_insert_ne by done.
    by apply Hfs.
  - intros q Hq. pose proof (tmp_key_not_destination k q Hq) as Ht.
    unfold complete_or_untouched. rewrite lookup_insert_ne by done.
    by apply Hfs.
Qed.

Lemma atomic_states_whole fs0 fs k c n req resp :
  text_to_speech c n req = inr resp ->
  destinations_whole fs0 fs ->
  Forall (destinations_whole fs0) (atomic_states k (audio_data resp) fs)
  /\ destinations_whole fs0 (atomic_final k (audio_data resp) fs).
Proof.
  intros Hcall Hfs.
  assert (Hfin : destinations_whole fs0 (atomic_final k (audio_data resp) fs)).
  { intros q Hq. unfold atomic_final, complete_or_untouched.
    destruct (decide (k = q)) as [->|Hne].
    - right. exists c, n, req, resp. by rewrite lookup_insert_eq.
    - pose proof (tmp_key_not_destination k q Hq) as Ht.
      rewrite lookup_insert_ne, lookup_delete_ne, lookup_insert_ne by done.
      by apply Hfs. }
  split; [|exact Hfin].
  unfold atomic_states. apply Forall_app. split; [|by apply Forall_singleton].
  by apply tmp_writes_whole.
Qed.

Lemma synth_and_store_files cli sleep label subdir id text st :
  files_step (Fs.joinpath subdir (id +:+ extension Config.DEFAULTS)) (world st)
    (world (synth_and_store cli sleep Config.DEFAULTS label
              (Fs.joinpath subdir (id +:+ extension Config.DEFAULTS)) text st)).
Proof.
  split; [apply synth_and_store_frame|].
  destruct (synth_and_store_outcome cli sleep label subdir id text st)
    as [(_ & _ & _ & Hs)|(_ & e & _ & _ & [Hu|Hs])]; auto.
Qed.

Lemma sampled_body_files force dry sleep cli out total st i subdir id text :
  files_step (Fs.joinpath subdir (id +:+ extension Config.DEFAULTS)) (world st)
    (world (sampled_body force dry sleep Config.DEFAULTS cli out total st
              (i, (subdir, id, text)))).
Proof.
  unfold sampled_body.
  case_match; [split; [done|]; left; simpl; split; reflexivity|].
  case_match; [split; [done|]; left; simpl; split; reflexivity|].
  destruct dry; [split; [done|]; left; simpl; split; reflexivity|].
  match goal with |- context [synth_and_store ?a ?b ?c ?d' ?e' ?f ?g] =>
    pose proof (synth_and_store_files a b d' subdir id f g) as Hs end.
  exact Hs.
Qed.

Lemma voice_body_files args cli total st i group_key subdir id text :
  files_step (Fs.joinpath subdir (id +:+ extension Config.DEFAULTS)) (world st)
    (world (GenerateVoiceAssets.body args Config.DEFAULTS cli total st
              (i, (group_key, subdir, id, text)))).
Proof.
  unfold GenerateVoiceAssets.body.
  case_match; [split; [done|]; left; simpl; split; reflexivity|].
  case_match; [split; [done|]; left; simpl; split; reflexivity|].
  case_match; [split; [done|]; left; simpl; split; reflexivity|].
  match goal with |- context [synth_and_store ?a ?b ?c ?d' ?e' ?f ?g] =>
    pose proof (synth_and_store_files a b d' subdir id f g) as Hs end.
  exact Hs.
Qed.

(** An iteration of a real run that counts its entry as generated has
    stored the audio. *)
Lemma sampled_body_stored force sleep cli out total st i subdir id text :
  let st' := sampled_body force false sleep Config.DEFAULTS cli out total st
               (i, (subdir, id, text)) in
  generated st' = generated st + 1 ->
  stored (Fs.joinpath subdir (id +:+ extension Config.DEFAULTS))
         (world st) (world st').
Proof.
  simpl. unfold sampled_body.
  case_match; [simpl; lia|]. case_match; [simpl; lia|].
  match goal with |- context [synth_and_store ?a ?b ?c ?d' ?e' ?f ?g] =>
    destruct (synth_and_store_outcome a b d' subdir id f g)
      as [(_ & _ & _ & Hs)|(Hg & _)] end.
  - intros _. exact Hs.
  - simpl in Hg. lia.
Qed.

Lemma voice_body_stored (args : GenerateVoiceAssets.Args) cli total st i
    group_key subdir id text :
  GenerateVoiceAssets.dry_run args = false ->
  let st' := GenerateVoiceAssets.body args Config.DEFAULTS cli total st
               (i, (group_key, subdir, id, text)) in
  generated st' = generated st + 1 ->
  stored (Fs.joinpath subdir (id +:+ extension Config.DEFAULTS))
         (world st) (world st').
Proof.
  intros Hdry. simpl. unfold GenerateVoiceAssets.body. rewrite Hdry.
  case_match; [simpl; lia|]. case_match; [simpl; lia|].
  match goal with |- context [synth_and_store ?a ?b ?c ?d' ?e' ?f ?g] =>
    destruct (synth_and_store_outcome a b d' subdir id f g)
      as [(_ & _ & _ & Hs)|(Hg & _)] end.
  - intros _. exact Hs.
  - simpl in Hg. lia.
Qed.

Lemma files_step_whole w st w' out_path :
  whole_so_far w st -> files_step out_path (world st) w' ->
  destinations_whole (files w) (files w')
  /\ exists seen,
       observed w' = observed w ++ seen
       /\ Forall (destinations_whole (files w)) seen.
Proof.
  intros (Hfs & seen & Hobs & Hseen)
    [_ [[Hf Ho]|[(k & c & n & req & resp & _ & _ & _ & Hf & Ho)
                |(k & c & n & req & resp & _ & Hcall & Hf & Ho)]]].
  - rewrite Hf, Ho. split; [done|]. by exists seen.
  - destruct (tmp_writes_whole (files w) (files (world st)) k
                (audio_data resp) Hfs) as [Hst Hfin].
    rewrite Hf, Ho. split; [done|].
    exists (seen ++ Fs.write_bytes_states (tmp_key k) (audio_data resp)
                      (files (world st))).
    split; [by rewrite Hobs, app_assoc|]. by apply Forall_app.
  - destruct (atomic_states_whole (files w) (files (world st)) k
                c n req resp Hcall Hfs) as [Hst Hfin].
    rewrite Hf, Ho. split; [done|].
    exists (seen ++ atomic_states k (audio_data resp) (files (world st))).
    split; [by rewrite Hobs, app_assoc|]. by apply Forall_app.
Qed.

Lemma whole_at_start w : whole_so_far w (start w).
Proof.
  split; [intros k _; by left|].
  exists []. by rewrite app_nil_r.
Qed.

Lemma sampled_loop_whole force dry sleep cli out plan w :
  whole_so_far w (sampled_loop force dry sleep Config.DEFAULTS cli out plan w).
Proof.
  unfold sampled_loop, for_each.
  apply (iterate_body_inv _ (whole_so_far w) (fun _ => True)).
  - intros st [i [[subdir clip_id] text]] Hst _ _.
    eapply files_step_whole; [exact Hst|apply sampled_body_files].
  - by apply Forall_true.
  - apply whole_at_start.
Qed.

Lemma voice_generate_whole args cli plan w :
  whole_so_far w (GenerateVoiceAssets.generate args cli plan w).
Proof.
  unfold GenerateVoiceAssets.generate, for_each.
  apply (iterate_body_inv _ (whole_so_far w) (fun _ => True)).
  - intros st [i [[[group_key subdir] clip_id] text]] Hst _ _.
    eapply files_step_whole; [exact Hst|apply voice_body_files].
  - by apply Forall_true.
  - apply whole_at_start.
Qed.

Lemma write_bytes_atomic_returns subdir id data w :
  let p := Fs.joinpath subdir (id +:+ extension Config.DEFAULTS) in
  let w' := snd (write_bytes_atomic p data w) in
  fst (write_bytes_atomic p data w) = inr tt ->
  exists k,
    file_of w p = Some k
    /\ files w' = atomic_final k data (files w)
    /\ files w' !! k = Some data
    /\ files w' !! tmp_key k = None
    /\ observed w'
       = observed w ++ Fs.write_bytes_states (tmp_key k) data (files w)
         ++ [files w']
    /\ Forall (fun fs => fs !! k = files w !! k)
              (Fs.write_bytes_states (tmp_key k) data (files w)).
Proof.
  simpl. pose proof (write_bytes_atomic_cases subdir id data w) as Hc.
  simpl in Hc.
  destruct (file_of w _) as [k|] eqn:Hk;
    [|destruct Hc as [e ->]; discriminate].
  destruct (Fs.is_dir (dirs w) (tmp_key k));
    [destruct Hc as [e ->]; discriminate|].
  destruct (Fs.is_dir (dirs w) k); [destruct Hc as [e ->]; discriminate|].
  rewrite Hc. simpl. intros _. exists k.
  assert (Hne : tmp_key k <> k)
    by (apply tmp_key_neq; by eapply located_destination).
  split; [done|]. split; [done|]. unfold atomic_final.
  split; [by rewrite lookup_insert_eq|].
  split; [by rewrite lookup_insert_ne, lookup_delete_eq|].
  split; [by rewrite <- app_assoc|].
  unfold Fs.write_bytes_states. apply List.Forall_forall. intros s Hs.
  apply in_map_iff in Hs as (j & <- & _). by rewrite lookup_insert_ne.
Qed.

Lemma write_bytes_atomic_raises subdir id data w e q :
  let p := Fs.joinpath subdir (id +:+ extension Config.DEFAULTS) in
  fst (write_bytes_atomic p data w) = inl e ->
  is_destination q ->
  files (snd (write_bytes_atomic p data w)) !! q = files w !! q.
Proof.
  simpl. pose proof (write_bytes_atomic_cases subdir id data w) as Hc.
  simpl in Hc. intros He Hq.
  destruct (file_of w _) as [k|] eqn:Hk; [|by destruct Hc as [e' ->]].
  destruct (Fs.is_dir (dirs w) (tmp_key k)); [by destruct Hc as [e' ->]|].
  destruct (Fs.is_dir (dirs w) k).
  - destruct Hc as [e' ->]. simpl.
    pose proof (tmp_key_not_destination k q Hq). by rewrite lookup_insert_ne.
  - rewrite Hc in He. discriminate.
Qed.

End Atomic.

(** C4 (amended).  In generate_colors.py, generate_voice_assets_sample.py
    and generate_voice_assets.py the audio is written to the sibling
    [path + ".tmp"] and renamed onto the destination.  When
    [write_bytes_atomic] returns, the bytes went to the sibling while the
    destination kept what it had, and then the destination has them all and
    the sibling is gone; when it raises, no destination has changed.  An
    iteration of a real run that counts its entry as generated has stored
    the audio of an answer of the service in that way.  And in every state
    of the file system that can be observed during a run, each destination
    holds what it held when the run began or all the bytes of an answer of
    the service. *)
Theorem destinations_never_hold_partial_audio `{Externals} :
  (forall subdir id data w,
     let p := Fs.joinpath subdir (id +:+ extension Config.DEFAULTS) in
     let w' := snd (write_bytes_atomic p data w) in
     (fst (write_bytes_atomic p data w) = inr tt ->
      exists k,
        file_of w p = Some k
        /\ files w' = atomic_final k data (files w)
        /\ files w' !! k = Some data
        /\ files w' !! tmp_key k = None
        /\ observed w'
           = observed w ++ Fs.write_bytes_states (tmp_key k) data (files w)
             ++ [files w']
        /\ Forall (fun fs => fs !! k = files w !! k)
                  (Fs.write_bytes_states (tmp_key k) data (files w)))
     /\ (forall e q,
           fst (write_bytes_atomic p data w) = inl e ->
           is_destination q ->
           files w' !! q = files w !! q))
  /\ (forall force sleep cli out total st i subdir id text,
       let st' := sampled_body force false sleep Config.DEFAULTS cli out total
                    st (i, (subdir, id, text)) in
       generated st' = generated st + 1 ->
       stored (Fs.joinpath subdir (id +:+ extension Config.DEFAULTS))
              (world st) (world st'))
  /\ (forall (args : GenerateVoiceAssets.Args) cli total st i
             group_key subdir id text,
       GenerateVoiceAssets.dry_run args = false ->
       let st' := GenerateVoiceAssets.body args Config.DEFAULTS cli total st
                    (i, (group_key, subdir, id, text)) in
       generated st' = generated st + 1 ->
       stored (Fs.joinpath subdir (id +:+ extension Config.DEFAULTS))
              (world st) (world st'))
  /\ (forall (args : GenerateColors.Args) cli out plan w,
       whole_so_far w (GenerateColors.generate args cli out plan w))
  /\ (forall (args : GenerateVoiceAssetsSample.Args) cli out plan w,
       whole_so_far w (GenerateVoiceAssetsSample.generate args cli out plan w))
  /\ (forall (args : GenerateVoiceAssets.Args) cli plan w,
       whole_so_far w (GenerateVoiceAssets.generate args cli plan w)).
Proof.
  split.
  { intros subdir id data w p w'. split.
    - apply write_bytes_atomic_returns.
    - intros e q. by apply write_bytes_atomic_raises. }
  split; [intros; by apply sampled_body_stored|].
  split; [intros; by apply voice_body_stored|].
  split; [intros; apply sampled_loop_whole|].
  split; [intros; apply sampled_loop_whole|].
  intros; apply voice_generate_whole.
Qed.


Lemma destinations_never_hold_partial_audio_witness :
  let E := Demo.ext Demo.colors_doc Demo.svc_ok in
  let out := Demo.at_cwd "out" in
  let long := Path.div out "long" in
  let p := Fs.joinpath long ("red_long" +:+ extension Config.DEFAULTS) in
  let k := ["w"; "out"; "long"; "red_long.mp3"] in
  let w := Demo.world_with {[ k := [9] ]} in
  let w' := snd (write_bytes_atomic p [73; 68; 51] w) in
  let st := start (Demo.world_with ∅) in
  let st' := @sampled_body E false false (Finite 0) Config.DEFAULTS (Some "k")
               out 1%nat st (1%nat, (long, "red_long", "Red is bold.")) in
  (fst (write_bytes_atomic p [73; 68; 51] w) = inr tt
   /\ exists k',
        file_of w p = Some k'
        /\ files w' = atomic_final k' [73; 68; 51] (files w)
        /\ files w' !! k' = Some [73; 68; 51]
        /\ files w' !! tmp_key k' = None
        /\ observed w'
           = observed w
             ++ Fs.write_bytes_states (tmp_key k') [73; 68; 51] (files w)
             ++ [files w']
        /\ Forall (fun fs => fs !! k' = files w !! k')
                  (Fs.write_bytes_states (tmp_key k') [73; 68; 51] (files w)))
  /\ (generated st' = generated st + 1
      /\ @stored E p (world st) (world st')).
Proof.
  intros E out long p k w w' st st'.
  destruct (@destinations_never_hold_partial_audio E) as (Hw & Hs & _).
  split.
  - assert (Hr : fst (write_bytes_atomic p [73; 68; 51] w) = inr tt)
      by (vm_compute; reflexivity).
    split; [exact Hr|].
    exact (proj1 (Hw long "red_long" [73; 68; 51] w) Hr).
  - assert (Hg : generated st' = generated st + 1)
      by (vm_compute; reflexivity).
    split; [exact Hg|].
    exact (Hs false (Finite 0) (Some "k") out 1%nat st 1%nat long "red_long"
              "Red is bold." Hg).
Defined.

(** C4, as stated, fails for typecast_batch_tts.py, which writes to the
    destination itself: the file of the first line is seen there empty, then
    with one byte, then with two, before it is whole. *)
Lemma batch_destination_holds_partial_audio :
  let E := Demo.ext Demo.batch_doc Demo.svc_ok in
  let r := @TypecastBatchTts.main E (Demo.batch_args false)
             (Demo.world_with {[ ["w"; "voice_sets.yaml"] := [] ]}) in
  let k := ["w"; "out_audio"; "greet-hello-726c7655.mp3"] in
  fst r = Exit 0
  /\ files (snd r) !! k = Some [73; 68; 51]
  /\ map (fun fs => fs !! k) (take 4 (observed (snd r)))
     = [Some []; Some [73]; Some [73; 68]; Some [73; 68; 51]].
Proof. intros E r k. vm_compute. repeat split; reflexivity. Qed.

(** ** Dry runs *)




Section DryRun.
Context `{Externals}.





Lemma voice_body_dry (args : GenerateVoiceAssets.Args) d cli total st ix :
  GenerateVoiceAssets.dry_run args = true -> raised st = None ->
  let st' := GenerateVoiceAssets.body args d cli total st ix in
  raised st' = None
  /\ files (world st') = files (world st)
  /\ dirs (world st') = dirs (world st)
  /\ observed (world st') = observed (world st)
  /\ requests (world st') = requests (world st)
  /\ failed st' = failed st.
Proof.
  intros Hdry Hr. destruct ix as [i [[[group_key subdir] clip_id] text]].
  simpl. unfold GenerateVoiceAssets.body. rewrite Hdry.
  repeat case_match; simpl; done.
Qed.

Lemma voice_body_silent (args : GenerateVoiceAssets.Args) d cli total w st ix :
  GenerateVoiceAssets.dry_run args = true -> silent w st ->
  silent w (GenerateVoiceAssets.body args d cli total st ix).
Proof.
  intros Hdry (Hr & Hf & Hds & Ho & Hq & Hz).
  destruct (voice_body_dry args d cli total st ix Hdry Hr)
    as (Hr' & Hf' & Hd' & Ho' & Hq' & Hz').
  unfold silent. repeat split; congruence.
Qed.

Lemma silent_at_start w : silent w (start w).
Proof. done. Qed.


Lemma voice_generate_silent (args : GenerateVoiceAssets.Args) cli plan w :
  GenerateVoiceAssets.dry_run args = true ->
  silent w (GenerateVoiceAssets.generate args cli plan w).
Proof.
  intros Hdry. unfold GenerateVoiceAssets.generate, for_each.
  apply (iterate_body_inv _ (silent w) (fun _ => True)).
  - intros st ix Hst _ _. by apply voice_body_silent.
  - by apply Forall_true.
  - apply silent_at_start.
Qed.









End DryRun.




(** ** Slugs and derived file names *)

Lemma slugify_shape_witness :
  0 < 80
  /\ PyStr.len (BatchNames.slugify "  Hello, World!  " 80) <= 80
  /\ head (PyStr.chars (BatchNames.slugify "  Hello, World!  " 80))
     <> Some "-"%char.
Proof.
  assert (H80 : 0 < 80) by lia.
  split; [exact H80|].
  destruct (slugify_shape "  Hello, World!  " 80 H80) as (Hl & _ & Hh).
  split; [exact Hl | exact Hh].
Defined.

Lemma head_rev_last {A} (l : list A) : head (rev l) = last l.
Proof.
  induction l as [|x l _] using rev_ind; [done|].
  by rewrite rev_app_distr, last_snoc.
Qed.

Lemma lstrip_by_id p l :
  (forall c, head l = Some c -> p c = false) -> PyStr.lstrip_by p l = l.
Proof.
  destruct l as [|c l]; [done|]. intros Hc. simpl. by rewrite (Hc c eq_refl).
Qed.

Lemma strip_by_id p l :
  (forall c, head l = Some c -> p c = false) ->
  (forall c, last l = Some c -> p c = false) ->
  PyStr.strip_by p l = l.
Proof.
  intros Hh Hl. unfold PyStr.strip_by, PyStr.rstrip_by.
  rewrite (lstrip_by_id p l Hh).
  rewrite lstrip_by_id; [apply rev_involutive|].
  intros c. rewrite head_rev_last. apply Hl.
Qed.

Lemma slug_char_facts c :
  slug_char c = true ->
  PyStr.is_space c = false /\ PyStr.lower_char c = c
  /\ BatchNames.is_safe c = true.
Proof.
  destruct c as [[] [] [] [] [] [] [] []]; vm_compute; intros Hc;
    first [discriminate Hc | repeat split; reflexivity].
Qed.

Lemma sub_runs_safe b l :
  Forall (fun c => BatchNames.is_safe c = true) l ->
  BatchNames.sub_runs b l = l.
Proof.
  revert b. induction l as [|c l IH]; intros b Hl; [done|].
  apply Forall_cons in Hl as [Hc Hl]. simpl. rewrite Hc. by rewrite IH.
Qed.

Lemma lower_slug_chars l :
  Forall (fun c => slug_char c = true) l -> map PyStr.lower_char l = l.
Proof.
  induction 1 as [|c l Hc _ IH]; [done|]. simpl.
  destruct (slug_char_facts c Hc) as (_ & -> & _). by rewrite IH.
Qed.

Lemma Forall_head_last {A} (P : A -> Prop) (l : list A) :
  Forall P l ->
  (forall c, head l = Some c -> P c) /\ (forall c, last l = Some c -> P c).
Proof.
  intros Hl. rewrite Forall_forall in Hl. split; intros c Hc; apply Hl.
  - destruct l; simplify_eq/=. by left.
  - apply last_Some in Hc as [l' ->]. apply elem_of_app. right. by left.
Qed.

(** X1.  A string that already is a slug is its own slug: made of lower-case
    letters, digits, [.], [_] and [-], with no hyphen at either end and no
    longer than [max_len]. *)
Theorem slugify_keeps_a_slug s max_len :
  slug_string s ->
  head (PyStr.chars s) <> Some "-"%char ->
  last (PyStr.chars s) <> Some "-"%char ->
  PyStr.len s <= max_len ->
  BatchNames.slugify s max_len = s.
Proof.
  intros Hs Hh Hl Hlen. unfold slug_string in Hs.
  destruct (Forall_head_last _ _ Hs) as [Hfirst Hlast].
  assert (Hstrip : PyStr.strip s = s).
  { unfold PyStr.strip. rewrite strip_by_id; [apply str_chars| |].
    - intros c Hc. by apply slug_char_facts, Hfirst.
    - intros c Hc. by apply slug_char_facts, Hlast. }
  assert (Hlower : PyStr.lower s = s).
  { unfold PyStr.lower. rewrite lower_slug_chars by done. apply str_chars. }
  assert (Hsub : BatchNames.SAFE_CHARS_sub s = s).
  { unfold BatchNames.SAFE_CHARS_sub. rewrite sub_runs_safe; [apply str_chars|].
    eapply Forall_impl; [exact Hs|]. intros c Hc. by apply slug_char_facts. }
  assert (Hdash : PyStr.strip_chars "-" s = s).
  { unfold PyStr.strip_chars. rewrite strip_by_id; [apply str_chars| |].
    - intros c Hc. apply bool_decide_eq_false. intros Hin.
      apply Hh. rewrite Hc. f_equal. simpl in Hin.
      by apply list_elem_of_singleton in Hin.
    - intros c Hc. apply bool_decide_eq_false. intros Hin.
      apply Hl. rewrite Hc. f_equal. simpl in Hin.
      by apply list_elem_of_singleton in Hin. }
  unfold BatchNames.slugify. rewrite Hstrip, Hlower, Hsub, Hdash.
  by rewrite (proj2 (Z.ltb_ge _ _) Hlen).
Qed.

Lemma slugify_keeps_a_slug_witness :
  slug_string "greet-hello_2.v"
  /\ head (PyStr.chars "greet-hello_2.v") <> Some "-"%char
  /\ last (PyStr.chars "greet-hello_2.v") <> Some "-"%char
  /\ PyStr.len "greet-hello_2.v" <= 80
  /\ BatchNames.slugify "greet-hello_2.v" 80 = "greet-hello_2.v".
Proof.
  assert (H1 : slug_string "greet-hello_2.v").
  { unfold slug_string. simpl. repeat (apply Forall_cons; split; [reflexivity|]).
    apply Forall_nil_2. }
  assert (H2 : head (PyStr.chars "greet-hello_2.v") <> Some "-"%char)
    by discriminate.
  assert (H3 : last (PyStr.chars "greet-hello_2.v") <> Some "-"%char)
    by discriminate.
  assert (H4 : PyStr.len "greet-hello_2.v" <= 80) by (vm_compute; discriminate).
  split; [exact H1|]. split; [exact H2|]. split; [exact H3|].
  split; [exact H4|].
  exact (slugify_keeps_a_slug "greet-hello_2.v" 80 H1 H2 H3 H4).
Defined.

Lemma hex_digit_slug n : 0 <= n < 16 -> slug_char (Sha1.hex_digit n) = true.
Proof.
  intros Hn. replace n with (Z.of_nat (Z.to_nat n)) by lia.
  assert (Hk : (Z.to_nat n < 16)%nat) by lia.
  revert Hk. generalize (Z.to_nat n). intros k Hk.
  do 16 (destruct k as [|k]; [reflexivity|]). lia.
Qed.

Lemma be_bytes_range k x :
  Forall (fun b => 0 <= b < 256) (Sha1.be_bytes k x).
Proof.
  unfold Sha1.be_bytes. apply List.Forall_forall. intros b Hb.
  apply in_map_iff in Hb as (i & <- & _).
  change 255 with (Z.ones 8). rewrite Z.land_ones by lia.
  apply Z.mod_pos_bound. lia.
Qed.

Lemma hex_byte_slug b :
  0 <= b < 256 -> Forall (fun c => slug_char c = true) (Sha1.hex_byte b).
Proof.
  intros Hb. unfold Sha1.hex_byte.
  apply Forall_cons. split; [|apply Forall_cons; split; [|apply Forall_nil_2]].
  - apply hex_digit_slug. rewrite Z.shiftr_div_pow2 by lia.
    change (2 ^ 4) with 16. split.
    + apply Z.div_pos; lia.
    + apply Z.div_lt_upper_bound; lia.
  - apply hex_digit_slug. change 15 with (Z.ones 4).
    rewrite Z.land_ones by lia. apply Z.mod_pos_bound. lia.
Qed.

Lemma hexdigest_slug msg : slug_string (Sha1.hexdigest msg).
Proof.
  unfold slug_string, Sha1.hexdigest, Sha1.digest. rewrite chars_str.
  apply List.Forall_forall. intros c Hc.
  apply in_flat_map in Hc as (b & Hb & Hc).
  apply in_flat_map in Hb as (x & _ & Hb).
  pose proof (be_bytes_range 4 x) as Hr. rewrite List.Forall_forall in Hr.
  pose proof (hex_byte_slug b (Hr b Hb)) as Hs.
  rewrite List.Forall_forall in Hs. by apply Hs.
Qed.

Lemma short_hash_slug s n : slug_string (BatchNames.short_hash s n).
Proof.
  unfold slug_string, BatchNames.short_hash, PyStr.prefix. rewrite chars_str.
  apply Forall_take, hexdigest_slug.
Qed.

Section DerivedNames.
Context `{Externals}.

(** X2.  A derived file name is made of lower-case letters, digits, [.], [_]
    and [-] whatever the set name, the key and the text are, when the output
    format is; and it is at most 90 characters longer than the format. *)
Theorem derived_filename_is_safe set_name key t f name :
  TypecastBatchTts.derived_filename set_name key (Py.VStr t) (Py.VStr f)
  = inr name ->
  slug_string f ->
  slug_string name /\ PyStr.len name <= 90 + PyStr.len f.
Proof.
  rewrite derived_filename_eq. intros [= <-] Hf.
  destruct (slugify_shape (TypecastBatchTts.fmt set_name +:+ "-"
                           +:+ TypecastBatchTts.fmt key) 80) as (Hl & Hs & _);
    [lia|].
  pose proof (length_short_hash t) as Hh.
  pose proof (short_hash_slug t 8) as Hhs.
  revert Hl Hs Hh Hhs.
  generalize (BatchNames.slugify (TypecastBatchTts.fmt set_name +:+ "-"
                                  +:+ TypecastBatchTts.fmt key) 80).
  generalize (BatchNames.short_hash t 8).
  intros h slug Hl Hs Hh Hhs. split.
  - unfold slug_string in *. rewrite !chars_app.
    repeat (apply Forall_app; split); try done.
    + by apply Forall_singleton.
    + by apply Forall_singleton.
  - unfold PyStr.len in *.
    rewrite <- !length_chars in *. rewrite !chars_app, !length_app.
    change (length (PyStr.chars "-")) with 1%nat.
    change (length (PyStr.chars ".")) with 1%nat. lia.
Qed.

End DerivedNames.

Lemma derived_filename_is_safe_witness :
  let E := Demo.ext Demo.batch_doc Demo.svc_ok in
  TypecastBatchTts.derived_filename (Py.VStr "Greet Set") (Py.VStr "Hello!")
    (Py.VStr "Hello there") (Py.VStr "mp3")
  = inr "greet-set-hello-726c7655.mp3"
  /\ slug_string "mp3"
  /\ slug_string "greet-set-hello-726c7655.mp3".
Proof.
  intros E.
  assert (H1 : TypecastBatchTts.derived_filename (Py.VStr "Greet Set")
                 (Py.VStr "Hello!") (Py.VStr "Hello there") (Py.VStr "mp3")
               = inr "greet-set-hello-726c7655.mp3")
    by (vm_compute; reflexivity).
  assert (H2 : slug_string "mp3").
  { unfold slug_string. simpl. repeat (apply Forall_cons; split; [reflexivity|]).
    apply Forall_nil_2. }
  split; [exact H1|]. split; [exact H2|].
  exact (proj1 (@derived_filename_is_safe E _ _ _ _ _ H1 H2)).
Defined.

(** ** Reading the utterances of a section *)

Section Sections.
Context `{Externals}.

Lemma iter_list_valid invalid l :
  forallb valid_item l = true ->
  iter_list invalid l = inr (map item_pair l).
Proof.
  induction l as [|it l IH]; [done|]. simpl. intros Hv.
  apply andb_true_iff in Hv as [Hit Hl].
  destruct it; simpl in Hit; try discriminate.
  rewrite Hit. unfold Py.bind. by rewrite (IH Hl).
Qed.

Lemma iter_list_invalid invalid l :
  forallb valid_item l = false ->
  exists msg, iter_list invalid l = inl (Py.Exn "ValueError" msg).
Proof.
  induction l as [|it l IH]; [done|]. simpl. intros Hv.
  destruct it; simpl in *; eauto.
  destruct (Py.has_key "id" m && Py.has_key "text" m); [|eauto].
  simpl in Hv. destruct (IH Hv) as [msg ->]. unfold Py.bind. eauto.
Qed.

(** X3.  [iter_utterances] and [iter_items] take a section all or nothing: the
    pairs of all its items, in order, when each item is a dict with an id and
    a text; [ValueError] as soon as one is not, or when the section is
    neither a list nor missing; and no utterance for a missing section. *)
Theorem sections_are_read_all_or_nothing (invalid : string) :
  iter_section invalid Py.VNone = inr []
  /\ (forall l, forallb valid_item l = true ->
        iter_section invalid (Py.VList l) = inr (map item_pair l))
  /\ (forall l, forallb valid_item l = false ->
        exists msg,
          iter_section invalid (Py.VList l) = inl (Py.Exn "ValueError" msg))
  /\ (forall section,
        section <> Py.VNone -> (forall l, section <> Py.VList l) ->
        exists msg,
          iter_section invalid section = inl (Py.Exn "ValueError" msg)).
Proof.
  split; [done|]. split; [apply iter_list_valid|].
  split; [apply iter_list_invalid|].
  intros section Hn Hl. destruct section; simpl; eauto; try done.
  by destruct (Hl l).
Qed.

End Sections.

Lemma sections_are_read_witness :
  let E := Demo.ext Demo.colors_doc Demo.svc_ok in
  let good := [Demo.utt "red" "Red!"; Demo.utt "blue" "Blue!"] in
  let bad := [Demo.utt "red" "Red!"; Py.VDict [("id", Py.VStr "blue")]] in
  forallb valid_item good = true
  /\ @iter_section E "Invalid item: " (Py.VList good)
     = inr [("red", "Red!"); ("blue", "Blue!")]
  /\ forallb valid_item bad = false
  /\ (exists msg, @iter_section E "Invalid item: " (Py.VList bad)
                  = inl (Py.Exn "ValueError" msg))
  /\ Py.VStr "oops" <> Py.VNone
  /\ (exists msg, @iter_section E "Invalid item: " (Py.VStr "oops")
                  = inl (Py.Exn "ValueError" msg)).
Proof.
  intros E good bad.
  destruct (@sections_are_read_all_or_nothing E "Invalid item: ")
    as (_ & Hgood & Hbad & Hother).
  assert (H1 : forallb valid_item good = true) by reflexivity.
  assert (H2 : forallb valid_item bad = false) by reflexivity.
  assert (H3 : Py.VStr "oops" <> Py.VNone) by discriminate.
  split; [exact H1|]. split; [exact (Hgood good H1)|].
  split; [exact H2|]. split; [exact (Hbad bad H2)|].
  split; [exact H3|].
  apply (Hother (Py.VStr "oops") H3). discriminate.
Defined.

(** ** The plan of generate_voice_assets.py *)

Section VoicePlan.
Context `{Externals}.

Lemma add_group_in_place args out group_key sub items :
  (group_key, sub) ∈ group_table ->
  Forall (entry_in_place args out)
         (GenerateVoiceAssets.add_group args out group_key sub items).
Proof.
  intros Hin. unfold GenerateVoiceAssets.add_group.
  assert (Hsel : selected args group_key ->
            Forall (entry_in_place args out)
              (map (fun it => (group_key, Fs.joinpath out sub, it.1, it.2))
                   items)).
  { intros Hs. apply List.Forall_forall. intros e He.
    apply in_map_iff in He as (it & <- & _). by exists sub. }
  destruct (GenerateVoiceAssets.only args) as [[|g gs]|] eqn:Ho.
  - apply Hsel. unfold selected. by rewrite Ho.
  - case_bool_decide as Hg; [|done]. apply Hsel. unfold selected. by rewrite Ho.
  - apply Hsel. unfold selected. by rewrite Ho.
Qed.

(** X4.  Every entry of the plan belongs to one of the seven groups, lies in
    that group's directory below the output directory, and, when [--only]
    names groups, belongs to a group it names. *)
Theorem plan_entries_are_in_place args out root plan :
  GenerateVoiceAssets.build_plan args out root = inr plan ->
  Forall (entry_in_place args out) plan.
Proof.
  unfold GenerateVoiceAssets.build_plan, Py.bind. intros Hp.
  repeat match type of Hp with
         | match ?x with _ => _ end = _ => destruct x eqn:?; try discriminate
         end.
  injection Hp as <-.
  repeat (apply Forall_app; split);
    apply add_group_in_place; unfold group_table;
    rewrite !elem_of_cons; tauto.
Qed.

End VoicePlan.

Lemma plan_entries_are_in_place_witness :
  let doc :=
    Py.VDict [("prefixes", Py.VList [Demo.utt "p1" "Well,"]);
              ("variables", Py.VDict
                 [("colors", Py.VList [Demo.utt "red" "red";
                                       Demo.utt "blue" "blue"])]);
              ("micro_reactions", Py.VList [Demo.utt "m1" "Oh!"])] in
  let E := Demo.ext doc Demo.svc_ok in
  let args :=
    {| GenerateVoiceAssets.yaml_path := "content_sets.yaml";
       GenerateVoiceAssets.out_dir := "out";
       GenerateVoiceAssets.force := false;
       GenerateVoiceAssets.sleep := Finite 0;
       GenerateVoiceAssets.dry_run := true;
       GenerateVoiceAssets.only := Some ["colors"; "micro"] |} in
  let out := Demo.at_cwd "out" in
  let plan := [("colors", Path.div out "color", "red", "red");
               ("colors", Path.div out "color", "blue", "blue");
               ("micro", Path.div out "micro", "m1", "Oh!")] in
  @GenerateVoiceAssets.build_plan E args out doc = inr plan
  /\ Forall (entry_in_place args out) plan.
Proof.
  intros doc E args out plan.
  assert (Hp : @GenerateVoiceAssets.build_plan E args out doc = inr plan)
    by (vm_compute; reflexivity).
  split; [exact Hp|].
  exact (@plan_entries_are_in_place E args out doc plan Hp).
Defined.

(** ** The REST payload of config.py *)

Section Payload.
Context `{Externals}.

Ltac by_key k :=
  repeat match goal with
         | |- context [String.eqb k ?x] =>
             destruct (String.eqb_spec k x); [subst; simpl; try done|]
         end; simpl; try done.

(** X5.  The payload always has the voice, the text, the model, the prompt and
    the output; it has a language exactly when one is given and is not
    empty, and a seed exactly when one is given, zero included.  With the
    fields of a defaults record whose language is not empty it carries, key
    by key, what the request of [tts_one] carries. *)
Theorem payload_matches_the_request text (d : Config.TypecastTTSDefaults)
    language seed :
  let payload :=
    Config.tts_request_payload text (Config.voice_id d) (Config.model d)
      language (Config.emotion_preset d) (Config.emotion_intensity d)
      (Config.volume d) (Config.audio_pitch d) (Config.audio_tempo d)
      (Config.audio_format d) seed in
  Forall (fun k => Py.has_key k payload = true)
         ["voice_id"; "text"; "model"; "prompt"; "output"]
  /\ Py.has_key "language" payload
     = match language with Some l => PyStr.truthy l | None => false end
  /\ Py.has_key "seed" payload
     = match seed with Some _ => true | None => false end
  /\ (language = Some (Config.language d) ->
      PyStr.truthy (Config.language d) = true ->
      seed = Config.seed d ->
      exists request payload_output request_output,
        TTSRequest text d = Py.VDict request
        /\ (forall k, k <> "output" ->
              Py.dict_get payload k Py.VNone = Py.dict_get request k Py.VNone)
        /\ Py.assoc "output" payload = Some (Py.VDict payload_output)
        /\ Py.assoc "output" request = Some (Py.VDict request_output)
        /\ forall k, Py.assoc k payload_output = Py.assoc k request_output).
Proof.
  intros payload. subst payload. unfold Config.tts_request_payload.
  split; [repeat (apply Forall_cons; split; [reflexivity|]); apply Forall_nil_2|].
  split; [destruct language as [l|]; [destruct (PyStr.truthy l)|];
          destruct seed; reflexivity|].
  split; [destruct language as [l|]; [destruct (PyStr.truthy l)|];
          destruct seed; reflexivity|].
  intros -> Ht ->. rewrite Ht. unfold TTSRequest.
  do 3 eexists. split; [reflexivity|].
  split; [|split; [reflexivity|split; [reflexivity|]]].
  - intros k Hk. unfold Py.dict_get. simpl.
    destruct (Config.seed d); simpl; by_key k.
  - intros k. simpl. by_key k.
Qed.

End Payload.

Lemma payload_matches_the_request_witness :
  let E := Demo.ext Demo.colors_doc Demo.svc_ok in
  let d := Config.DEFAULTS in
  Some (Config.language d) = Some (Config.language d)
  /\ PyStr.truthy (Config.language d) = true
  /\ Config.seed d = Config.seed d
  /\ Py.dict_get (Config.default_payload "Hello") "language" Py.VNone
     = Py.VStr "eng"
  /\ exists request,
       TTSRequest "Hello" d = Py.VDict request
       /\ forall k, k <> "output" ->
            Py.dict_get (Config.default_payload "Hello") k Py.VNone
            = Py.dict_get request k Py.VNone.
Proof.
  intros E d.
  assert (Ht : PyStr.truthy (Config.language d) = true) by reflexivity.
  split; [reflexivity|]. split; [exact Ht|]. split; [reflexivity|].
  split; [reflexivity|].
  destruct (@payload_matches_the_request "Hello" d (Some (Config.language d))
              (Config.seed d)) as (_ & _ & _ & Hm).
  destruct (Hm eq_refl Ht eq_refl) as (request & po & ro & Hr & Hk & _).
  exists request. split; [exact Hr | exact Hk].
Defined.

(** ** What [main] does before and around the loop *)

Section Mains.
Context `{Externals}.

Lemma ensure_dir_frame p w :
  let w' := snd (ensure_dir p w) in
  files w' = files w /\ observed w' = observed w /\ requests w' = requests w
  /\ environ w' = environ w /\ stdout w' = stdout w /\ stderr w' = stderr w.
Proof. unfold ensure_dir. by destruct (Fs.ensure_dir _ _ p). Qed.

Lemma ensure_dirs_frame ps : forall w,
  let w' := snd (ensure_dirs ps w) in
  files w' = files w /\ observed w' = observed w /\ requests w' = requests w
  /\ environ w' = environ w /\ stdout w' = stdout w /\ stderr w' = stderr w.
Proof.
  induction ps as [|p ps IH]; intros w; [done|]. simpl.
  pose proof (ensure_dir_frame p w) as Hp.
  destruct (ensure_dir p w) as [[e|u] w1]; [exact Hp|].
  simpl in Hp. destruct Hp as (Hf & Ho & Hq & He & Hso & Hse).
  destruct (IH w1) as (Hf' & Ho' & Hq' & He' & Hso' & Hse').
  repeat split; congruence.
Qed.

Lemma no_key_no_client env :
  Config.getenv env Config.ENV_API_KEY = None
  \/ Config.getenv env Config.ENV_API_KEY = Some EmptyString ->
  exists msg,
    Config.get_typecast_client None env = inl (Py.Exn "RuntimeError" msg).
Proof.
  unfold Config.get_typecast_client, Config.key_or_env, Config.require_env,
    Py.bind.
  intros [-> | ->]; simpl; eauto.
Qed.

Lemma init_client_cases dry w w1 :
  environ w1 = environ w ->
  match init_client dry w1 with
  | inl _ => True
  | inr cli => (dry = true -> cli = None) /\ (dry = false -> ~ no_api_key w)
  end.
Proof.
  intros He. unfold init_client. destruct dry; [done|]. unfold Py.bind.
  destruct (Config.get_typecast_client None (environ w1)) as [e|c] eqn:Hc;
    [done|].
  split; [done|]. intros _ Hno. unfold no_api_key in Hno. rewrite <- He in Hno.
  destruct (no_key_no_client _ Hno) as [msg Hmsg]. congruence.
Qed.

Lemma colors_prepared_well args w :
  prepared_well (GenerateColors.dry_run args) w (GenerateColors.prepare args w).
Proof.
  unfold GenerateColors.prepare.
  destruct (negb _); [by repeat split|].
  destruct (read_file _ w); [by repeat split|].
  destruct (GenerateColors.load _) as [e|[lu su]]; [by repeat split|].
  destruct (GenerateColors.select args (entropy w) lu su) as [sl ss].
  destruct (GenerateColors.build_plan _ sl ss) eqn:Hp; [by repeat split|].
  match goal with |- context [ensure_dirs ?ps ?w0] =>
    destruct (ensure_dirs_frame ps w0) as (Hf & Ho & Hq & He & _);
    destruct (ensure_dirs ps w0) as [[e|u] w2] end;
    simpl in Hf, Ho, Hq, He; [by repeat split|].
  pose proof (init_client_cases (GenerateColors.dry_run args) w w2 He) as Hc.
  destruct (init_client _ w2); [by repeat split|].
  destruct Hc. by repeat split.
Qed.

Lemma sample_prepared_well args w :
  prepared_well (GenerateVoiceAssetsSample.dry_run args) w
                (GenerateVoiceAssetsSample.prepare args w).
Proof.
  unfold GenerateVoiceAssetsSample.prepare.
  destruct (negb _); [by repeat split|].
  destruct (read_file _ w); [by repeat split|].
  destruct (GenerateVoiceAssetsSample.select _ _ _) as [e|sel];
    [by repeat split|].
  destruct (GenerateVoiceAssetsSample.build_plan _ sel) eqn:Hp;
    [by repeat split|].
  match goal with |- context [ensure_dirs ?ps ?w0] =>
    destruct (ensure_dirs_frame ps w0) as (Hf & Ho & Hq & He & _);
    destruct (ensure_dirs ps w0) as [[e|u] w2] end;
    simpl in Hf, Ho, Hq, He; [by repeat split|].
  pose proof (init_client_cases (GenerateVoiceAssetsSample.dry_run args) w w2
                He) as Hc.
  destruct (init_client _ w2); [by repeat split|].
  destruct Hc. by repeat split.
Qed.

Lemma voice_prepared_well args w :
  prepared_well (GenerateVoiceAssets.dry_run args) w
                (GenerateVoiceAssets.prepare args w).
Proof.
  unfold GenerateVoiceAssets.prepare.
  destruct (negb _); [by repeat split|].
  destruct (read_file _ w); [by repeat split|].
  destruct (GenerateVoiceAssets.load_root _) as [e|[[root locale] version]];
    [by repeat split|].
  destruct (GenerateVoiceAssets.build_plan _ _ root) as [e|[|en plan]];
    [by repeat split|by repeat split|].
  match goal with |- context [ensure_dirs ?ps ?w0] =>
    destruct (ensure_dirs_frame ps w0) as (Hf & Ho & Hq & He & _);
    destruct (ensure_dirs ps w0) as [[e|u] w2] end;
    simpl in Hf, Ho, Hq, He; [by repeat split|].
  pose proof (init_client_cases (GenerateVoiceAssets.dry_run args) w w2 He)
    as Hc.
  destruct (init_client _ w2); [by repeat split|].
  destruct Hc. by repeat split.
Qed.

(** A dry loop, whether an exception leaves it or not. *)
Lemma sampled_loop_dry force sleep d cli out plan w :
  let r := sampled_loop force true sleep d cli out plan w in
  untouched w (world r) /\ failed r = 0.
Proof.
  simpl. unfold sampled_loop, for_each.
  apply (iterate_body_inv _
           (fun st => untouched w (world st) /\ failed st = 0)
           (fun _ => True)).
  - intros st [i [[subdir clip_id] text]] [Hu Hz] _ _. unfold sampled_body.
    repeat case_match; simpl; done.
  - by apply Forall_true.
  - done.
Qed.

Lemma voice_generate_dry (args : GenerateVoiceAssets.Args) cli plan w :
  GenerateVoiceAssets.dry_run args = true ->
  let r := GenerateVoiceAssets.generate args cli plan w in
  untouched w (world r) /\ failed r = 0.
Proof.
  intros Hdry. destruct (voice_generate_silent args cli plan w Hdry)
    as (_ & Hf & _ & Ho & Hq & Hz).
  done.
Qed.

Lemma finish_untouched out w w' r :
  untouched w w' -> untouched w' (world r) -> failed r = 0 ->
  untouched w (snd (finish out r)) /\ fst (finish out r) <> Exit 1.
Proof.
  intros (Hf & Ho & Hq) (Hf' & Ho' & Hq') Hz.
  unfold finish. destruct (raised r); simpl.
  - unfold untouched. by rewrite Hf', Ho', Hq'.
  - rewrite Hz. simpl. unfold untouched. simpl. by rewrite Hf', Ho', Hq'.
Qed.

(** X6.  A dry run of [main], in each of the three scripts: no file is created
    or changed, no request is sent, and the value returned is never 1. *)
Theorem dry_main_touches_nothing :
  (forall args w,
     GenerateColors.dry_run args = true ->
     untouched w (snd (GenerateColors.main args w))
     /\ fst (GenerateColors.main args w) <> Exit 1)
  /\ (forall args w,
       GenerateVoiceAssetsSample.dry_run args = true ->
       untouched w (snd (GenerateVoiceAssetsSample.main args w))
       /\ fst (GenerateVoiceAssetsSample.main args w) <> Exit 1)
  /\ (forall args w,
       GenerateVoiceAssets.dry_run args = true ->
       untouched w (snd (GenerateVoiceAssets.main args w))
       /\ fst (GenerateVoiceAssets.main args w) <> Exit 1).
Proof.
  split; [|split].
  - intros args w Hd. unfold GenerateColors.main.
    pose proof (colors_prepared_well args w) as Hp.
    destruct (GenerateColors.prepare args w) as [o w'|out cli plan w'] eqn:He;
      [exact Hp|].
    destruct Hp as (Hu & _ & _).
    unfold GenerateColors.generate. rewrite Hd.
    by apply (finish_untouched out w w'); [|apply sampled_loop_dry..].
  - intros args w Hd. unfold GenerateVoiceAssetsSample.main.
    pose proof (sample_prepared_well args w) as Hp.
    destruct (GenerateVoiceAssetsSample.prepare args w)
      as [o w'|out cli plan w'] eqn:He; [exact Hp|].
    destruct Hp as (Hu & _ & _).
    unfold GenerateVoiceAssetsSample.generate. rewrite Hd.
    by apply (finish_untouched out w w'); [|apply sampled_loop_dry..].
  - intros args w Hd. unfold GenerateVoiceAssets.main.
    pose proof (voice_prepared_well args w) as Hp.
    destruct (GenerateVoiceAssets.prepare args w)
      as [o w'|out cli plan w'] eqn:He; [exact Hp|].
    destruct Hp as (Hu & _ & _).
    by apply (finish_untouched out w w'); [|apply voice_generate_dry..].
Qed.

(** X7.  A real run without an API key (unset or empty), in each of the three
    scripts: [main] ends before the loop, so no file is created or changed
    and no request is sent, and it does not return 1. *)
Theorem no_api_key_no_synthesis :
  (forall args w,
     GenerateColors.dry_run args = false -> no_api_key w ->
     (forall out cli plan w',
        GenerateColors.prepare args w <> Go out cli plan w')
     /\ untouched w (snd (GenerateColors.main args w))
     /\ fst (GenerateColors.main args w) <> Exit 1)
  /\ (forall args w,
       GenerateVoiceAssetsSample.dry_run args = false -> no_api_key w ->
       (forall out cli plan w',
          GenerateVoiceAssetsSample.prepare args w <> Go out cli plan w')
       /\ untouched w (snd (GenerateVoiceAssetsSample.main args w))
       /\ fst (GenerateVoiceAssetsSample.main args w) <> Exit 1)
  /\ (forall args w,
       GenerateVoiceAssets.dry_run args = false -> no_api_key w ->
       (forall out cli plan w',
          GenerateVoiceAssets.prepare args w <> Go out cli plan w')
       /\ untouched w (snd (GenerateVoiceAssets.main args w))
       /\ fst (GenerateVoiceAssets.main args w) <> Exit 1).
Proof.
  split; [|split].
  - intros args w Hd Hno. unfold GenerateColors.main.
    pose proof (colors_prepared_well args w) as Hp.
    destruct (GenerateColors.prepare args w) as [o w'|out cli plan w'] eqn:He.
    + split; [done|]. exact Hp.
    + destruct Hp as (_ & _ & Hk). by destruct (Hk Hd).
  - intros args w Hd Hno. unfold GenerateVoiceAssetsSample.main.
    pose proof (sample_prepared_well args w) as Hp.
    destruct (GenerateVoiceAssetsSample.prepare args w)
      as [o w'|out cli plan w'] eqn:He.
    + split; [done|]. exact Hp.
    + destruct Hp as (_ & _ & Hk). by destruct (Hk Hd).
  - intros args w Hd Hno. unfold GenerateVoiceAssets.main.
    pose proof (voice_prepared_well args w) as Hp.
    destruct (GenerateVoiceAssets.prepare args w)
      as [o w'|out cli plan w'] eqn:He.
    + split; [done|]. exact Hp.
    + destruct Hp as (_ & _ & Hk). by destruct (Hk Hd).
Qed.

End Mains.

Lemma dry_main_touches_nothing_witness :
  let E := Demo.ext Demo.colors_doc Demo.svc_down in
  let w := Demo.world_with {[ ["w"; "colors.yaml"] := [] ]} in
  GenerateColors.dry_run (Demo.colors_args true) = true
  /\ untouched w (snd (@GenerateColors.main E (Demo.colors_args true) w))
  /\ fst (@GenerateColors.main E (Demo.colors_args true) w) = Exit 0.
Proof.
  intros E w.
  destruct (@dry_main_touches_nothing E) as (Hc & _).
  split; [reflexivity|].
  split; [exact (proj1 (Hc (Demo.colors_args true) w eq_refl))|].
  vm_compute. reflexivity.
Defined.

Lemma no_api_key_no_synthesis_witness :
  let E := Demo.ext Demo.colors_doc Demo.svc_ok in
  let w :=
    {| files := {[ ["w"; "colors.yaml"] := [] ]}; dirs := Demo.tree;
       observed := []; requests := [];
       stdout := []; stderr := []; sleeps := []; environ := ∅;
       entropy := 0 |} in
  GenerateColors.dry_run (Demo.colors_args false) = false
  /\ no_api_key w
  /\ untouched w (snd (@GenerateColors.main E (Demo.colors_args false) w))
  /\ match fst (@GenerateColors.main E (Demo.colors_args false) w) with
     | Uncaught e => Py.exn_class e = "RuntimeError"
     | Exit _ => False
     end.
Proof.
  intros E w.
  assert (Hno : no_api_key w) by (left; vm_compute; reflexivity).
  destruct (@no_api_key_no_synthesis E) as (Hc & _).
  split; [reflexivity|]. split; [exact Hno|].
  split; [exact (proj1 (proj2 (Hc (Demo.colors_args false) w eq_refl Hno)))|].
  vm_compute. reflexivity.
Defined.

(** ** The manifest of typecast_batch_tts.py *)

Lemma assoc_app k (a b : list (string * Py.value)) :
  Py.assoc k (a ++ b)
  = match Py.assoc k a with Some v => Some v | None => Py.assoc k b end.
Proof.
  induction a as [|[k' v] a IH]; [done|]. simpl.
  by destruct (String.eqb k k').
Qed.

Lemma dict_get_merge a b k dflt :
  Py.dict_get (Py.dict_merge a b) k dflt
  = match Py.assoc k b with Some v => v | None => Py.dict_get a k dflt end.
Proof.
  unfold Py.dict_get, Py.dict_merge. rewrite assoc_app.
  by destruct (Py.assoc k b).
Qed.

Lemma truthy_append_r a b :
  PyStr.truthy b = true -> PyStr.truthy (a +:+ b) = true.
Proof. intros Hb. by destruct a. Qed.

Lemma inherited_eq k line sd gd dflt :
  Py.dict_get line k (Py.dict_get (Py.dict_merge gd sd) k dflt)
  = inherited k line sd gd dflt.
Proof.
  unfold inherited. rewrite dict_get_merge. unfold Py.dict_get.
  by destruct (Py.assoc k line).
Qed.

Lemma inherited_nil k sd gd dflt :
  inherited k [] sd gd dflt = Py.dict_get (Py.dict_merge gd sd) k dflt.
Proof. unfold inherited. by rewrite dict_get_merge. Qed.

Section Manifest.
Context `{Externals}.

Lemma load_line_loaded name sd gd ln item :
  TypecastBatchTts.load_line name (Py.dict_merge gd sd) ln = inr item ->
  line_loaded name sd gd ln item
  /\ (Py.truthy name = true -> complete_item item).
Proof.
  unfold TypecastBatchTts.load_line. intros Hl.
  destruct ln as [| | | | | |line]; try discriminate Hl.
  unfold Py.get, Py.get_or, Py.bind, Py.ret in Hl.
  repeat
    match type of Hl with
    | match ?x with _ => _ end = _ => destruct x eqn:?; try discriminate
    | (if ?x then _ else _) = _ => destruct x eqn:?; try discriminate
    end;
  injection Hl as <-; simplify_eq;
  repeat match goal with
         | Hb : negb _ || negb _ = false |- _ =>
             apply orb_false_iff in Hb as [?%negb_false_iff ?%negb_false_iff]
         end.
  assert (Hfile :
    (Py.truthy (Py.dict_get line "filename" Py.VNone) = true ->
     v = Py.dict_get line "filename" Py.VNone)
    /\ Py.truthy v = true).
  { destruct (Py.truthy (Py.dict_get line "filename" Py.VNone)) eqn:Hf.
    - injection Heqr3 as <-. by split.
    - destruct (TypecastBatchTts.derived_filename _ _ _ _) as [e|f] eqn:Hd;
        [discriminate|].
      injection Heqr3 as <-. split; [done|].
      unfold TypecastBatchTts.derived_filename, Py.bind in Hd.
      destruct (TypecastBatchTts.text_hash _) as [e|h]; [discriminate|].
      injection Hd as <-. unfold Py.truthy.
      apply truthy_append_r. reflexivity. }
  destruct Hfile as [Hexplicit Hname].
  rewrite <- (inherited_nil "prompt" sd gd Py.VNone) in Heqr.
  rewrite <- (inherited_nil "output" sd gd Py.VNone) in Heqr1.
  split.
  - exists line.
    cbn [TypecastBatchTts.set TypecastBatchTts.key TypecastBatchTts.text
         TypecastBatchTts.filename TypecastBatchTts.model
         TypecastBatchTts.voice_id TypecastBatchTts.language
         TypecastBatchTts.output_format TypecastBatchTts.prompt
         TypecastBatchTts.output].
    rewrite !inherited_eq.
    repeat (split; [reflexivity|]).
    split; [exists l, l0; split; [exact Heqr|]; split; [exact Heqr0|];
            intros k; apply assoc_app|].
    split; [exists l1, l2; split; [exact Heqr1|]; split; [exact Heqr2|];
            intros k; apply assoc_app|].
    exact Hexplicit.
  - intros Hn. unfold complete_item.
    cbn [TypecastBatchTts.set TypecastBatchTts.key TypecastBatchTts.text
         TypecastBatchTts.filename TypecastBatchTts.model
         TypecastBatchTts.voice_id].
    repeat (split; [assumption|]). assumption.
Qed.

Lemma load_lines_loaded name sd gd lines items :
  TypecastBatchTts.load_lines name (Py.dict_merge gd sd) lines = inr items ->
  Forall2 (line_loaded name sd gd) lines items
  /\ (Py.truthy name = true -> Forall complete_item items).
Proof.
  revert items. induction lines as [|ln lines IH]; intros items Hl.
  - injection Hl as <-. split; [constructor|done].
  - simpl in Hl. unfold Py.bind in Hl.
    destruct (TypecastBatchTts.load_line _ _ ln) as [e|item] eqn:Hln;
      [discriminate|].
    destruct (TypecastBatchTts.load_lines _ _ lines) as [e|rest] eqn:Hrest;
      [discriminate|].
    injection Hl as <-.
    destruct (load_line_loaded _ _ _ _ _ Hln) as [H1 H2].
    destruct (IH rest eq_refl) as [H3 H4].
    split; [by constructor|]. intros Hn. constructor; auto.
Qed.

(** X8.  The override rule of a set: every line of the set gives one item, in
    order; the item's model, voice, language and output format are the
    line's own when the line has the key, else the set's default, else the
    manifest's, else none, none, ["en"] and ["mp3"]; its prompt and output
    settings are the set-level ones overridden key by key by the line's; and
    a file name the line gives is the item's. *)
Theorem lines_inherit_their_defaults global s items :
  TypecastBatchTts.load_set (Py.VDict global) s = inr items ->
  exists set set_level lines,
    s = Py.VDict set
    /\ TypecastBatchTts.mapping
         (Py.or_empty_dict (Py.dict_get set "defaults" Py.VNone))
       = inr set_level
    /\ TypecastBatchTts.iterate
         (Py.or_empty_list (Py.dict_get set "lines" (Py.VList []))) = inr lines
    /\ Forall2 (line_loaded (Py.dict_get set "name" Py.VNone) set_level global)
               lines items.
Proof.
  unfold TypecastBatchTts.load_set. intros Hl.
  destruct s as [| | | | | |set]; try discriminate Hl.
  unfold Py.get, Py.get_or, Py.bind, Py.ret in Hl. simpl in Hl.
  destruct (negb (Py.truthy (Py.dict_get set "name" Py.VNone)));
    [discriminate|].
  destruct (TypecastBatchTts.mapping (Py.or_empty_dict _)) as [e|sd] eqn:Hsd;
    [discriminate|].
  destruct (TypecastBatchTts.iterate _) as [e|lines] eqn:Hlines;
    [discriminate|].
  exists set, sd, lines. split; [done|]. split; [done|]. split; [done|].
  by apply load_lines_loaded.
Qed.

Lemma load_set_complete defaults s items :
  TypecastBatchTts.load_set defaults s = inr items ->
  Forall complete_item items.
Proof.
  unfold TypecastBatchTts.load_set, Py.bind. intros Hl.
  destruct (Py.get s "name") as [e|name]; [discriminate|].
  destruct (negb (Py.truthy name)) eqn:Hn; [discriminate|].
  apply negb_false_iff in Hn.
  destruct (TypecastBatchTts.mapping defaults) as [e|gd]; [discriminate|].
  destruct (Py.get s "defaults") as [e|sdv]; [discriminate|].
  destruct (TypecastBatchTts.mapping (Py.or_empty_dict sdv)) as [e|sd];
    [discriminate|].
  destruct (Py.get_or s "lines" _) as [e|lv]; [discriminate|].
  destruct (TypecastBatchTts.iterate _) as [e|lines]; [discriminate|].
  by apply (load_lines_loaded name sd gd lines items).
Qed.

Lemma load_sets_complete defaults sets items :
  TypecastBatchTts.load_sets defaults sets = inr items ->
  Forall complete_item items.
Proof.
  revert items. induction sets as [|s sets IH]; intros items Hl.
  - by injection Hl as <-.
  - simpl in Hl. unfold Py.bind in Hl.
    destruct (TypecastBatchTts.load_set defaults s) as [e|first] eqn:Hs;
      [discriminate|].
    destruct (TypecastBatchTts.load_sets defaults sets) as [e|rest] eqn:Hr;
      [discriminate|].
    injection Hl as <-. apply Forall_app. split.
    + by eapply load_set_complete.
    + by apply IH.
Qed.

(** X9.  What [load_manifest] returns has been checked: the file exists, and
    every item has a set name, a key, a text, a model, a voice and a file
    name, none of them empty.  One line that lacks one of them, in any set,
    and the manifest gives no item at all. *)
Theorem loaded_items_are_complete path fs ds data items :
  TypecastBatchTts.load_manifest path fs ds = inr (data, items) ->
  (exists k, Fs.locate ds path = Some k /\ is_Some (fs !! k)
             /\ Fs.is_dir ds k = false)
  /\ Forall complete_item items.
Proof.
  unfold TypecastBatchTts.load_manifest, Py.bind, Fs.read_bytes. intros Hl.
  destruct (Fs.locate ds path) as [k|]; [|discriminate].
  destruct (Fs.is_dir ds k) eqn:Hd; [discriminate|].
  destruct (fs !! k) as [content|] eqn:Hk; [|discriminate Hl].
  simpl in Hl.
  split; [exists k; by rewrite Hk|].
  destruct (safe_load content) as [e|d]; [discriminate|].
  destruct d; try discriminate.
  destruct (TypecastBatchTts.iterate _) as [e|sets]; [discriminate|].
  destruct (TypecastBatchTts.load_sets _ sets) as [e|its] eqn:Hs;
    [discriminate|].
  injection Hl as _ <-. by eapply load_sets_complete.
Qed.

End Manifest.

Lemma lines_inherit_witness :
  let E := Demo.ext Demo.batch_doc Demo.svc_ok in
  let global := [("model", Py.VStr "ssfm-v21"); ("voice_id", Py.VStr "tc_1");
                 ("language", Py.VStr "ko")] in
  let s :=
    Py.VDict
      [("name", Py.VStr "greet");
       ("defaults", Py.VDict [("voice_id", Py.VStr "tc_2")]);
       ("lines", Py.VList
          [Py.VDict [("key", Py.VStr "hello"); ("text", Py.VStr "Hello there");
                     ("language", Py.VStr "ja")];
           Py.VDict [("key", Py.VStr "bye"); ("text", Py.VStr "Goodbye")]])] in
  let items :=
    match @TypecastBatchTts.load_set E (Py.VDict global) s with
    | inr items => items
    | inl _ => []
    end in
  @TypecastBatchTts.load_set E (Py.VDict global) s = inr items
  /\ map TypecastBatchTts.language items = [Py.VStr "ja"; Py.VStr "ko"]
  /\ map TypecastBatchTts.voice_id items = [Py.VStr "tc_2"; Py.VStr "tc_2"]
  /\ map TypecastBatchTts.model items = [Py.VStr "ssfm-v21"; Py.VStr "ssfm-v21"]
  /\ exists set set_level lines,
       s = Py.VDict set
       /\ Forall2 (line_loaded (Py.dict_get set "name" Py.VNone) set_level
                               global) lines items.
Proof.
  intros E global s items.
  assert (Hl : @TypecastBatchTts.load_set E (Py.VDict global) s = inr items)
    by (vm_compute; reflexivity).
  split; [exact Hl|].
  split; [vm_compute; reflexivity|]. split; [vm_compute; reflexivity|].
  split; [vm_compute; reflexivity|].
  destruct (@lines_inherit_their_defaults E global s items Hl)
    as (set & sd & lines & Hs & _ & _ & Hall).
  exists set, sd, lines. split; [exact Hs | exact Hall].
Defined.

Lemma loaded_items_are_complete_witness :
  let E := Demo.ext Demo.batch_doc Demo.svc_ok in
  let fs : gmap (list string) (list Z) := {[ ["w"; "voice_sets.yaml"] := [] ]} in
  let path := Demo.at_cwd "voice_sets.yaml" in
  let items :=
    match @TypecastBatchTts.load_manifest E path fs Demo.tree with
    | inr (_, items) => items
    | inl _ => []
    end in
  @TypecastBatchTts.load_manifest E path fs Demo.tree
  = inr (Demo.batch_doc, items)
  /\ length items = 2%nat
  /\ Forall complete_item items.
Proof.
  intros E fs path items.
  assert (Hl : @TypecastBatchTts.load_manifest E path fs Demo.tree
               = inr (Demo.batch_doc, items)) by (vm_compute; reflexivity).
  split; [exact Hl|]. split; [vm_compute; reflexivity|].
  exact (proj2 (@loaded_items_are_complete E _ _ _ _ _ Hl)).
Defined.

(** ** The request of typecast_batch_tts.py *)

Section BatchRequest.
Context `{Externals}.

Lemma known_prompt_keys p known :
  TypecastBatchTts.known_prompt p = inr known ->
  keys_within ["emotion_preset"; "emotion_intensity"] known.
Proof.
  unfold TypecastBatchTts.known_prompt, Py.bind, keys_within. intros Hk.
  destruct (Py.assoc "emotion_preset" p);
    destruct (Py.assoc "emotion_intensity" p);
    try (destruct (float_ _); [discriminate|]);
    injection Hk as <-; simpl;
    repeat (apply Forall_cons; split; [simpl; rewrite !elem_of_cons; tauto|]);
    apply Forall_nil_2.
Qed.

Lemma audio_control_cases o k :
  TypecastBatchTts.audio_control o k = []
  \/ exists v, v <> Py.VNone /\ Py.assoc k o = Some v
               /\ TypecastBatchTts.audio_control o k = [(k, v)].
Proof.
  unfold TypecastBatchTts.audio_control.
  destruct (Py.assoc k o) as [[]|]; eauto; right; eexists; by repeat split.
Qed.

Lemma output_kwargs_known item :
  let o := TypecastBatchTts.output_kwargs item in
  keys_within ["audio_format"; "volume"; "pitch"; "tempo"] o
  /\ Py.assoc "audio_format" o = Some (TypecastBatchTts.output_format item)
  /\ (forall k v, k <> "audio_format" -> Py.assoc k o = Some v ->
        v <> Py.VNone /\ Py.assoc k (TypecastBatchTts.output item) = Some v).
Proof.
  simpl. unfold TypecastBatchTts.output_kwargs.
  destruct (audio_control_cases (TypecastBatchTts.output item) "volume")
    as [->|(v1 & Hv1 & Ha1 & ->)];
  destruct (audio_control_cases (TypecastBatchTts.output item) "pitch")
    as [->|(v2 & Hv2 & Ha2 & ->)];
  destruct (audio_control_cases (TypecastBatchTts.output item) "tempo")
    as [->|(v3 & Hv3 & Ha3 & ->)];
  (split; [unfold keys_within; simpl;
           repeat (apply Forall_cons; split;
                   [simpl; rewrite !elem_of_cons; tauto|]);
           apply Forall_nil_2|]);
  (split; [reflexivity|]);
  intros k v Hk; simpl;
  destruct (String.eqb_spec k "audio_format"); try done;
  repeat match goal with
         | |- context [String.eqb k ?x] =>
             destruct (String.eqb_spec k x); [subst|]
         end;
  intros Hv; simplify_eq; done.
Qed.

(** X10.  The request built for an item is what the SDK's [TTSRequest]
    makes of the item's text, model and voice, the language code of its
    language, a prompt and an output.  The prompt is [None] when the item has
    no prompt setting, and else [None] or what [Prompt] makes of keyword
    arguments among the emotion preset and intensity only; the output is
    what [Output] makes of the audio format and of those of the volume, the
    pitch and the tempo that are set, passed under these names, and of
    nothing else.  When [Output] refuses them, no request is built. *)
Theorem only_known_settings_are_sent item :
  (forall req,
     TypecastBatchTts.build_tts_request item = inr req ->
     exists lang p o,
       sdk_TTSRequest [("text", TypecastBatchTts.text item);
                       ("model", TypecastBatchTts.model item);
                       ("voice_id", TypecastBatchTts.voice_id item);
                       ("language", lang); ("prompt", p); ("output", o)]
       = inr req
       /\ TypecastBatchTts.as_language_code (TypecastBatchTts.language item)
          = inr lang
       /\ sdk_Output (TypecastBatchTts.output_kwargs item) = inr o
       /\ (p = Py.VNone
           \/ exists known,
                TypecastBatchTts.known_prompt (TypecastBatchTts.prompt item)
                = inr known
                /\ known <> []
                /\ keys_within ["emotion_preset"; "emotion_intensity"] known
                /\ sdk_Prompt known = inr p)
       /\ (TypecastBatchTts.prompt item = [] -> p = Py.VNone))
  /\ (let o := TypecastBatchTts.output_kwargs item in
      keys_within ["audio_format"; "volume"; "pitch"; "tempo"] o
      /\ Py.assoc "audio_format" o = Some (TypecastBatchTts.output_format item)
      /\ (forall k v, k <> "audio_format" -> Py.assoc k o = Some v ->
            v <> Py.VNone
            /\ Py.assoc k (TypecastBatchTts.output item) = Some v))
  /\ (forall e,
        sdk_Output (TypecastBatchTts.output_kwargs item) = inl e ->
        exists e', TypecastBatchTts.build_tts_request item = inl e').
Proof.
  split; [|split; [apply output_kwargs_known|]].
  - unfold TypecastBatchTts.build_tts_request, Py.bind. intros req Hb.
    destruct (match TypecastBatchTts.prompt item with
              | [] => Py.ret Py.VNone
              | _ => _
              end) as [e|p] eqn:Hp; [discriminate|].
    destruct (TypecastBatchTts.as_language_code _) as [e|lang] eqn:Hlang;
      [discriminate|].
    destruct (sdk_Output _) as [e|o] eqn:Ho; [discriminate|].
    exists lang, p, o. split; [exact Hb|]. split; [reflexivity|].
    split; [reflexivity|]. split.
    + destruct (TypecastBatchTts.prompt item) as [|kv rest];
        [injection Hp as <-; by left|].
      destruct (TypecastBatchTts.known_prompt (kv :: rest))
        as [e|known] eqn:Hk; [discriminate|].
      destruct known as [|x known]; [injection Hp as <-; by left|].
      right. eexists. split; [reflexivity|]. split; [done|].
      split; [by apply known_prompt_keys in Hk | exact Hp].
    + intros Hnil. rewrite Hnil in Hp. by injection Hp as <-.
  - intros e He. unfold TypecastBatchTts.build_tts_request, Py.bind.
    destruct (match TypecastBatchTts.prompt item with
              | [] => Py.ret Py.VNone
              | _ => _
              end) as [e1|p]; [eauto|].
    destruct (TypecastBatchTts.as_language_code _) as [e2|lang]; [eauto|].
    rewrite He. eauto.
Qed.

End BatchRequest.

Lemma only_known_settings_witness :
  let E := Demo.ext Demo.batch_doc Demo.svc_ok in
  let item volume :=
    {| TypecastBatchTts.set := Py.VStr "greet";
       TypecastBatchTts.key := Py.VStr "hello";
       TypecastBatchTts.text := Py.VStr "Hello there";
       TypecastBatchTts.filename := Py.VStr "hello.mp3";
       TypecastBatchTts.model := Py.VStr "ssfm-v21";
       TypecastBatchTts.voice_id := Py.VStr "tc_1";
       TypecastBatchTts.language := Py.VStr " EN-us ";
       TypecastBatchTts.output_format := Py.VStr "mp3";
       TypecastBatchTts.prompt :=
         [("emotion_preset", Py.VStr "happy"); ("style", Py.VStr "loud")];
       TypecastBatchTts.output :=
         [("volume", Py.VInt volume); ("pitch", Py.VInt 2);
          ("tempo", Py.VNone); ("bitrate", Py.VInt 320)] |} in
  let req :=
    Py.VDict [("text", Py.VStr "Hello there"); ("model", Py.VStr "ssfm-v21");
              ("voice_id", Py.VStr "tc_1");
              ("language", Py.VStr "LanguageCode.ENG");
              ("prompt", Py.VDict [("emotion_preset", Py.VStr "happy")]);
              ("output", Py.VDict [("audio_format", Py.VStr "mp3");
                                   ("volume", Py.VInt 120)])] in
  TypecastBatchTts.output_kwargs (item 120)
  = [("audio_format", Py.VStr "mp3"); ("volume", Py.VInt 120);
     ("pitch", Py.VInt 2)]
  /\ @TypecastBatchTts.build_tts_request E (item 120) = inr req
  /\ (exists lang p o,
        @sdk_TTSRequest E
          [("text", TypecastBatchTts.text (item 120));
           ("model", TypecastBatchTts.model (item 120));
           ("voice_id", TypecastBatchTts.voice_id (item 120));
           ("language", lang); ("prompt", p); ("output", o)] = inr req
        /\ @sdk_Output E (TypecastBatchTts.output_kwargs (item 120)) = inr o)
  /\ @sdk_Output E (TypecastBatchTts.output_kwargs (item 500))
     = inl (Py.Exn "ValidationError" "volume")
  /\ exists e', @TypecastBatchTts.build_tts_request E (item 500) = inl e'.
Proof.
  intros E item req.
  assert (Hb : @TypecastBatchTts.build_tts_request E (item 120) = inr req)
    by (vm_compute; reflexivity).
  assert (Ho : @sdk_Output E (TypecastBatchTts.output_kwargs (item 500))
               = inl (Py.Exn "ValidationError" "volume"))
    by (vm_compute; reflexivity).
  split; [vm_compute; reflexivity|]. split; [exact Hb|].
  destruct (@only_known_settings_are_sent E (item 120)) as (Hreq & _ & _).
  destruct (@only_known_settings_are_sent E (item 500)) as (_ & _ & Hno).
  split.
  - destruct (Hreq req Hb) as (lang & p & o & Hr & _ & Hout & _).
    exists lang, p, o. split; [exact Hr | exact Hout].
  - split; [exact Ho|]. exact (Hno _ Ho).
Defined.

(** ** Which files a run changes *)

Section Footprint.
Context `{Externals}.

Lemma files_step_wrote force out_path w w' :
  files_step out_path w w' ->
  Fs.exists_ (files w) (dirs w) out_path && negb force = false ->
  wrote force out_path w w'.
Proof.
  intros [Hd Hs] Hg. split; [exact Hd|].
  destruct Hs as [[Hf _]|[(k & c & n & req & resp & Hk & _ & _ & Hf & _)
                         |(k & c & n & req & resp & Hk & _ & Hf & _)]].
  - by left.
  - right. split; [done|]. exists k, (audio_data resp). by split; [|left].
  - right. split; [done|]. exists k, (audio_data resp). by split; [|right].
Qed.

Lemma sampled_body_wrote force dry sleep cli out total st i subdir clip_id text :
  wrote force (Fs.joinpath subdir (clip_id +:+ extension Config.DEFAULTS))
    (world st)
    (world (sampled_body force dry sleep Config.DEFAULTS cli out total st
              (i, (subdir, clip_id, text)))).
Proof.
  pose proof (sampled_body_files force dry sleep cli out total st i subdir
                clip_id text) as Hs.
  destruct (Fs.exists_ (files (world st)) (dirs (world st))
              (Fs.joinpath subdir (clip_id +:+ extension Config.DEFAULTS))
            && negb force) eqn:Hg.
  - unfold sampled_body. rewrite Hg. by split; [|left].
  - by apply files_step_wrote.
Qed.

Lemma voice_body_wrote (args : GenerateVoiceAssets.Args) cli total st i
    group_key subdir clip_id text :
  wrote (GenerateVoiceAssets.force args)
    (Fs.joinpath subdir (clip_id +:+ extension Config.DEFAULTS))
    (world st)
    (world (GenerateVoiceAssets.body args Config.DEFAULTS cli total st
              (i, (group_key, subdir, clip_id, text)))).
Proof.
  pose proof (voice_body_files args cli total st i group_key subdir
                clip_id text) as Hs.
  destruct (Fs.exists_ (files (world st)) (dirs (world st))
              (Fs.joinpath subdir (clip_id +:+ extension Config.DEFAULTS))
            && negb (GenerateVoiceAssets.force args)) eqn:Hg.
  - unfold GenerateVoiceAssets.body. rewrite Hg. by split; [|left].
  - by apply files_step_wrote.
Qed.

Lemma wrote_keeps out_path w w' q content :
  wrote false out_path w w' -> is_destination q ->
  files w !! q = Some content -> files w' !! q = Some content.
Proof.
  intros [_ [->|(Hg & k & data & Hk & Hf)]] Hq Hc; [done|].
  rewrite andb_true_r in Hg. unfold Fs.exists_ in Hg.
  unfold file_of in Hk. rewrite Hk in Hg.
  apply orb_false_iff in Hg as [Hg _]. apply bool_decide_eq_false in Hg.
  assert (k <> q) by (intros ->; apply Hg; by rewrite Hc).
  pose proof (tmp_key_not_destination k q Hq).
  destruct Hf as [-> | ->]; unfold atomic_final;
    by rewrite ?lookup_insert_ne, ?lookup_delete_ne, ?lookup_insert_ne.
Qed.

Lemma wrote_elsewhere force out_path w w' q :
  wrote force out_path w w' ->
  (forall k, file_of w out_path = Some k -> q <> k /\ q <> tmp_key k) ->
  files w' !! q = files w !! q.
Proof.
  intros [_ [->|(_ & k & data & Hk & Hf)]] Hq; [done|].
  destruct (Hq k Hk) as [H1 H2].
  destruct Hf as [-> | ->]; unfold atomic_final;
    by rewrite ?lookup_insert_ne, ?lookup_delete_ne, ?lookup_insert_ne.
Qed.

Lemma enumerate1_elem {A} (plan : list A) i x :
  (i, x) ∈ enumerate1 plan -> x ∈ plan.
Proof.
  intros Hin. apply list_elem_of_In in Hin. apply in_combine_r in Hin.
  by apply list_elem_of_In.
Qed.

Lemma enumerate1_Forall_elem {A} (plan : list A) :
  Forall (fun ix => ix.2 ∈ plan) (enumerate1 plan).
Proof.
  apply Forall_forall. intros [i x] Hin. by eapply enumerate1_elem.
Qed.

Lemma sampled_loop_keeps_existing dry sleep cli out plan w :
  keeps_existing w
    (sampled_loop false dry sleep Config.DEFAULTS cli out plan w).
Proof.
  intros q content Hq Hc. unfold sampled_loop, for_each.
  apply (iterate_body_inv _
           (fun st => files (world st) !! q = Some content) (fun _ => True));
    [|by apply Forall_true|done].
  intros st [i [[subdir clip_id] text]] Hst _ _.
  eapply wrote_keeps; [apply sampled_body_wrote|done|done].
Qed.

Lemma elem_of_files_of w ps p k :
  p ∈ ps -> file_of w p = Some k -> k ∈ files_of w ps.
Proof. intros Hp Hk. apply list_elem_of_omap. eauto. Qed.

Lemma sampled_loop_touches_only force dry sleep cli out plan w :
  touches_only (files_of w (map dest_of plan)) w
    (sampled_loop force dry sleep Config.DEFAULTS cli out plan w).
Proof.
  intros q Hq Ht. unfold sampled_loop, for_each.
  apply (iterate_body_inv _
           (fun st => dirs (world st) = dirs w
                      /\ files (world st) !! q = files w !! q)
           (fun ix => ix.2 ∈ plan));
    [|apply enumerate1_Forall_elem|done].
  intros st [i [[subdir clip_id] text]] [Hds Hst] _ Hin. simpl in Hin.
  pose proof (sampled_body_wrote force dry sleep cli out (length plan) st i
                subdir clip_id text) as Hw.
  split; [destruct Hw as [Hd _]; exact (eq_trans Hd Hds)|].
  rewrite <- Hst. eapply wrote_elsewhere; [exact Hw|].
  intros k Hk. unfold file_of in Hk. rewrite Hds in Hk.
  assert (Hin' : k ∈ files_of w (map dest_of plan)).
  { eapply elem_of_files_of; [|exact Hk].
    apply list_elem_of_In, in_map_iff. eexists.
    split; [|by apply list_elem_of_In]. reflexivity. }
  split.
  - intros ->. by apply Hq.
  - intros ->. apply Ht. by apply list_elem_of_In, in_map, list_elem_of_In.
Qed.

Lemma voice_generate_keeps_existing (args : GenerateVoiceAssets.Args) cli plan w :
  GenerateVoiceAssets.force args = false ->
  keeps_existing w (GenerateVoiceAssets.generate args cli plan w).
Proof.
  intros Hf q content Hq Hc. unfold GenerateVoiceAssets.generate, for_each.
  apply (iterate_body_inv _
           (fun st => files (world st) !! q = Some content) (fun _ => True));
    [|by apply Forall_true|done].
  intros st [i [[[group_key subdir] clip_id] text]] Hst _ _.
  eapply wrote_keeps; [|done|done]. rewrite <- Hf. apply voice_body_wrote.
Qed.

Lemma voice_generate_touches_only (args : GenerateVoiceAssets.Args) cli plan w :
  touches_only (files_of w (map GenerateVoiceAssets.dest plan)) w
    (GenerateVoiceAssets.generate args cli plan w).
Proof.
  intros q Hq Ht. unfold GenerateVoiceAssets.generate, for_each.
  apply (iterate_body_inv _
           (fun st => dirs (world st) = dirs w
                      /\ files (world st) !! q = files w !! q)
           (fun ix => ix.2 ∈ plan));
    [|apply enumerate1_Forall_elem|done].
  intros st [i [[[group_key subdir] clip_id] text]] [Hds Hst] _ Hin.
  simpl in Hin.
  pose proof (voice_body_wrote args cli (length plan) st i group_key
                subdir clip_id text) as Hw.
  split; [destruct Hw as [Hd _]; exact (eq_trans Hd Hds)|].
  rewrite <- Hst. eapply wrote_elsewhere; [exact Hw|].
  intros k Hk. unfold file_of in Hk. rewrite Hds in Hk.
  assert (Hin' : k ∈ files_of w (map GenerateVoiceAssets.dest plan)).
  { eapply elem_of_files_of; [|exact Hk].
    apply list_elem_of_In, in_map_iff. eexists.
    split; [|by apply list_elem_of_In]. reflexivity. }
  split.
  - intros ->. by apply Hq.
  - intros ->. apply Ht. by apply list_elem_of_In, in_map, list_elem_of_In.
Qed.

(** X11.  Without [--force] a run changes no file that was already at a
    destination, in each of the three scripts built on config.py. *)
Theorem existing_files_are_kept :
  (forall (args : GenerateColors.Args) cli out plan w,
     GenerateColors.force args = false ->
     keeps_existing w (GenerateColors.generate args cli out plan w))
  /\ (forall (args : GenerateVoiceAssetsSample.Args) cli out plan w,
       GenerateVoiceAssetsSample.force args = false ->
       keeps_existing w
         (GenerateVoiceAssetsSample.generate args cli out plan w))
  /\ (forall (args : GenerateVoiceAssets.Args) cli plan w,
       GenerateVoiceAssets.force args = false ->
       keeps_existing w (GenerateVoiceAssets.generate args cli plan w)).
Proof.
  split; [|split].
  - intros args cli out plan w Hf. unfold GenerateColors.generate.
    rewrite Hf. apply sampled_loop_keeps_existing.
  - intros args cli out plan w Hf. unfold GenerateVoiceAssetsSample.generate.
    rewrite Hf. apply sampled_loop_keeps_existing.
  - intros args cli plan w Hf. by apply voice_generate_keeps_existing.
Qed.

(** X12.  A run changes no file but the destinations of its plan and their
    temporary siblings: the manifest and every other file are as before,
    with or without [--force]. *)
Theorem only_destinations_are_written :
  (forall (args : GenerateColors.Args) cli out plan w,
     touches_only (files_of w (map dest_of plan)) w
       (GenerateColors.generate args cli out plan w))
  /\ (forall (args : GenerateVoiceAssetsSample.Args) cli out plan w,
       touches_only (files_of w (map dest_of plan)) w
         (GenerateVoiceAssetsSample.generate args cli out plan w))
  /\ (forall (args : GenerateVoiceAssets.Args) cli plan w,
       touches_only (files_of w (map GenerateVoiceAssets.dest plan)) w
         (GenerateVoiceAssets.generate args cli plan w)).
Proof.
  split; [|split].
  - intros. apply sampled_loop_touches_only.
  - intros. apply sampled_loop_touches_only.
  - intros. apply voice_generate_touches_only.
Qed.

End Footprint.

Lemma existing_files_are_kept_witness :
  let E := Demo.ext Demo.colors_doc Demo.svc_ok in
  let out := Demo.at_cwd "out" in
  let plan := GenerateColors.build_plan out
                [("red_long", "Red is bold."); ("blue_long", "Blue is calm.")]
                [] in
  let red := ["w"; "out"; "long"; "red_long.mp3"] in
  let blue := ["w"; "out"; "long"; "blue_long.mp3"] in
  let w := Demo.world_with {[ red := [1; 2] ]} in
  let r := @GenerateColors.generate E (Demo.colors_args false) (Some "k")
             out plan w in
  GenerateColors.force (Demo.colors_args false) = false
  /\ is_destination red
  /\ files w !! red = Some [1; 2]
  /\ files (world r) !! red = Some [1; 2]
  /\ files (world r) !! blue = Some [73; 68; 51].
Proof.
  intros E out plan red blue w r.
  assert (Hd : is_destination red) by (exists "red_long"; reflexivity).
  assert (Hw : files w !! red = Some [1; 2]) by (vm_compute; reflexivity).
  destruct (@existing_files_are_kept E) as (Hc & _).
  split; [reflexivity|]. split; [exact Hd|]. split; [exact Hw|].
  split.
  - exact (Hc (Demo.colors_args false) (Some "k") out plan w eq_refl
              red [1; 2] Hd Hw).
  - vm_compute. reflexivity.
Defined.

Lemma only_destinations_are_written_witness :
  let E := Demo.ext Demo.colors_doc Demo.svc_ok in
  let out := Demo.at_cwd "out" in
  let plan := GenerateColors.build_plan out
                [("red_long", "Red is bold.")] [] in
  let manifest := ["w"; "colors.yaml"] in
  let w := Demo.world_with {[ manifest := [7; 8; 9] ]} in
  let r := @GenerateColors.generate E (Demo.colors_args false) (Some "k")
             out plan w in
  (manifest ∉ files_of w (map dest_of plan))
  /\ (manifest ∉ map tmp_key (files_of w (map dest_of plan)))
  /\ files (world r) !! manifest = files w !! manifest.
Proof.
  intros E out plan manifest w r.
  assert (H1 : manifest ∉ files_of w (map dest_of plan)).
  { apply (bool_decide_unpack _). vm_compute. exact I. }
  assert (H2 : manifest ∉ map tmp_key (files_of w (map dest_of plan))).
  { apply (bool_decide_unpack _). vm_compute. exact I. }
  destruct (@only_destinations_are_written E) as (Hc & _).
  split; [exact H1|]. split; [exact H2|].
  exact (Hc (Demo.colors_args false) (Some "k") out plan w manifest H1 H2).
Defined.

(** ** Complete runs and running again *)

Section Completion.
Context `{Externals}.

Lemma exists_persists fs fs' ds p :
  (forall k, Fs.locate ds p = Some k -> is_destination k) ->
  (forall k, is_destination k -> is_Some (fs !! k) -> is_Some (fs' !! k)) ->
  Fs.exists_ fs ds p = true -> Fs.exists_ fs' ds p = true.
Proof.
  intros Hd Hkeep. unfold Fs.exists_.
  destruct (Fs.locate ds p) as [k|]; [|done].
  intros Hex. apply orb_true_iff in Hex as [Hf|Hdir].
  - apply bool_decide_eq_true in Hf. apply orb_true_iff. left.
    apply bool_decide_eq_true. apply Hkeep; [by apply Hd|done].
  - apply orb_true_iff. by right.
Qed.

Lemma files_step_keeps out_path w w' k :
  files_step out_path w w' -> is_destination k ->
  is_Some (files w !! k) -> is_Some (files w' !! k).
Proof.
  intros [_ [[Hf _]|[(k0 & c & n & req & resp & _ & _ & _ & Hf & _)
                    |(k0 & c & n & req & resp & _ & _ & Hf & _)]]] Hk Hs.
  - by rewrite Hf.
  - rewrite Hf. pose proof (tmp_key_not_destination k0 k Hk).
    by rewrite lookup_insert_ne.
  - rewrite Hf. unfold atomic_final.
    destruct (decide (k0 = k)) as [->|Hne]; [by rewrite lookup_insert_eq|].
    pose proof (tmp_key_not_destination k0 k Hk).
    by rewrite lookup_insert_ne, lookup_delete_ne, lookup_insert_ne.
Qed.

Lemma stored_exists out_path w w' :
  stored out_path w w' -> dirs w' = dirs w ->
  Fs.exists_ (files w') (dirs w) out_path = true.
Proof.
  intros (k & c & n & req & resp & Hk & _ & Hf & _) Hd.
  unfold Fs.exists_. unfold file_of in Hk. rewrite Hk, Hf.
  unfold atomic_final. rewrite lookup_insert_eq. by rewrite bool_decide_true.
Qed.

Lemma iterate_body_complete {A} (body : Run -> A -> Run) (dest : A -> Path.t)
    (good : A -> Prop) :
  (forall ix ds k, Fs.locate ds (dest ix) = Some k -> is_destination k) ->
  (forall st ix, raised st = None -> step_completes body dest good st ix) ->
  forall its st, raised st = None ->
    failed st <= failed (iterate_body body its st)
    /\ dirs (world (iterate_body body its st)) = dirs (world st)
    /\ (forall k, is_destination k ->
          is_Some (files (world st) !! k) ->
          is_Some (files (world (iterate_body body its st)) !! k))
    /\ (raised (iterate_body body its st) = None ->
        failed (iterate_body body its st) = failed st ->
        forall ix, ix ∈ its -> good ix ->
          Fs.exists_ (files (world (iterate_body body its st)))
                     (dirs (world st)) (dest ix) = true).
Proof.
  intros Hdest Hstep its.
  induction its as [|ix its IH]; intros st Hr.
  - simpl. split; [lia|]. split; [done|]. split; [done|].
    intros _ _ ix Hin. by apply elem_of_nil in Hin.
  - rewrite iterate_body_cons, Hr.
    destruct (Hstep st ix Hr) as (Hf1 & Hd1 & Hp1 & Hg1).
    destruct (raised (body st ix)) as [e|] eqn:Hr1.
    + rewrite (iterate_body_raised _ _ _ e Hr1).
      split; [done|]. split; [done|]. split; [done|].
      intros Hnone. congruence.
    + destruct (IH (body st ix) Hr1) as (Hf2 & Hd2 & Hp2 & Hg2).
      split; [lia|]. split; [congruence|]. split; [by auto|].
      intros Hnone Hsame ix' Hin Hgood.
      assert (failed (body st ix) = failed st) as Hsame1 by lia.
      assert (failed (iterate_body body its (body st ix))
              = failed (body st ix)) as Hsame2 by lia.
      apply elem_of_cons in Hin as [->|Hin].
      * eapply exists_persists; [apply Hdest|apply Hp2|]. by apply Hg1.
      * rewrite <- Hd1. by apply Hg2.
Qed.

Lemma sampled_body_completes force sleep cli out total st ix :
  step_completes (sampled_body force false sleep Config.DEFAULTS cli out total)
    (fun ix => dest_of ix.2) (fun _ => True) st ix.
Proof.
  destruct ix as [i [[subdir clip_id] text]].
  pose proof (sampled_body_files force false sleep cli out total st i subdir
                clip_id text) as Hstep.
  unfold step_completes, dest_of. simpl fst. simpl snd.
  split; [|split; [apply Hstep|split;
                   [intros k; by apply (files_step_keeps _ _ _ k Hstep)|]]].
  - unfold sampled_body. case_match; [simpl; lia|].
    case_match; [simpl; lia|].
    match goal with |- context [synth_and_store ?a ?b ?c ?d' ?e' ?f ?g] =>
      destruct (synth_and_store_outcome a b d' subdir clip_id f g)
        as [(_ & Hf & _)|(_ & e & Hf & _)] end; simpl in Hf; lia.
  - clear Hstep. unfold sampled_body.
    destruct (Fs.exists_ _ _ _ && negb force) eqn:Hg.
    + apply andb_true_iff in Hg as [Hex _]. simpl. done.
    + case_match; [simpl; discriminate|].
      match goal with |- context [synth_and_store ?a ?b ?c ?d' ?e' ?f ?g] =>
        destruct (synth_and_store_frame a b c d' e' f g) as (Hd & _);
        destruct (synth_and_store_outcome a b d' subdir clip_id f g)
          as [(_ & _ & _ & Hs)|(_ & e & Hf & _)] end.
      * intros _ _ _. by apply (stored_exists _ _ _ Hs).
      * simpl in Hf. intros _ Hsame. lia.
Qed.

Lemma voice_body_completes (args : GenerateVoiceAssets.Args) cli total st ix :
  GenerateVoiceAssets.dry_run args = false ->
  step_completes (GenerateVoiceAssets.body args Config.DEFAULTS cli total)
    (fun ix => GenerateVoiceAssets.dest ix.2)
    (fun ix => GenerateVoiceAssets.is_blank ix.2.2 = false) st ix.
Proof.
  destruct ix as [i [[[group_key subdir] clip_id] text]]. intros Hdry.
  pose proof (voice_body_files args cli total st i group_key subdir
                clip_id text) as Hstep.
  unfold step_completes, GenerateVoiceAssets.dest. simpl fst. simpl snd.
  split; [|split; [apply Hstep|split;
                   [intros k; by apply (files_step_keeps _ _ _ k Hstep)|]]].
  - unfold GenerateVoiceAssets.body. rewrite Hdry.
    case_match; [simpl; lia|]. case_match; [simpl; lia|].
    match goal with |- context [synth_and_store ?a ?b ?c ?d' ?e' ?f ?g] =>
      destruct (synth_and_store_outcome a b d' subdir clip_id f g)
        as [(_ & Hf & _)|(_ & e & Hf & _)] end; simpl in Hf; lia.
  - clear Hstep. unfold GenerateVoiceAssets.body. rewrite Hdry.
    destruct (Fs.exists_ _ _ _ && negb _) eqn:Hg.
    + apply andb_true_iff in Hg as [Hex _]. simpl. done.
    + destruct (GenerateVoiceAssets.is_blank text) eqn:Hb;
        [intros _ _ Hgood; discriminate|].
      match goal with |- context [synth_and_store ?a ?b ?c ?d' ?e' ?f ?g] =>
        destruct (synth_and_store_frame a b c d' e' f g) as (Hd & _);
        destruct (synth_and_store_outcome a b d' subdir clip_id f g)
          as [(_ & _ & _ & Hs)|(_ & e & Hf & _)] end.
      * intros _ _ _. by apply (stored_exists _ _ _ Hs).
      * simpl in Hf. intros _ Hsame. lia.
Qed.

Lemma enumerate1_Forall_snd {A} (P : A -> Prop) (plan : list A) :
  Forall P plan -> Forall (fun ix => P ix.2) (enumerate1 plan).
Proof.
  intros HP. apply Forall_forall. intros [i x] Hin.
  apply enumerate1_elem in Hin. rewrite Forall_forall in HP. by apply HP.
Qed.

Lemma elem_combine_seq {A} (plan : list A) x n :
  x ∈ plan -> exists i, (i, x) ∈ combine (seq n (length plan)) plan.
Proof.
  revert n. induction plan as [|y plan IH]; intros n Hin;
    [by apply elem_of_nil in Hin|].
  simpl. apply elem_of_cons in Hin as [->|Hin].
  - exists n. by left.
  - destruct (IH (S n) Hin) as [i Hi]. exists i. by right.
Qed.

Lemma elem_enumerate1 {A} (plan : list A) x :
  x ∈ plan -> exists i, (i, x) ∈ enumerate1 plan.
Proof. apply elem_combine_seq. Qed.

Lemma sampled_loop_complete force sleep cli out plan w :
  let r := sampled_loop force false sleep Config.DEFAULTS cli out plan w in
  raised r = None -> failed r = 0 ->
  dirs (world r) = dirs w /\ all_present (map dest_of plan) r.
Proof.
  intros r Hr Hf.
  destruct (iterate_body_complete
              (sampled_body force false sleep Config.DEFAULTS cli out
                            (length plan))
              (fun ix => dest_of ix.2) (fun _ => True))
    with (its := enumerate1 plan) (st := start w)
    as (_ & Hd & _ & Hall).
  - intros [i [[subdir clip_id] text]] ds k Hk.
    by eapply located_destination.
  - intros st ix _. apply sampled_body_completes.
  - done.
  - split; [exact Hd|]. intros q Hq.
    apply list_elem_of_In, in_map_iff in Hq as (e & <- & He).
    apply list_elem_of_In, elem_enumerate1 in He as [i Hi].
    unfold r, sampled_loop, for_each in *. rewrite Hd.
    exact (Hall Hr Hf (i, e) Hi I).
Qed.

Lemma voice_generate_complete (args : GenerateVoiceAssets.Args) cli plan w :
  GenerateVoiceAssets.dry_run args = false ->
  let r := GenerateVoiceAssets.generate args cli plan w in
  raised r = None -> failed r = 0 ->
  dirs (world r) = dirs w /\ all_present (spoken plan) r.
Proof.
  intros Hdry r Hr Hf.
  destruct (iterate_body_complete
              (GenerateVoiceAssets.body args Config.DEFAULTS cli (length plan))
              (fun ix => GenerateVoiceAssets.dest ix.2)
              (fun ix => GenerateVoiceAssets.is_blank ix.2.2 = false))
    with (its := enumerate1 plan) (st := start w)
    as (_ & Hd & _ & Hall).
  - intros [i [[[group_key subdir] clip_id] text]] ds k Hk.
    by eapply located_destination.
  - intros st ix _. by apply voice_body_completes.
  - done.
  - split; [exact Hd|]. intros q Hq. unfold spoken in Hq.
    apply list_elem_of_In, in_map_iff in Hq as (e & <- & He).
    apply list_elem_of_In, list_elem_of_filter in He as [Hb He].
    apply elem_enumerate1 in He as [i Hi].
    unfold r, GenerateVoiceAssets.generate, for_each in *. rewrite Hd.
    exact (Hall Hr Hf (i, e) Hi Hb).
Qed.

(** X13.  When no exception left the loop of a real run and the run reports
    no failure, the destination of every entry of its plan exists; in
    generate_voice_assets.py, of every entry that has a text to speak. *)
Theorem run_without_failure_is_complete :
  (forall (args : GenerateColors.Args) cli out plan w,
     let r := GenerateColors.generate args cli out plan w in
     GenerateColors.dry_run args = false ->
     raised r = None -> failed r = 0 ->
     all_present (map dest_of plan) r)
  /\ (forall (args : GenerateVoiceAssetsSample.Args) cli out plan w,
       let r := GenerateVoiceAssetsSample.generate args cli out plan w in
       GenerateVoiceAssetsSample.dry_run args = false ->
       raised r = None -> failed r = 0 ->
       all_present (map dest_of plan) r)
  /\ (forall (args : GenerateVoiceAssets.Args) cli plan w,
       let r := GenerateVoiceAssets.generate args cli plan w in
       GenerateVoiceAssets.dry_run args = false ->
       raised r = None -> failed r = 0 ->
       all_present (spoken plan) r).
Proof.
  split; [|split].
  - intros args cli out plan w r Hdry Hr Hf.
    unfold r, GenerateColors.generate in *. rewrite Hdry in *.
    by apply sampled_loop_complete.
  - intros args cli out plan w r Hdry Hr Hf.
    unfold r, GenerateVoiceAssetsSample.generate in *. rewrite Hdry in *.
    by apply sampled_loop_complete.
  - intros args cli plan w r Hdry Hr Hf.
    by apply voice_generate_complete.
Qed.

End Completion.

Lemma run_without_failure_is_complete_witness :
  let E := Demo.ext Demo.colors_doc Demo.svc_ok in
  let out := Demo.at_cwd "out" in
  let plan := GenerateColors.build_plan out
                [("red_long", "Red is bold."); ("blue_long", "Blue is calm.")]
                [("red_short", "Red.")] in
  let r := @GenerateColors.generate E (Demo.colors_args false) (Some "k")
             out plan (Demo.world_with ∅) in
  GenerateColors.dry_run (Demo.colors_args false) = false
  /\ raised r = None
  /\ failed r = 0
  /\ all_present (map dest_of plan) r.
Proof.
  intros E out plan r.
  assert (Hr : raised r = None) by (vm_compute; reflexivity).
  assert (Hf : failed r = 0) by (vm_compute; reflexivity).
  destruct (@run_without_failure_is_complete E) as (Hc & _).
  split; [reflexivity|]. split; [exact Hr|]. split; [exact Hf|].
  exact (Hc (Demo.colors_args false) (Some "k") out plan
            (Demo.world_with ∅) eq_refl Hr Hf).
Defined.

Section RunningAgain.
Context `{Externals}.

Lemma iterate_all_skipped {A} (body : Run -> A -> Run)
    (Q : gmap (list string) (list Z) -> gset (list string) -> A -> Prop) :
  (forall st ix, raised st = None ->
     Q (files (world st)) (dirs (world st)) ix -> step_skips body st ix) ->
  forall its st, raised st = None ->
    Forall (Q (files (world st)) (dirs (world st))) its ->
    untouched (world st) (world (iterate_body body its st))
    /\ skipped (iterate_body body its st)
       = skipped st + Z.of_nat (length its)
    /\ generated (iterate_body body its st) = generated st
    /\ failed (iterate_body body its st) = failed st
    /\ raised (iterate_body body its st) = None.
Proof.
  intros Hstep its.
  induction its as [|ix its IH]; intros st Hr HQ.
  - simpl. unfold untouched. repeat split; try done. lia.
  - inversion HQ as [|? ? Hix Hrest]; subst.
    rewrite iterate_body_cons, Hr.
    destruct (Hstep st ix Hr Hix)
      as ((Hf & Ho & Hq) & Hd & Hs & Hg & Hfl & Hr1).
    destruct (IH (body st ix) Hr1)
      as ((Hf2 & Ho2 & Hq2) & Hs2 & Hg2 & Hfl2 & Hr2).
    { by rewrite Hf, Hd. }
    split; [unfold untouched; by rewrite Hf2, Ho2, Hq2|].
    split; [rewrite Hs2, Hs; simpl length; lia|].
    split; [by rewrite Hg2|]. split; [by rewrite Hfl2|]. done.
Qed.

Lemma sampled_loop_again dry sleep cli out plan w :
  (forall q, q ∈ map dest_of plan ->
             Fs.exists_ (files w) (dirs w) q = true) ->
  all_skipped (length plan) w
    (sampled_loop false dry sleep Config.DEFAULTS cli out plan w).
Proof.
  intros Hall. unfold all_skipped, sampled_loop, for_each.
  destruct (iterate_all_skipped
              (sampled_body false dry sleep Config.DEFAULTS cli out
                            (length plan))
              (fun fs ds ix => Fs.exists_ fs ds (dest_of ix.2) = true))
    with (its := enumerate1 plan) (st := start w)
    as (Hu & Hs & Hg & Hf & Hr).
  - intros st [i [[subdir clip_id] text]] Hr Hex.
    unfold step_skips, sampled_body, dest_of in *. simpl in Hex.
    rewrite Hex. simpl. unfold untouched. repeat split; done.
  - done.
  - apply enumerate1_Forall_snd
      with (P := fun e => Fs.exists_ (files w) (dirs w) (dest_of e) = true).
    apply Forall_forall. intros e He. apply Hall.
    apply list_elem_of_In, in_map_iff. exists e. split; [done|].
    by apply list_elem_of_In.
  - rewrite length_enumerate1 in Hs. simpl in Hu, Hs, Hg, Hf.
    split; [exact Hu|]. split; [lia|]. split; [exact Hg|].
    split; [exact Hf|exact Hr].
Qed.

Lemma voice_generate_again (args : GenerateVoiceAssets.Args) cli plan w :
  GenerateVoiceAssets.force args = false ->
  (forall q, q ∈ spoken plan -> Fs.exists_ (files w) (dirs w) q = true) ->
  all_skipped (length plan) w (GenerateVoiceAssets.generate args cli plan w).
Proof.
  intros Hforce Hall. unfold all_skipped, GenerateVoiceAssets.generate, for_each.
  destruct (iterate_all_skipped
              (GenerateVoiceAssets.body args Config.DEFAULTS cli (length plan))
              (fun fs ds ix =>
                 Fs.exists_ fs ds (GenerateVoiceAssets.dest ix.2) = true
                 \/ GenerateVoiceAssets.is_blank ix.2.2 = true))
    with (its := enumerate1 plan) (st := start w)
    as (Hu & Hs & Hg & Hf & Hr).
  - intros st [i [[[group_key subdir] clip_id] text]] Hr Hex.
    unfold step_skips, GenerateVoiceAssets.body, GenerateVoiceAssets.dest in *.
    simpl in Hex. rewrite Hforce.
    destruct (Fs.exists_ _ _ _) eqn:He; simpl.
    + unfold untouched. repeat split; done.
    + destruct Hex as [?|Hb]; [done|]. rewrite Hb. simpl.
      unfold untouched. repeat split; done.
  - done.
  - apply enumerate1_Forall_snd
      with (P := fun e =>
                   Fs.exists_ (files w) (dirs w) (GenerateVoiceAssets.dest e)
                   = true
                   \/ GenerateVoiceAssets.is_blank e.2 = true).
    apply Forall_forall. intros e He.
    destruct (GenerateVoiceAssets.is_blank e.2) eqn:Hb; [by right|left].
    apply Hall. unfold spoken.
    apply list_elem_of_In, in_map_iff. exists e. split; [done|].
    apply list_elem_of_In, list_elem_of_filter. done.
  - rewrite length_enumerate1 in Hs. simpl in Hu, Hs, Hg, Hf.
    split; [exact Hu|]. split; [lia|]. split; [exact Hg|].
    split; [exact Hf|exact Hr].
Qed.

(** X14.  After a real run whose loop no exception left and that reported
    no failure, running the same plan again without [--force] skips every
    entry: no request is made, no file is changed, no exception leaves the
    loop, and the run counts the whole plan as skipped. *)
Theorem running_again_skips_everything :
  (forall (args args' : GenerateColors.Args) cli cli' out plan w,
     let r := GenerateColors.generate args cli out plan w in
     GenerateColors.dry_run args = false ->
     raised r = None -> failed r = 0 ->
     GenerateColors.force args' = false ->
     all_skipped (length plan) (world r)
       (GenerateColors.generate args' cli' out plan (world r)))
  /\ (forall (args args' : GenerateVoiceAssetsSample.Args) cli cli' out plan w,
       let r := GenerateVoiceAssetsSample.generate args cli out plan w in
       GenerateVoiceAssetsSample.dry_run args = false ->
       raised r = None -> failed r = 0 ->
       GenerateVoiceAssetsSample.force args' = false ->
       all_skipped (length plan) (world r)
         (GenerateVoiceAssetsSample.generate args' cli' out plan (world r)))
  /\ (forall (args args' : GenerateVoiceAssets.Args) cli cli' plan w,
       let r := GenerateVoiceAssets.generate args cli plan w in
       GenerateVoiceAssets.dry_run args = false ->
       raised r = None -> failed r = 0 ->
       GenerateVoiceAssets.force args' = false ->
       all_skipped (length plan) (world r)
         (GenerateVoiceAssets.generate args' cli' plan (world r))).
Proof.
  split; [|split].
  - intros args args' cli cli' out plan w r Hdry Hr Hf Hforce.
    unfold GenerateColors.generate at 1. rewrite Hforce.
    apply sampled_loop_again.
    unfold r, GenerateColors.generate in *. rewrite Hdry in *.
    by apply sampled_loop_complete.
  - intros args args' cli cli' out plan w r Hdry Hr Hf Hforce.
    unfold GenerateVoiceAssetsSample.generate at 1. rewrite Hforce.
    apply sampled_loop_again.
    unfold r, GenerateVoiceAssetsSample.generate in *. rewrite Hdry in *.
    by apply sampled_loop_complete.
  - intros args args' cli cli' plan w r Hdry Hr Hf Hforce.
    apply voice_generate_again; [done|].
    by apply voice_generate_complete.
Qed.

End RunningAgain.

Lemma running_again_witness :
  let E := Demo.ext Demo.colors_doc Demo.svc_ok in
  let out := Demo.at_cwd "out" in
  let sl := [("red_long", "Red is bold."); ("blue_long", "Blue is calm.")] in
  let plan := GenerateColors.build_plan out sl [] in
  let r := @GenerateColors.generate E (Demo.colors_args false) (Some "k")
             out plan (Demo.world_with ∅) in
  GenerateColors.dry_run (Demo.colors_args false) = false
  /\ raised r = None
  /\ failed r = 0
  /\ GenerateColors.force (Demo.colors_args true) = false
  /\ all_skipped (length plan) (world r)
       (@GenerateColors.generate E (Demo.colors_args true) None out plan
          (world r)).
Proof.
  intros E out sl plan r.
  assert (Hr : raised r = None) by (vm_compute; reflexivity).
  assert (Hf : failed r = 0) by (vm_compute; reflexivity).
  destruct (@running_again_skips_everything E) as (Hc & _).
  split; [reflexivity|]. split; [exact Hr|]. split; [exact Hf|].
  split; [reflexivity|].
  exact (Hc (Demo.colors_args false) (Demo.colors_args true) (Some "k") None
            out plan (Demo.world_with ∅) eq_refl Hr Hf eq_refl).
Defined.

(** ** The loop of typecast_batch_tts.py *)

Section BatchLoop.
Context `{Externals}.

Lemma batch_loop_cons args cli out item items st :
  batch_loop args cli out (item :: items) st
  = batch_loop args cli out items
      (match TypecastBatchTts.braised st with
       | Some _ => st
       | None => TypecastBatchTts.body args cli out st item
       end).
Proof. reflexivity. Qed.

Lemma batch_loop_raised args cli out items st e :
  TypecastBatchTts.braised st = Some e ->
  batch_loop args cli out items st = st.
Proof.
  induction items as [|item items IH]; intros Hr; [done|].
  rewrite batch_loop_cons, Hr. by apply IH.
Qed.

Lemma insert_exists (fs : gmap (list string) (list Z)) ds k data q :
  Fs.exists_ fs ds q = true \/ Fs.locate ds q = Some k ->
  Fs.exists_ (<[k := data]> fs) ds q = true.
Proof.
  intros Hq. unfold Fs.exists_ in *.
  destruct (Fs.locate ds q) as [kq|]; [|by destruct Hq].
  destruct (decide (kq = k)) as [->|Hne].
  - rewrite lookup_insert_eq. by rewrite bool_decide_true.
  - rewrite lookup_insert_ne by done. destruct Hq as [Hq|Hq]; [done|].
    congruence.
Qed.

Lemma batch_body_progress args cli out st item :
  TypecastBatchTts.braised (TypecastBatchTts.body args cli out st item) = None ->
  batch_progress args out [item] 1 st
    (TypecastBatchTts.body args cli out st item).
Proof.
  unfold batch_progress, TypecastBatchTts.body.
  destruct (TypecastBatchTts.dest_of out item) as [e|dest] eqn:Hd; [done|].
  destruct (Fs.exists_ _ _ dest && negb _) eqn:Hg.
  - intros _. simpl. split; [done|]. split; [done|]. split; [done|].
    intros Hdry. split; [lia|]. split; [lia|]. intros item' Hin.
    apply list_elem_of_singleton in Hin as ->. exists dest.
    apply andb_true_iff in Hg as [Hex _]. by rewrite Hd.
  - destruct (TypecastBatchTts.dry_run args) eqn:Hdry.
    + intros _. simpl. split; [done|]. split; [done|]. done.
    + destruct (TypecastBatchTts.build_tts_request item) as [e|req]; [done|].
      destruct (text_to_speech cli _ req) as [e|resp]; [done|].
      unfold Fs.open_w. simpl.
      destruct (Fs.locate _ dest) as [k|] eqn:Hk; [|done]. simpl.
      destruct (Fs.is_dir _ k); [done|].
      intros _. simpl. split; [done|]. split; [done|]. split.
      * intros q Hq. apply insert_exists. by left.
      * intros _. split; [lia|]. split; [rewrite length_app; simpl; lia|].
        intros item' Hin. apply list_elem_of_singleton in Hin as ->.
        exists dest. rewrite Hd. split; [done|]. apply insert_exists.
        by right.
Qed.

Lemma batch_loop_progress args cli out items st :
  TypecastBatchTts.braised (batch_loop args cli out items st) = None ->
  TypecastBatchTts.braised st = None
  /\ batch_progress args out items (length items) st
       (batch_loop args cli out items st).
Proof.
  revert st. induction items as [|item items IH]; intros st Hnone.
  - simpl in *. split; [done|]. unfold batch_progress.
    split; [lia|]. split; [done|]. split; [done|].
    intros _. split; [lia|]. split; [lia|].
    intros item Hin. by apply elem_of_nil in Hin.
  - rewrite batch_loop_cons in *.
    destruct (TypecastBatchTts.braised st) as [e|] eqn:Hr.
    { rewrite (batch_loop_raised _ _ _ _ _ e Hr) in Hnone. congruence. }
    split; [done|].
    destruct (IH _ Hnone) as (Hr1 & Hp2 & Hds2 & Hx2 & Hreal2).
    destruct (batch_body_progress _ _ _ _ _ Hr1) as (Hp1 & Hds1 & Hx1 & Hreal1).
    unfold batch_progress. split; [simpl length; lia|].
    split; [congruence|]. split; [by auto|].
    intros Hdry.
    destruct (Hreal1 Hdry) as (Hc1 & Hq1 & Hd1).
    destruct (Hreal2 Hdry) as (Hc2 & Hq2 & Hd2).
    split; [simpl length; lia|]. split; [lia|].
    intros item' Hin. apply elem_of_cons in Hin as [->|Hin]; [|by apply Hd2].
    destruct (Hd1 item) as (dest & Hdest & Hex); [by left|].
    exists dest. split; [done|]. by apply Hx2.
Qed.

Lemma batch_loop_again args cli out items st :
  TypecastBatchTts.overwrite args = false ->
  TypecastBatchTts.braised st = None ->
  (forall item, item ∈ items ->
     exists dest,
       TypecastBatchTts.dest_of out item = inr dest
       /\ Fs.exists_ (files (TypecastBatchTts.bworld st))
                     (dirs (TypecastBatchTts.bworld st)) dest = true) ->
  batch_all_skipped (length items) st (batch_loop args cli out items st).
Proof.
  intros Ho. revert st.
  induction items as [|item items IH]; intros st Hr Hall.
  - simpl. unfold batch_all_skipped. repeat split; try done; lia.
  - rewrite batch_loop_cons, Hr.
    destruct (Hall item) as (dest & Hd & Hex); [by left|].
    assert (Hbody : TypecastBatchTts.body args cli out st item
                    = {| TypecastBatchTts.bworld := TypecastBatchTts.bworld st;
                         TypecastBatchTts.planned :=
                           TypecastBatchTts.planned st + 1;
                         TypecastBatchTts.bgenerated :=
                           TypecastBatchTts.bgenerated st;
                         TypecastBatchTts.bskipped :=
                           TypecastBatchTts.bskipped st + 1;
                         TypecastBatchTts.braised := None |}).
    { unfold TypecastBatchTts.body. by rewrite Hd, Hex, Ho. }
    rewrite Hbody.
    match goal with |- batch_all_skipped _ _ (batch_loop _ _ _ _ ?st1) =>
      destruct (IH st1) as (Hw & Hp & Hs & Hg & Hr') end; [done| |].
    { intros item' Hin. apply Hall. by right. }
    simpl in Hw, Hp, Hs, Hg. unfold batch_all_skipped.
    split; [done|]. split; [simpl length; lia|]. split; [simpl length; lia|].
    done.
Qed.

(** X15.  When the loop of typecast_batch_tts.py ends without an exception,
    [planned] is the number of manifest lines; in a real run every line
    was either generated or skipped, one request was made for each
    generated line, and every line has its file. *)
Theorem batch_counters_add_up args cli out items w :
  let r := TypecastBatchTts.generate args cli out items w in
  TypecastBatchTts.braised r = None ->
  TypecastBatchTts.planned r = Z.of_nat (length items)
  /\ (TypecastBatchTts.dry_run args = false ->
      TypecastBatchTts.bgenerated r + TypecastBatchTts.bskipped r
      = Z.of_nat (length items)
      /\ Z.of_nat (length (requests (TypecastBatchTts.bworld r)))
         = Z.of_nat (length (requests w)) + TypecastBatchTts.bgenerated r
      /\ forall item, item ∈ items ->
           exists dest,
             TypecastBatchTts.dest_of out item = inr dest
             /\ Fs.exists_ (files (TypecastBatchTts.bworld r))
                           (dirs (TypecastBatchTts.bworld r)) dest = true).
Proof.
  intros r Hnone.
  change (TypecastBatchTts.generate args cli out items w)
    with (batch_loop args cli out items (TypecastBatchTts.bstart w)) in r.
  destruct (batch_loop_progress args cli out items
              (TypecastBatchTts.bstart w) Hnone) as (_ & Hp & _ & _ & Hreal).
  fold r in Hp, Hreal.
  change (TypecastBatchTts.planned (TypecastBatchTts.bstart w)) with 0 in Hp.
  split; [lia|]. intros Hdry.
  destruct (Hreal Hdry) as (Hc & Hq & Hd).
  change (TypecastBatchTts.bgenerated (TypecastBatchTts.bstart w)) with 0
    in Hc, Hq.
  change (TypecastBatchTts.bskipped (TypecastBatchTts.bstart w)) with 0 in Hc.
  change (TypecastBatchTts.bworld (TypecastBatchTts.bstart w)) with w in Hq.
  split; [lia|]. split; [lia|exact Hd].
Qed.

(** X16.  After a real run of typecast_batch_tts.py that ended without an
    exception, running the same lines again without [--overwrite] skips every
    line and leaves the world as it was: no request, no write, no output
    line in the loop. *)
Theorem batch_running_again_skips_everything args args' cli cli' out items w :
  let r := TypecastBatchTts.generate args cli out items w in
  let r' := TypecastBatchTts.generate args' cli' out items
              (TypecastBatchTts.bworld r) in
  TypecastBatchTts.dry_run args = false ->
  TypecastBatchTts.braised r = None ->
  TypecastBatchTts.overwrite args' = false ->
  TypecastBatchTts.bworld r' = TypecastBatchTts.bworld r
  /\ TypecastBatchTts.planned r' = Z.of_nat (length items)
  /\ TypecastBatchTts.bskipped r' = Z.of_nat (length items)
  /\ TypecastBatchTts.bgenerated r' = 0
  /\ TypecastBatchTts.braised r' = None.
Proof.
  intros r r' Hdry Hnone Ho.
  change (TypecastBatchTts.generate args cli out items w)
    with (batch_loop args cli out items (TypecastBatchTts.bstart w)) in r.
  change (TypecastBatchTts.generate args' cli' out items
            (TypecastBatchTts.bworld r))
    with (batch_loop args' cli' out items
            (TypecastBatchTts.bstart (TypecastBatchTts.bworld r))) in r'.
  destruct (batch_loop_progress args cli out items
              (TypecastBatchTts.bstart w) Hnone) as (_ & _ & _ & _ & Hreal).
  destruct (Hreal Hdry) as (_ & _ & Hd). fold r in Hd.
  destruct (batch_loop_again args' cli' out items
              (TypecastBatchTts.bstart (TypecastBatchTts.bworld r)) Ho eq_refl Hd)
    as (Hw & Hp & Hs & Hg & Hr).
  fold r' in Hw, Hp, Hs, Hg, Hr.
  change (TypecastBatchTts.bworld
            (TypecastBatchTts.bstart (TypecastBatchTts.bworld r)))
    with (TypecastBatchTts.bworld r) in Hw.
  change (TypecastBatchTts.planned
            (TypecastBatchTts.bstart (TypecastBatchTts.bworld r)))
    with 0 in Hp.
  change (TypecastBatchTts.bskipped
            (TypecastBatchTts.bstart (TypecastBatchTts.bworld r)))
    with 0 in Hs.
  change (TypecastBatchTts.bgenerated
            (TypecastBatchTts.bstart (TypecastBatchTts.bworld r)))
    with 0 in Hg.
  split; [exact Hw|]. split; [lia|]. split; [lia|]. split; [exact Hg|exact Hr].
Qed.

End BatchLoop.

Lemma batch_counters_add_up_witness :
  let E := Demo.ext Demo.batch_doc Demo.svc_ok in
  let fs : gmap (list string) (list Z) := {[ ["w"; "voice_sets.yaml"] := [] ]} in
  let out_audio := Demo.at_cwd "out_audio" in
  let items :=
    match @TypecastBatchTts.load_manifest E (Demo.at_cwd "voice_sets.yaml") fs
            Demo.tree with
    | inr (_, items) => items
    | inl _ => []
    end in
  let r := @TypecastBatchTts.generate E (Demo.batch_args false) "k" out_audio
             items (Demo.world_with fs) in
  TypecastBatchTts.braised r = None
  /\ TypecastBatchTts.planned r = 2
  /\ TypecastBatchTts.bgenerated r + TypecastBatchTts.bskipped r = 2
  /\ Z.of_nat (length (requests (TypecastBatchTts.bworld r)))
     = 0 + TypecastBatchTts.bgenerated r.
Proof.
  intros E fs out_audio items r.
  assert (Hn : TypecastBatchTts.braised r = None) by (vm_compute; reflexivity).
  destruct (@batch_counters_add_up E (Demo.batch_args false) "k" out_audio
              items (Demo.world_with fs) Hn) as (Hp & Hreal).
  destruct (Hreal eq_refl) as (Hc & Hq & _).
  split; [exact Hn|]. split; [exact Hp|]. split; [exact Hc|exact Hq].
Defined.

Lemma batch_running_again_witness :
  let E := Demo.ext Demo.batch_doc Demo.svc_ok in
  let fs : gmap (list string) (list Z) := {[ ["w"; "voice_sets.yaml"] := [] ]} in
  let out_audio := Demo.at_cwd "out_audio" in
  let items :=
    match @TypecastBatchTts.load_manifest E (Demo.at_cwd "voice_sets.yaml") fs
            Demo.tree with
    | inr (_, items) => items
    | inl _ => []
    end in
  let r := @TypecastBatchTts.generate E (Demo.batch_args false) "k" out_audio
             items (Demo.world_with fs) in
  let r' := @TypecastBatchTts.generate E (Demo.batch_args true) "k" out_audio
              items (TypecastBatchTts.bworld r) in
  TypecastBatchTts.dry_run (Demo.batch_args false) = false
  /\ TypecastBatchTts.braised r = None
  /\ TypecastBatchTts.overwrite (Demo.batch_args true) = false
  /\ TypecastBatchTts.bgenerated r = 2
  /\ TypecastBatchTts.bworld r' = TypecastBatchTts.bworld r
  /\ TypecastBatchTts.bskipped r' = 2.
Proof.
  intros E fs out_audio items r r'.
  assert (Hn : TypecastBatchTts.braised r = None) by (vm_compute; reflexivity).
  destruct (@batch_running_again_skips_everything E (Demo.batch_args false)
              (Demo.batch_args true) "k" "k" out_audio items
              (Demo.world_with fs) eq_refl Hn eq_refl)
    as (Hw & _ & Hs & _).
  split; [reflexivity|]. split; [exact Hn|]. split; [reflexivity|].
  split; [vm_compute; reflexivity|]. split; [exact Hw|exact Hs].
Defined.

(** ** Digests *)

Lemma hex_digit_hex n : 0 <= n < 16 -> hex_char (Sha1.hex_digit n) = true.
Proof.
  intros Hn. replace n with (Z.of_nat (Z.to_nat n)) by lia.
  assert (Hk : (Z.to_nat n < 16)%nat) by lia.
  revert Hk. generalize (Z.to_nat n). intros k Hk.
  do 16 (destruct k as [|k]; [reflexivity|]). lia.
Qed.

Lemma hex_byte_hex b :
  0 <= b < 256 -> Forall (fun c => hex_char c = true) (Sha1.hex_byte b).
Proof.
  intros Hb. unfold Sha1.hex_byte.
  apply Forall_cons. split; [|apply Forall_cons; split; [|apply Forall_nil_2]].
  - apply hex_digit_hex. rewrite Z.shiftr_div_pow2 by lia.
    change (2 ^ 4) with 16. split.
    + apply Z.div_pos; lia.
    + apply Z.div_lt_upper_bound; lia.
  - apply hex_digit_hex. change 15 with (Z.ones 4).
    rewrite Z.land_ones by lia. apply Z.mod_pos_bound. lia.
Qed.

(** X17.  [sha1_text] always gives 40 lower-case hexadecimal digits, and
    [short_hash(s, n)] is made of the first [n] of them: it has [n]
    characters up to 40, and all 40 from there on. *)
Theorem digests_are_forty_hex_digits s n :
  0 <= n ->
  PyStr.len (GenerateVoiceAssets.sha1_text s) = 40
  /\ Forall (fun c => hex_char c = true)
            (PyStr.chars (GenerateVoiceAssets.sha1_text s))
  /\ TypecastBatchTts.short_hash s n
     = PyStr.prefix n (GenerateVoiceAssets.sha1_text s)
  /\ PyStr.len (TypecastBatchTts.short_hash s n) = Z.min n 40.
Proof.
  intros Hn. unfold GenerateVoiceAssets.sha1_text, TypecastBatchTts.short_hash,
    BatchNames.short_hash, PyStr.len.
  split; [by rewrite length_hexdigest|]. split; [|split; [done|]].
  - unfold Sha1.hexdigest, Sha1.digest. rewrite chars_str.
    apply List.Forall_forall. intros c Hc.
    apply in_flat_map in Hc as (b & Hb & Hc).
    apply in_flat_map in Hb as (x & _ & Hb).
    pose proof (be_bytes_range 4 x) as Hr. rewrite List.Forall_forall in Hr.
    pose proof (hex_byte_hex b (Hr b Hb)) as Hs.
    rewrite List.Forall_forall in Hs. by apply Hs.
  - unfold PyStr.prefix.
    rewrite <- length_chars, chars_str, length_take, length_chars,
      length_hexdigest. lia.
Qed.

Lemma digests_are_forty_hex_digits_witness :
  0 <= 8
  /\ PyStr.len (GenerateVoiceAssets.sha1_text "Hello there") = 40
  /\ PyStr.len (TypecastBatchTts.short_hash "Hello there" 8) = Z.min 8 40.
Proof.
  assert (H8 : 0 <= 8) by lia.
  destruct (digests_are_forty_hex_digits "Hello there" 8 H8)
    as (Hl & _ & _ & Hs).
  split; [exact H8|]. split; [exact Hl|exact Hs].
Defined.

(** ** Language codes *)

Section LanguageCodes.
Context `{Externals}.

(** X18.  [as_language_code] looks at its argument only after stripping white
    space and lower-casing it: two codes that agree after that are mapped to
    the same member, and a code it cannot map gives a ValueError that names
    the code as it was given. *)
Theorem language_code_ignores_case_and_spaces s s' :
  PyStr.lower (PyStr.strip s) = PyStr.lower (PyStr.strip s') ->
  (forall v, TypecastBatchTts.as_language_code (Py.VStr s) = inr v ->
             TypecastBatchTts.as_language_code (Py.VStr s') = inr v)
  /\ (forall e, TypecastBatchTts.as_language_code (Py.VStr s) = inl e ->
        e = Py.Exn "ValueError"
              ("Unsupported/unknown language code: " +:+ s
               +:+ ". Please map it in as_language_code().")
        /\ exists e', TypecastBatchTts.as_language_code (Py.VStr s') = inl e').
Proof.
  intros Heq. unfold TypecastBatchTts.as_language_code. rewrite <- Heq.
  split.
  - intros v. repeat case_match; intros Hv; try exact Hv; discriminate Hv.
  - intros e. repeat case_match; intros He; try discriminate He.
    injection He as <-. split; [done|]. by eexists.
Qed.

End LanguageCodes.

Lemma language_code_witness :
  let E := Demo.ext Demo.batch_doc Demo.svc_ok in
  PyStr.lower (PyStr.strip "  EN-us ") = PyStr.lower (PyStr.strip "en-us")
  /\ @TypecastBatchTts.as_language_code E (Py.VStr "  EN-us ")
     = inr (Py.VStr "LanguageCode.ENG")
  /\ @TypecastBatchTts.as_language_code E (Py.VStr "en-us")
     = inr (Py.VStr "LanguageCode.ENG").
Proof.
  intros E.
  assert (Hn : PyStr.lower (PyStr.strip "  EN-us ")
               = PyStr.lower (PyStr.strip "en-us")) by (vm_compute; reflexivity).
  assert (Hv : @TypecastBatchTts.as_language_code E (Py.VStr "  EN-us ")
               = inr (Py.VStr "LanguageCode.ENG")) by (vm_compute; reflexivity).
  split; [exact Hn|]. split; [exact Hv|].
  exact (proj1 (@language_code_ignores_case_and_spaces E "  EN-us " "en-us" Hn)
               (Py.VStr "LanguageCode.ENG") Hv).
Defined.

(** ** Listing the voices *)

Section VoiceListing.
Context `{Externals}.

Lemma print_lines_untouched lines w :
  untouched w (fold_left (fun w l => print l w) lines w).
Proof.
  revert w. induction lines as [|l lines IH]; intros w; [done|].
  simpl. destruct (IH (print l w)) as (Hf & Ho & Hq).
  unfold untouched. by rewrite Hf, Ho, Hq.
Qed.

Lemma listing_run (args : TypecastBatchTts.Args) manifest_path out_dir w :
  TypecastBatchTts.list_voices_flag args = true ->
  untouched w (snd (TypecastBatchTts.run args manifest_path out_dir w))
  /\ forall w', environ w' = environ w ->
       fst (TypecastBatchTts.run args manifest_path out_dir w')
       = fst (TypecastBatchTts.run args manifest_path out_dir w).
Proof.
  intros Hflag. unfold TypecastBatchTts.run. rewrite Hflag. split.
  - destruct (Typecast None (environ w)) as [e|cli]; [done|].
    destruct (list_voices cli _) as [[e|lines]|]; simpl; [done| |done].
    apply print_lines_untouched.
  - intros w' ->. destruct (Typecast None (environ w)) as [e|cli]; [done|].
    by destruct (list_voices cli _) as [[e|lines]|].
Qed.

(** X19.  With [--list-voices] typecast_batch_tts.py makes no synthesis request
    and changes no file, and the manifest is not read: what follows the
    making of the output directory ends the same way whatever the files
    are, so that how [main] ends depends on the files only through the
    making of the output directory, which comes first. *)
Theorem voice_listing_stands_alone (args : TypecastBatchTts.Args) w fs :
  TypecastBatchTts.list_voices_flag args = true ->
  untouched w (snd (TypecastBatchTts.main args w))
  /\ (forall manifest_path out_dir,
        fst (TypecastBatchTts.run args manifest_path out_dir (with_files fs w))
        = fst (TypecastBatchTts.run args manifest_path out_dir w))
  /\ (fst (ensure_dir (resolve (TypecastBatchTts.out args)) (with_files fs w))
      = fst (ensure_dir (resolve (TypecastBatchTts.out args)) w) ->
      fst (TypecastBatchTts.main args (with_files fs w))
      = fst (TypecastBatchTts.main args w)).
Proof.
  intros Hflag. split; [|split].
  - unfold TypecastBatchTts.main.
    destruct (ensure_dir_frame (resolve (TypecastBatchTts.out args)) w)
      as (Hf & Ho & Hq & _).
    destruct (ensure_dir _ w) as [[e|u] w0]; simpl in *; [done|].
    destruct (listing_run args (resolve (TypecastBatchTts.manifest args))
                (resolve (TypecastBatchTts.out args)) w0 Hflag)
      as [(Hf' & Ho' & Hq') _].
    unfold untouched. by rewrite Hf', Ho', Hq'.
  - intros manifest_path out_dir.
    by apply (proj2 (listing_run args manifest_path out_dir w Hflag)).
  - unfold TypecastBatchTts.main.
    destruct (ensure_dir_frame (resolve (TypecastBatchTts.out args)) w)
      as (_ & _ & _ & He & _).
    destruct (ensure_dir_frame (resolve (TypecastBatchTts.out args))
                (with_files fs w)) as (_ & _ & _ & He' & _).
    destruct (ensure_dir _ w) as [[e|u] w0];
      destruct (ensure_dir _ (with_files fs w)) as [[e'|u'] w0'];
      simpl in *; intros Heq; try discriminate Heq.
    + by injection Heq as ->.
    + apply (proj2 (listing_run args _ _ w0 Hflag)). congruence.
Qed.

End VoiceListing.

Lemma voice_listing_witness :
  let E := Demo.ext Demo.batch_doc Demo.svc_ok in
  let args :=
    {| TypecastBatchTts.manifest := "voice_sets.yaml";
       TypecastBatchTts.out := "out_audio";
       TypecastBatchTts.dry_run := false;
       TypecastBatchTts.overwrite := false;
       TypecastBatchTts.list_voices_flag := true;
       TypecastBatchTts.model_filter := None |} in
  let w := Demo.world_with ∅ in
  let fs : gmap (list string) (list Z) := {[ ["w"; "voice_sets.yaml"] := [1] ]} in
  TypecastBatchTts.list_voices_flag args = true
  /\ untouched w (snd (@TypecastBatchTts.main E args w))
  /\ fst (ensure_dir (@resolve E (TypecastBatchTts.out args)) (with_files fs w))
     = fst (ensure_dir (@resolve E (TypecastBatchTts.out args)) w)
  /\ fst (@TypecastBatchTts.main E args (with_files fs w))
     = fst (@TypecastBatchTts.main E args w)
  /\ fst (@TypecastBatchTts.main E args w) = Exit 2.
Proof.
  intros E args w fs.
  assert (He : fst (ensure_dir (@resolve E (TypecastBatchTts.out args))
                      (with_files fs w))
               = fst (ensure_dir (@resolve E (TypecastBatchTts.out args)) w))
    by (vm_compute; reflexivity).
  destruct (@voice_listing_stands_alone E args w fs eq_refl)
    as (Hu & _ & Hsame).
  split; [reflexivity|]. split; [exact Hu|]. split; [exact He|].
  split; [exact (Hsame He)|]. vm_compute. reflexivity.
Defined.

(** The output directory is made before anything else: with a regular file
    under its name, the listing ends with [FileExistsError]. *)
Lemma voice_listing_needs_the_output_directory :
  let E := Demo.ext Demo.batch_doc Demo.svc_ok in
  let args :=
    {| TypecastBatchTts.manifest := "voice_sets.yaml";
       TypecastBatchTts.out := "audio";
       TypecastBatchTts.dry_run := false;
       TypecastBatchTts.overwrite := false;
       TypecastBatchTts.list_voices_flag := true;
       TypecastBatchTts.model_filter := None |} in
  let w := Demo.world_with ∅ in
  let fs : gmap (list string) (list Z) := {[ ["w"; "audio"] := [1] ]} in
  fst (@TypecastBatchTts.main E args w) = Exit 2
  /\ dirs (snd (@TypecastBatchTts.main E args w)) = {[ ["w"; "audio"] ]} ∪ dirs w
  /\ fst (@TypecastBatchTts.main E args (with_files fs w))
     = Uncaught (Py.Exn "FileExistsError"
                   "[Errno 17] File exists: '/w/audio'").
Proof.
  intros E args w fs. split; [vm_compute; reflexivity|].
  split; [|vm_compute; reflexivity].
  apply (bool_decide_unpack _). vm_compute. exact I.
Qed.

(** ** Slugs short of the cut *)

Lemma strip_by_last p l c :
  last (PyStr.strip_by p l) = Some c -> p c = false.
Proof.
  unfold PyStr.strip_by, PyStr.rstrip_by. intros Hl.
  rewrite <- head_rev_last, rev_involutive in Hl.
  by apply lstrip_by_head in Hl.
Qed.

(** X20.  Every slug has at most [max_len] characters, all of them lower-case
    letters, digits, [.], [_] or [-], and no hyphen in front; a slug shorter
    than [max_len] has no hyphen at its end either, so only a slug of exactly
    [max_len] characters can end with one. *)
Theorem slugs_are_clean_short_of_the_cut s max_len :
  0 < max_len ->
  PyStr.len (BatchNames.slugify s max_len) <= max_len
  /\ slug_string (BatchNames.slugify s max_len)
  /\ head (PyStr.chars (BatchNames.slugify s max_len)) <> Some "-"%char
  /\ (PyStr.len (BatchNames.slugify s max_len) < max_len ->
      last (PyStr.chars (BatchNames.slugify s max_len)) <> Some "-"%char).
Proof.
  intros Hm. destruct (slugify_shape s max_len Hm) as (Hlen & Hall & Hhead).
  split; [exact Hlen|]. split; [exact Hall|]. split; [exact Hhead|].
  unfold BatchNames.slugify.
  set (t := PyStr.strip_chars "-"
              (BatchNames.SAFE_CHARS_sub (PyStr.lower (PyStr.strip s)))).
  destruct (max_len <? PyStr.len t) eqn:Hlt.
  - apply Z.ltb_lt in Hlt. unfold PyStr.prefix, PyStr.len in *.
    rewrite <- length_chars, chars_str, length_take. rewrite <- length_chars in Hlt.
    lia.
  - intros _ Hl. unfold t, PyStr.strip_chars in Hl. rewrite chars_str in Hl.
    apply strip_by_last in Hl. vm_compute in Hl. discriminate Hl.
Qed.

Lemma slugs_are_clean_witness :
  0 < 80
  /\ PyStr.len (BatchNames.slugify "-- Good  Morning! --" 80) < 80
  /\ BatchNames.slugify "-- Good  Morning! --" 80 = "good-morning"
  /\ last (PyStr.chars (BatchNames.slugify "-- Good  Morning! --" 80))
     <> Some "-"%char.
Proof.
  assert (H80 : 0 < 80) by lia.
  assert (Hl : PyStr.len (BatchNames.slugify "-- Good  Morning! --" 80) < 80)
    by (vm_compute; reflexivity).
  destruct (slugs_are_clean_short_of_the_cut "-- Good  Morning! --" 80 H80)
    as (_ & _ & _ & Hlast).
  split; [exact H80|]. split; [exact Hl|].
  split; [vm_compute; reflexivity|exact (Hlast Hl)].
Defined.
